(** * The Confirmation Model: a shallow embedding of the trading pipeline

    The Python sources embedded here are
    - [src/strategy/confirmation1_sweep.py]   (LiquiditySweepDetector)
    - [src/strategy/confirmation2_htf_fvg.py] (HTFFVGDetector)
    - [src/strategy/confirmation3_ifvg.py]    (iFVGDetector)
    - [src/strategy/confirmation4_cisd.py]    (CISDDetector)
    - [src/filters/*.py]                      (the four edge filters)
    - [src/strategy/signal_generator.py]      (SignalGenerator)
    - [src/risk/position_sizing.py]           (PositionSizer)
    - [backtest_main.py]                      (Backtester.simulate_trade)

    Prices and scores are Python floats in the source; they are modelled by
    exact rationals [Q], so every statement below is about the arithmetic the
    code writes down, not about rounding.  Where a statement depends on
    whether a call returns at all, as for the position sizer, the function is
    embedded a second time on floats that can overflow to infinity, underflow
    to zero or be NaN ([Float], [FloatPositionSizer]).  Python objects that are mutated in
    place (the detectors, the confirmation state, the FVG dictionaries) are
    modelled by explicit state passing: a method returns its result together
    with the new state.  A Python exception is an explicit [Raise] result. *)

From Stdlib Require Import String.
From Stdlib Require Import List ZArith QArith Qabs Bool Lia Arith.
Import ListNotations.

Set Implicit Arguments.

(** ** Python primitives *)

Module Py.

(** Comparisons of two floats, as booleans. *)
Definition le (a b : Q) : bool := Qle_bool a b.
Definition lt (a b : Q) : bool := negb (Qle_bool b a).
Definition ge (a b : Q) : bool := Qle_bool b a.
Definition gt (a b : Q) : bool := negb (Qle_bool a b).
Definition eq (a b : Q) : bool := Qeq_bool a b.

(** Exceptions the modelled code can raise. *)
Inductive Exn : Type :=
| ZeroDivisionError
| OverflowError
| ValueError.

Inductive Result (A : Type) : Type :=
| Ok (a : A)
| Raise (e : Exn).
Arguments Ok {A} a.
Arguments Raise {A} e.

Definition bind {A B : Type} (r : Result A) (k : A -> Result B) : Result B :=
  match r with
  | Ok a => k a
  | Raise e => Raise e
  end.

(** [a / b] on floats: a zero divisor raises. *)
Definition div (a b : Q) : Result Q :=
  if eq b 0 then Raise ZeroDivisionError else Ok (a / b)%Q.

(** [int(x)]: truncation toward zero. *)
Definition int (x : Q) : Z := Z.quot (Qnum x) (Zpos (Qden x)).

(** [min(a, b)] and [max(a, b)]: the first argument wins a tie. *)
Definition min2 (a b : Q) : Q := if lt b a then b else a.
Definition max2 (a b : Q) : Q := if gt b a then b else a.

(** [min(l)] and [max(l)] of a non-empty list, given as head and tail. *)
Definition min_list (x : Q) (l : list Q) : Q := fold_left min2 l x.
Definition max_list (x : Q) (l : list Q) : Q := fold_left max2 l x.

(** [l[-n:]]: the last [n] elements (the whole list when it is shorter).
    Only used with [n > 0]. *)
Definition last_n {A : Type} (n : nat) (l : list A) : list A :=
  skipn (length l - n) l.

(** [l[:-1]]: all but the last element. *)
Definition but_last {A : Type} (l : list A) : list A := removelast l.

(** [l[-1]] of a list known to be non-empty; [None] models the IndexError
    that the callers exclude by their length checks. *)
Definition last_opt {A : Type} (l : list A) : option A :=
  match rev l with
  | [] => None
  | x :: _ => Some x
  end.

(** [l[a:b]] for [0 <= a]. *)
Definition slice {A : Type} (a b : nat) (l : list A) : list A :=
  firstn (b - a) (skipn a l).

(** [range(start, stop, -1)] for non-negative bounds:
    [start, start-1, ..., stop+1]. *)
Definition range_down (start stop : nat) : list nat :=
  rev (seq (S stop) (start - stop)).

(** The loop [for x in l: if p x: acc.append(x) else: break]. *)
Fixpoint take_while {A : Type} (p : A -> bool) (l : list A) : list A :=
  match l with
  | [] => []
  | x :: tl => if p x then x :: take_while p tl else []
  end.

End Py.

Notation "x <- r ;; k" := (Py.bind r (fun x => k))
  (at level 61, r at next level, right associativity).

(** ** Data model *)

Inductive Direction : Type := SHORT | LONG.

Definition Direction_eqb (a b : Direction) : bool :=
  match a, b with
  | SHORT, SHORT | LONG, LONG => true
  | _, _ => false
  end.

(** A bar dictionary [{time, open, high, low, close, volume}].  The time is
    an opaque stamp compared with [==]; how the filters read a clock time out
    of it is a parameter of the model (see [Calendar]). *)
Record Bar : Type := mkBar {
  bar_time : Z;
  bar_open : Q;
  bar_high : Q;
  bar_low : Q;
  bar_close : Q;
  bar_volume : Q
}.

(** ** Position sizing ([src/risk/position_sizing.py]) *)

Module PositionSizer.

Record t : Type := mk {
  account_size : Q;
  risk_per_trade : Q;
  max_risk_dollars : Q;
  mnq_brackets : list ((Q * Q) * Z)
}.

(** [__init__(account_size, risk_per_trade)] *)
Definition init (account : Q) (risk : Q) : t :=
  {| account_size := account;
     risk_per_trade := risk;
     max_risk_dollars := account * risk;
     mnq_brackets :=
       [ ((20, 24), 5%Z); ((25, 30), 4%Z); ((31, 40), 3%Z);
         ((41, 60), 2%Z); ((60, 120), 1%Z) ] |}.

(** [_get_mnq_contracts]: the first bracket in insertion order that
    contains [risk_points]; 1 outside all brackets. *)
Fixpoint lookup_bracket (br : list ((Q * Q) * Z)) (risk_points : Q) : Z :=
  match br with
  | [] => 1%Z
  | ((min_points, max_points), contracts) :: tl =>
      if Py.le min_points risk_points && Py.le risk_points max_points
      then contracts
      else lookup_bracket tl risk_points
  end.

Definition _get_mnq_contracts (self : t) (risk_points : Q) : Z :=
  lookup_bracket (mnq_brackets self) risk_points.

Record PositionSize : Type := mkPositionSize {
  ps_symbol : string;
  ps_contracts : Z;
  ps_entry : Q;
  ps_stop : Q;
  ps_risk_points : Q;
  ps_risk_per_contract : Q;
  ps_total_risk_dollars : Q;
  ps_risk_percentage : Q;
  ps_tick_value : Q
}.

Definition calculate_position_size (self : t) (symbol : string)
    (entry stop tick_value min_tick : Q) : Py.Result PositionSize :=
  let risk_points := Qabs (entry - stop) in
  risk_ticks <- Py.div risk_points min_tick ;;
  let risk_per_contract := risk_ticks * tick_value in
  q <- Py.div (max_risk_dollars self) risk_per_contract ;;
  let contracts_by_risk := Py.int q in
  let contracts :=
    if String.eqb symbol "MNQ"
    then Z.min contracts_by_risk (_get_mnq_contracts self risk_points)
    else contracts_by_risk in
  let contracts := Z.max 1 contracts in
  let actual_risk_dollars := inject_Z contracts * risk_per_contract in
  frac <- Py.div actual_risk_dollars (account_size self) ;;
  Py.Ok {| ps_symbol := symbol;
           ps_contracts := contracts;
           ps_entry := entry;
           ps_stop := stop;
           ps_risk_points := risk_points;
           ps_risk_per_contract := risk_per_contract;
           ps_total_risk_dollars := actual_risk_dollars;
           ps_risk_percentage := frac * 100;
           ps_tick_value := tick_value |}.

(** [validate_position] *)
Definition validate_position (self : t) (p : PositionSize) : bool :=
  if Py.gt (ps_total_risk_dollars p) (max_risk_dollars self * (11 # 10))
  then false
  else if (ps_contracts p <? 1)%Z then false else true.

(** [update_account_size] *)
Definition update_account_size (self : t) (new_size : Q) : t :=
  {| account_size := new_size;
     risk_per_trade := risk_per_trade self;
     max_risk_dollars := new_size * risk_per_trade self;
     mnq_brackets := mnq_brackets self |}.

End PositionSizer.

(** ** Python floats: what the range of a double does *)

Module Float.

(** A float: a finite number, an infinity or NaN. *)
Inductive t : Type :=
| Fin (q : Q)
| Inf (negative : bool)
| NaN.

(** The largest finite double; the magnitude from which a result rounds to
    infinity; the smallest positive double; the magnitude up to which a
    result rounds to zero. *)
Definition max_finite : Q := inject_Z (2 ^ 1024 - 2 ^ 971).
Definition overflow_from : Q := inject_Z (2 ^ 1024 - 2 ^ 970).
Definition min_positive : Q := 1 # (2 ^ 1074).
Definition underflow_to : Q := 1 # (2 ^ 1075).

Definition negative (q : Q) : bool := Py.lt q 0.

(** The float for an exact result [q].  Inside the range of the finite
    doubles the result is kept as it is (rounding to 53 bits is not
    modelled); outside, it becomes what the range makes of it. *)
Definition round (q : Q) : t :=
  let a := Qabs q in
  if Py.ge a overflow_from then Inf (negative q)
  else if Py.gt a max_finite
  then Fin (if negative q then - max_finite else max_finite)
  else if Py.le a underflow_to then Fin 0
  else if Py.lt a min_positive
  then Fin (if negative q then - min_positive else min_positive)
  else Fin q.

Definition is_zero (x : t) : bool :=
  match x with
  | Fin q => Py.eq q 0
  | _ => false
  end.

Definition is_negative (x : t) : bool :=
  match x with
  | Fin q => negative q
  | Inf s => s
  | NaN => false
  end.

(** [a - b] *)
Definition sub (a b : t) : t :=
  match a, b with
  | NaN, _ | _, NaN => NaN
  | Inf s, Inf s' => if Bool.eqb s s' then NaN else Inf s
  | Inf s, Fin _ => Inf s
  | Fin _, Inf s => Inf (negb s)
  | Fin x, Fin y => round (x - y)
  end.

(** [abs(a)] *)
Definition abs (a : t) : t :=
  match a with
  | Fin x => Fin (Qabs x)
  | Inf _ => Inf false
  | NaN => NaN
  end.

(** [a * b] *)
Definition mul (a b : t) : t :=
  match a, b with
  | NaN, _ | _, NaN => NaN
  | Inf s, Inf s' => Inf (xorb s s')
  | Inf s, Fin y => if Py.eq y 0 then NaN else Inf (xorb s (negative y))
  | Fin x, Inf s => if Py.eq x 0 then NaN else Inf (xorb (negative x) s)
  | Fin x, Fin y => round (x * y)
  end.

(** [a / b]: a zero divisor raises, whatever the dividend. *)
Definition div (a b : t) : Py.Result t :=
  if is_zero b then Py.Raise Py.ZeroDivisionError
  else Py.Ok match a, b with
             | NaN, _ | _, NaN => NaN
             | Inf _, Inf _ => NaN
             | Inf s, Fin y => Inf (xorb s (negative y))
             | Fin _, Inf _ => Fin 0
             | Fin x, Fin y => round (x / y)
             end.

(** [int(a)]: truncation toward zero; OverflowError on an infinity,
    ValueError on NaN. *)
Definition int (a : t) : Py.Result Z :=
  match a with
  | Fin q => Py.Ok (Py.int q)
  | Inf _ => Py.Raise Py.OverflowError
  | NaN => Py.Raise Py.ValueError
  end.

(** The conversion of an [int] operand of a float operation: OverflowError
    when the integer is too large for a double. *)
Definition of_int (z : Z) : Py.Result t :=
  if Py.ge (Qabs (inject_Z z)) overflow_from then Py.Raise Py.OverflowError
  else Py.Ok (Fin (inject_Z z)).

(** The magnitudes of the non-zero finite doubles. *)
Definition in_range (x : Q) : Prop :=
  min_positive <= Qabs x /\ Qabs x <= max_finite.

(** [a <= b]: false as soon as one side is NaN. *)
Definition le (a b : t) : bool :=
  match a, b with
  | NaN, _ | _, NaN => false
  | Fin x, Fin y => Py.le x y
  | Inf true, _ => true
  | _, Inf false => true
  | _, _ => false
  end.

End Float.

(** ** Position sizing on floats ([src/risk/position_sizing.py]) *)

(** [calculate_position_size] once more, on arguments that are floats and
    with the float operations above, for a sizer whose attributes are
    finite numbers: the paths on which the call does not return are all
    there. *)
Module FloatPositionSizer.

Record PositionSize : Type := mkPositionSize {
  ps_symbol : string;
  ps_contracts : Z;
  ps_entry : Float.t;
  ps_stop : Float.t;
  ps_risk_points : Float.t;
  ps_risk_per_contract : Float.t;
  ps_total_risk_dollars : Float.t;
  ps_risk_percentage : Float.t;
  ps_tick_value : Float.t
}.

Fixpoint lookup_bracket (br : list ((Q * Q) * Z)) (risk_points : Float.t) : Z :=
  match br with
  | [] => 1%Z
  | ((min_points, max_points), contracts) :: tl =>
      if Float.le (Float.Fin min_points) risk_points
         && Float.le risk_points (Float.Fin max_points)
      then contracts
      else lookup_bracket tl risk_points
  end.

Definition _get_mnq_contracts (self : PositionSizer.t) (risk_points : Float.t)
    : Z :=
  lookup_bracket (PositionSizer.mnq_brackets self) risk_points.

Definition calculate_position_size (self : PositionSizer.t) (symbol : string)
    (entry stop tick_value min_tick : Float.t) : Py.Result PositionSize :=
  let risk_points := Float.abs (Float.sub entry stop) in
  risk_ticks <- Float.div risk_points min_tick ;;
  let risk_per_contract := Float.mul risk_ticks tick_value in
  q <- Float.div (Float.Fin (PositionSizer.max_risk_dollars self))
         risk_per_contract ;;
  contracts_by_risk <- Float.int q ;;
  let contracts :=
    if String.eqb symbol "MNQ"
    then Z.min contracts_by_risk (_get_mnq_contracts self risk_points)
    else contracts_by_risk in
  let contracts := Z.max 1 contracts in
  c <- Float.of_int contracts ;;
  let actual_risk_dollars := Float.mul c risk_per_contract in
  frac <- Float.div actual_risk_dollars
            (Float.Fin (PositionSizer.account_size self)) ;;
  Py.Ok {| ps_symbol := symbol;
           ps_contracts := contracts;
           ps_entry := entry;
           ps_stop := stop;
           ps_risk_points := risk_points;
           ps_risk_per_contract := risk_per_contract;
           ps_total_risk_dollars := actual_risk_dollars;
           ps_risk_percentage := Float.mul frac (Float.Fin 100);
           ps_tick_value := tick_value |}.

End FloatPositionSizer.

(** ** Confirmation 1: liquidity sweep ([src/strategy/confirmation1_sweep.py]) *)

Module LiquiditySweepDetector.

Inductive SwingType : Type := swing_high | swing_low.

Record Swing : Type := mkSwing {
  swing_index : nat;
  swing_time : Z;
  swing_price : Q;
  swing_type : SwingType
}.

Inductive SweepType : Type := buyside_sweep | sellside_sweep.

(** The dictionary returned by [detect_sweep].  [sw_extreme] is the entry
    stored under the key ['sweep_high'] for a buyside sweep and under
    ['sweep_low'] for a sellside sweep. *)
Record Sweep : Type := mkSweep {
  sw_type : SweepType;
  sw_swing_level : Q;
  sw_extreme : Q;
  sw_close : Q;
  sw_time : Z;
  sw_direction : Direction
}.

(** The detector object: its two constructor arguments and the two lists
    that [identify_swings] overwrites. *)
Record t : Type := mk {
  min_swing_candles : nat;
  sweep_buffer_ticks : Z;
  swing_highs : list Swing;
  swing_lows : list Swing
}.

Definition init (min_swing : nat) (buffer : Z) : t :=
  {| min_swing_candles := min_swing;
     sweep_buffer_ticks := buffer;
     swing_highs := [];
     swing_lows := [] |}.

(** The two inner loops over [range(i - w, i)] and [range(i + 1, i + w + 1)]:
    the flag stays true iff no neighbour reaches the current value. *)
Definition is_swing_high (w : nat) (bars : list Bar) (i : nat) (cur : Bar) : bool :=
  forallb (fun b => negb (Py.ge (bar_high b) (bar_high cur)))
          (Py.slice (i - w) i bars)
  && forallb (fun b => negb (Py.ge (bar_high b) (bar_high cur)))
             (Py.slice (i + 1) (i + w + 1) bars).

Definition is_swing_low (w : nat) (bars : list Bar) (i : nat) (cur : Bar) : bool :=
  forallb (fun b => negb (Py.le (bar_low b) (bar_low cur)))
          (Py.slice (i - w) i bars)
  && forallb (fun b => negb (Py.le (bar_low b) (bar_low cur)))
             (Py.slice (i + 1) (i + w + 1) bars).

(** The indices visited by [for i in range(w, len(df) - w)]. *)
Definition swing_range (w len : nat) : list nat := seq w (len - w - w).

Definition scan_highs (w : nat) (bars : list Bar) : list Swing :=
  flat_map (fun i =>
    match nth_error bars i with
    | Some cur =>
        if is_swing_high w bars i cur
        then [ {| swing_index := i; swing_time := bar_time cur;
                  swing_price := bar_high cur; swing_type := swing_high |} ]
        else []
    | None => []
    end) (swing_range w (List.length bars)).

Definition scan_lows (w : nat) (bars : list Bar) : list Swing :=
  flat_map (fun i =>
    match nth_error bars i with
    | Some cur =>
        if is_swing_low w bars i cur
        then [ {| swing_index := i; swing_time := bar_time cur;
                  swing_price := bar_low cur; swing_type := swing_low |} ]
        else []
    | None => []
    end) (swing_range w (List.length bars)).

(** [identify_swings(bars, lookback=20)]: with fewer than [lookback] bars the
    method returns before touching the object. *)
Definition identify_swings (self : t) (bars : list Bar) (lookback : nat) : t :=
  if (List.length bars <? lookback)%nat then self
  else {| min_swing_candles := min_swing_candles self;
          sweep_buffer_ticks := sweep_buffer_ticks self;
          swing_highs := scan_highs (min_swing_candles self) bars;
          swing_lows := scan_lows (min_swing_candles self) bars |}.

Definition is_empty {A : Type} (l : list A) : bool :=
  match l with [] => true | _ => false end.

(** The buyside branch of [detect_sweep], against [swing_highs[-1]]. *)
Definition buyside_check (self : t) (current_bar : Bar) (min_tick : Q)
    : option Sweep :=
  match Py.last_opt (swing_highs self) with
  | None => None
  | Some latest_swing_high =>
      let swing_high_price := swing_price latest_swing_high in
      let sweep_threshold :=
        swing_high_price + inject_Z (sweep_buffer_ticks self) * min_tick in
      if Py.ge (bar_high current_bar) sweep_threshold
         && Py.lt (bar_close current_bar) swing_high_price
      then Some {| sw_type := buyside_sweep;
                   sw_swing_level := swing_high_price;
                   sw_extreme := bar_high current_bar;
                   sw_close := bar_close current_bar;
                   sw_time := bar_time current_bar;
                   sw_direction := SHORT |}
      else None
  end.

(** The sellside branch of [detect_sweep], against [swing_lows[-1]]. *)
Definition sellside_check (self : t) (current_bar : Bar) (min_tick : Q)
    : option Sweep :=
  match Py.last_opt (swing_lows self) with
  | None => None
  | Some latest_swing_low =>
      let swing_low_price := swing_price latest_swing_low in
      let sweep_threshold :=
        swing_low_price - inject_Z (sweep_buffer_ticks self) * min_tick in
      if Py.le (bar_low current_bar) sweep_threshold
         && Py.gt (bar_close current_bar) swing_low_price
      then Some {| sw_type := sellside_sweep;
                   sw_swing_level := swing_low_price;
                   sw_extreme := bar_low current_bar;
                   sw_close := bar_close current_bar;
                   sw_time := bar_time current_bar;
                   sw_direction := LONG |}
      else None
  end.

(** [detect_sweep(current_bar, previous_bars, min_tick)]: the swings are
    computed only while both lists are empty; the result comes with the
    detector as the call leaves it. *)
Definition detect_sweep (self : t) (current_bar : Bar)
    (previous_bars : list Bar) (min_tick : Q) : option Sweep * t :=
  let self1 :=
    if is_empty (swing_highs self) && is_empty (swing_lows self)
    then identify_swings self previous_bars 20
    else self in
  if is_empty (swing_highs self1) && is_empty (swing_lows self1)
  then (None, self1)
  else
    match buyside_check self1 current_bar min_tick with
    | Some s => (Some s, self1)
    | None => (sellside_check self1 current_bar min_tick, self1)
    end.

(** [get_liquidity_levels]: the prices of the last five swings of each kind. *)
Definition buyside_liquidity (self : t) : list Q :=
  map swing_price (Py.last_n 5 (swing_highs self)).
Definition sellside_liquidity (self : t) : list Q :=
  map swing_price (Py.last_n 5 (swing_lows self)).

End LiquiditySweepDetector.

(** ** Confirmation 2: higher-timeframe FVG ([src/strategy/confirmation2_htf_fvg.py]) *)

Module HTFFVGDetector.

Inductive FVGType : Type := bearish | bullish.

Record FVG : Type := mkFVG {
  fvg_type : FVGType;
  fvg_top : Q;
  fvg_bottom : Q;
  fvg_size : Q;
  fvg_start_index : nat;
  fvg_start_time : Z;
  fvg_direction : Direction;
  fvg_filled : bool;
  fvg_age : Z
}.

(** The two in-place updates [check_delivery] performs on an FVG. *)
Definition set_age (f : FVG) (a : Z) : FVG :=
  {| fvg_type := fvg_type f; fvg_top := fvg_top f; fvg_bottom := fvg_bottom f;
     fvg_size := fvg_size f; fvg_start_index := fvg_start_index f;
     fvg_start_time := fvg_start_time f; fvg_direction := fvg_direction f;
     fvg_filled := fvg_filled f; fvg_age := a |}.

Definition set_filled (f : FVG) : FVG :=
  {| fvg_type := fvg_type f; fvg_top := fvg_top f; fvg_bottom := fvg_bottom f;
     fvg_size := fvg_size f; fvg_start_index := fvg_start_index f;
     fvg_start_time := fvg_start_time f; fvg_direction := fvg_direction f;
     fvg_filled := true; fvg_age := fvg_age f |}.

(** The dictionary returned on a confirmed delivery; ['fvg'] is the FVG as
    the call left it (its age already incremented). *)
Record Delivery : Type := mkDelivery {
  dl_fvg : FVG;
  dl_delivery_confirmed : bool;
  dl_delivery_time : Z;
  dl_direction : Direction
}.

Record t : Type := mk {
  min_fvg_size_ticks : Z;
  max_age : Z;
  active_fvgs : list FVG
}.

Definition init (min_size : Z) (age : Z) : t :=
  {| min_fvg_size_ticks := min_size; max_age := age; active_fvgs := [] |}.

(** One iteration of the loop of [identify_fvgs] on the triple at index [i]:
    the bearish test first, then the bullish one; both may append. *)
Definition fvgs_at (min_size : Z) (min_tick : Q) (i : nat)
    (candle1 candle2 candle3 : Bar) : list FVG :=
  let bearish_gap_top := bar_high candle1 in
  let bearish_gap_bottom := bar_low candle3 in
  let bearish_gap_size := bearish_gap_top - bearish_gap_bottom in
  let bullish_gap_bottom := bar_low candle1 in
  let bullish_gap_top := bar_high candle3 in
  let bullish_gap_size := bullish_gap_top - bullish_gap_bottom in
  (if Py.lt (bar_high candle2) bearish_gap_top
      && Py.gt (bar_low candle2) bearish_gap_bottom
      && Py.ge bearish_gap_size (inject_Z min_size * min_tick)
   then [ {| fvg_type := bearish; fvg_top := bearish_gap_top;
             fvg_bottom := bearish_gap_bottom; fvg_size := bearish_gap_size;
             fvg_start_index := i; fvg_start_time := bar_time candle1;
             fvg_direction := SHORT; fvg_filled := false; fvg_age := 0%Z |} ]
   else [])
  ++
  (if Py.gt (bar_low candle2) bullish_gap_bottom
      && Py.lt (bar_high candle2) bullish_gap_top
      && Py.ge bullish_gap_size (inject_Z min_size * min_tick)
   then [ {| fvg_type := bullish; fvg_top := bullish_gap_top;
             fvg_bottom := bullish_gap_bottom; fvg_size := bullish_gap_size;
             fvg_start_index := i; fvg_start_time := bar_time candle1;
             fvg_direction := LONG; fvg_filled := false; fvg_age := 0%Z |} ]
   else []).

(** [for i in range(len(df) - 2)], walking the list of bars. *)
Fixpoint scan_fvgs (min_size : Z) (min_tick : Q) (i : nat) (bars : list Bar)
    : list FVG :=
  match bars with
  | candle1 :: tl =>
      match tl with
      | candle2 :: candle3 :: _ =>
          fvgs_at min_size min_tick i candle1 candle2 candle3
          ++ scan_fvgs min_size min_tick (S i) tl
      | _ => []
      end
  | [] => []
  end.

Definition identify_fvgs (self : t) (bars : list Bar) (min_tick : Q) : list FVG :=
  scan_fvgs (min_fvg_size_ticks self) min_tick 0 bars.

(** [update_fvgs]: rescan the last 50 bars and keep the unfilled FVGs. *)
Definition update_fvgs (self : t) (bars : list Bar) (min_tick : Q) : t :=
  let new_fvgs := identify_fvgs self (Py.last_n 50 bars) min_tick in
  {| min_fvg_size_ticks := min_fvg_size_ticks self;
     max_age := max_age self;
     active_fvgs := filter (fun f => negb (fvg_filled f)) new_fvgs |}.

(** What one loop iteration of [check_delivery] does with an unfilled FVG
    whose age has just been incremented and does not exceed [max_age]. *)
Inductive Verdict : Type :=
| Delivered (d : Direction)
| Invalidated
| Untouched.

Definition judge (f : FVG) (current_bar : Bar) : Verdict :=
  match fvg_type f with
  | bearish =>
      if Py.ge (bar_high current_bar) (fvg_bottom f) then
        if Py.lt (bar_close current_bar) (fvg_bottom f) then Delivered SHORT
        else if Py.gt (bar_close current_bar) (fvg_top f) then Invalidated
        else Untouched
      else Untouched
  | bullish =>
      if Py.le (bar_low current_bar) (fvg_top f) then
        if Py.gt (bar_close current_bar) (fvg_top f) then Delivered LONG
        else if Py.lt (bar_close current_bar) (fvg_bottom f) then Invalidated
        else Untouched
      else Untouched
  end.

(** [check_delivery(fvgs, current_bar)].  The FVG dictionaries are mutated
    in place, so the list as the call leaves it is returned as well; the
    [return] inside the loop leaves the rest of the list as it was. *)
Fixpoint check_delivery (max_age : Z) (fvgs : list FVG) (current_bar : Bar)
    : option Delivery * list FVG :=
  match fvgs with
  | [] => (None, [])
  | fvg :: rest =>
      if fvg_filled fvg then
        let '(r, rest') := check_delivery max_age rest current_bar in
        (r, fvg :: rest')
      else
        let fvg1 := set_age fvg (fvg_age fvg + 1) in
        if (fvg_age fvg1 >? max_age)%Z then
          let '(r, rest') := check_delivery max_age rest current_bar in
          (r, set_filled fvg1 :: rest')
        else
          match judge fvg1 current_bar with
          | Delivered d =>
              (Some {| dl_fvg := fvg1; dl_delivery_confirmed := true;
                       dl_delivery_time := bar_time current_bar;
                       dl_direction := d |},
               fvg1 :: rest)
          | Invalidated =>
              let '(r, rest') := check_delivery max_age rest current_bar in
              (r, set_filled fvg1 :: rest')
          | Untouched =>
              let '(r, rest') := check_delivery max_age rest current_bar in
              (r, fvg1 :: rest')
          end
  end.

End HTFFVGDetector.

(** ** Confirmation 3: inverse FVG ([src/strategy/confirmation3_ifvg.py]) *)

Module iFVGDetector.

Inductive InversionType : Type :=
| bullish_fvg_disrespected
| bearish_fvg_disrespected.

Record Inversion : Type := mkInversion {
  iv_type : InversionType;
  iv_fvg_top : Q;
  iv_fvg_bottom : Q;
  iv_inversion_close : Q;
  iv_inversion_time : Z;
  iv_direction : Direction
}.

(** [detect_ifvg_inversion(bars, direction, min_tick)].  [recent = bars[-4:]]
    has exactly four bars once [len(bars) >= 4], so the loop over
    [range(len(recent) - 3)] runs once, with [i = 0]. *)
Definition detect_ifvg_inversion (min_fvg_size_ticks : Z) (bars : list Bar)
    (direction : Direction) (min_tick : Q) : option Inversion :=
  if (List.length bars <? 4)%nat then None
  else
    match Py.last_n 4 bars with
    | [c1; c2; c3; c4] =>
        match direction with
        | SHORT =>
            let bullish_gap_bottom := bar_low c1 in
            let bullish_gap_top := bar_high c3 in
            let gap_size := bullish_gap_top - bullish_gap_bottom in
            if Py.gt (bar_low c2) bullish_gap_bottom
               && Py.lt (bar_high c2) bullish_gap_top
               && Py.ge gap_size (inject_Z min_fvg_size_ticks * min_tick)
               && Py.lt (bar_close c4) bullish_gap_bottom
            then Some {| iv_type := bullish_fvg_disrespected;
                         iv_fvg_top := bullish_gap_top;
                         iv_fvg_bottom := bullish_gap_bottom;
                         iv_inversion_close := bar_close c4;
                         iv_inversion_time := bar_time c4;
                         iv_direction := SHORT |}
            else None
        | LONG =>
            let bearish_gap_top := bar_high c1 in
            let bearish_gap_bottom := bar_low c3 in
            let gap_size := bearish_gap_top - bearish_gap_bottom in
            if Py.lt (bar_high c2) bearish_gap_top
               && Py.gt (bar_low c2) bearish_gap_bottom
               && Py.ge gap_size (inject_Z min_fvg_size_ticks * min_tick)
               && Py.gt (bar_close c4) bearish_gap_top
            then Some {| iv_type := bearish_fvg_disrespected;
                         iv_fvg_top := bearish_gap_top;
                         iv_fvg_bottom := bearish_gap_bottom;
                         iv_inversion_close := bar_close c4;
                         iv_inversion_time := bar_time c4;
                         iv_direction := LONG |}
            else None
        end
    | _ => None
    end.

End iFVGDetector.

(** ** Confirmation 4: CISD ([src/strategy/confirmation4_cisd.py]) *)

Module CISDDetector.

Record CISD : Type := mkCISD {
  cisd_level : Q;
  cisd_direction : Direction;
  cisd_first_candle : Bar;
  cisd_current_close : Q;
  cisd_time : Z
}.

(** [for i, bar in enumerate(bars): if bar['time'] == sweep_time: ... break] *)
Fixpoint find_sweep_index (i : nat) (bars : list Bar) (sweep_time : Z)
    : option nat :=
  match bars with
  | [] => None
  | bar :: tl =>
      if (bar_time bar =? sweep_time)%Z then Some i
      else find_sweep_index (S i) tl sweep_time
  end.

Definition up_close (bar : Bar) : bool := Py.gt (bar_close bar) (bar_open bar).
Definition down_close (bar : Bar) : bool := Py.lt (bar_close bar) (bar_open bar).

(** The indices of [range(sweep_index - 1, max(0, sweep_index - 10), -1)]. *)
Definition lookback_indices (sweep_index : nat) : list nat :=
  Py.range_down (sweep_index - 1) (Nat.max 0 (sweep_index - 10)).

(** [bars[i]] for each index of the list, in order. *)
Definition bars_at (bars : list Bar) (idx : list nat) : list Bar :=
  flat_map (fun i => match nth_error bars i with
                     | Some b => [b]
                     | None => []
                     end) idx.

(** The series collected by the backward loop with its [break]. *)
Definition close_series (same_direction : Bar -> bool) (bars : list Bar)
    (sweep_index : nat) : list Bar :=
  Py.take_while same_direction (bars_at bars (lookback_indices sweep_index)).

Definition detect_cisd (bars : list Bar) (sweep_time : Z)
    (direction : Direction) : option CISD :=
  if (List.length bars <? 10)%nat then None
  else
    match find_sweep_index 0 bars sweep_time with
    | None => None
    | Some sweep_index =>
        if (sweep_index <? 5)%nat then None
        else
          match direction with
          | SHORT =>
              let up_close_series := close_series up_close bars sweep_index in
              match Py.last_opt up_close_series, Py.last_opt bars with
              | Some first_candle, Some current_bar =>
                  let level := bar_open first_candle in
                  if Py.lt (bar_close current_bar) level
                  then Some {| cisd_level := level;
                               cisd_direction := SHORT;
                               cisd_first_candle := first_candle;
                               cisd_current_close := bar_close current_bar;
                               cisd_time := bar_time current_bar |}
                  else None
              | _, _ => None
              end
          | LONG =>
              let down_close_series := close_series down_close bars sweep_index in
              match Py.last_opt down_close_series, Py.last_opt bars with
              | Some first_candle, Some current_bar =>
                  let level := bar_open first_candle in
                  if Py.gt (bar_close current_bar) level
                  then Some {| cisd_level := level;
                               cisd_direction := LONG;
                               cisd_first_candle := first_candle;
                               cisd_current_close := bar_close current_bar;
                               cisd_time := bar_time current_bar |}
                  else None
              | _, _ => None
              end
          end
    end.

End CISDDetector.

(** ** Edge filters ([src/filters/]) *)

(** How clock times are read out of a bar's time stamp.  Both readings are
    library code (datetime, pytz) outside the repository and are parameters
    of the model.  Clock times are microseconds since midnight. *)
Inductive TimeReading : Type :=
| InvalidTimeFormat            (* a string that [fromisoformat] rejects *)
| InvalidTimeType              (* neither a string nor a datetime *)
| LocalTime (us : Z).          (* the time of day in the filter's time zone *)

Record Calendar : Type := mkCalendar {
  (** [TimeFilter.is_optimal_time]: the stamp converted to America/New_York. *)
  ny_time : Z -> TimeReading;
  (** [SweepQualityScorer._is_overnight_extreme]: [bar_time.time()], taken
      without conversion; [None] where the loop takes [continue]. *)
  naive_time : Z -> option Z
}.

(** [datetime.time(h, m)] *)
Definition clock (h m : Z) : Z := ((h * 3600 + m * 60) * 1000000)%Z.

Module TimeFilter.

Inductive Reason : Type :=
| INVALID_TIME_FORMAT | INVALID_TIME_TYPE
| OPTIMAL_WINDOW | ACCEPTABLE_WINDOW | OUTSIDE_HOURS.

Definition optimal_start : Z := clock 9 30.
Definition optimal_end : Z := clock 10 0.
Definition acceptable_start : Z := clock 9 30.
Definition acceptable_end : Z := clock 11 0.

Definition is_optimal_time (cal : Calendar) (signal_time : Z) : bool * Reason :=
  match ny_time cal signal_time with
  | InvalidTimeFormat => (false, INVALID_TIME_FORMAT)
  | InvalidTimeType => (false, INVALID_TIME_TYPE)
  | LocalTime current_time =>
      if ((optimal_start <=? current_time) && (current_time <=? optimal_end))%Z
      then (true, OPTIMAL_WINDOW)
      else if ((acceptable_start <=? current_time)
               && (current_time <=? acceptable_end))%Z
      then (true, ACCEPTABLE_WINDOW)
      else (false, OUTSIDE_HOURS)
  end.

Definition get_quality_multiplier (cal : Calendar) (signal_time : Z) : Q :=
  let '(is_optimal, reason) := is_optimal_time cal signal_time in
  if negb is_optimal then 0
  else match reason with
       | OPTIMAL_WINDOW => 1
       | ACCEPTABLE_WINDOW => 7 # 10
       | _ => 0
       end.

End TimeFilter.

(** What one call of [get_current_vix] sees of the outside world: the wall
    clock ([datetime.now()], in seconds) and what the download would give. *)
Inductive Fetch : Type :=
| FetchClose (vix : Q)     (* a non-empty history; its last close *)
| FetchEmpty               (* an empty history *)
| FetchFails.              (* any exception inside the [try] *)

Record VixReading : Type := mkVixReading {
  vr_now : Q;
  vr_fetch : Fetch
}.

(** The outside world: the reading seen by the n-th call of
    [get_current_vix] on a filter object. *)
Definition World : Type := nat -> VixReading.

Module VolatilityFilter.

Inductive Reason : Type :=
| VIX_UNAVAILABLE | LOW_VOL_OPTIMAL | MODERATE_VOL_ACCEPTABLE
| HIGH_VOL_UNFAVORABLE.

(** The filter object; [calls] counts the calls of [get_current_vix] made
    on it and selects the reading of the world. *)
Record t : Type := mk {
  max_vix : Q;
  cache_minutes : Q;
  cached_vix : option Q;
  cache_time : option Q;
  calls : nat
}.

Definition init (max_vix : Q) : t :=
  {| max_vix := max_vix; cache_minutes := 60;
     cached_vix := None; cache_time := None; calls := 0 |}.

Definition get_current_vix (w : World) (self : t) : option Q * t :=
  let r := w (calls self) in
  let now := vr_now r in
  let self1 :=
    {| max_vix := max_vix self; cache_minutes := cache_minutes self;
       cached_vix := cached_vix self; cache_time := cache_time self;
       calls := S (calls self) |} in
  let fresh :=
    match cached_vix self, cache_time self with
    | Some v, Some t0 =>
        if Py.lt (now - t0) (cache_minutes self * 60) then Some v else None
    | _, _ => None
    end in
  match fresh with
  | Some v => (Some v, self1)
  | None =>
      match vr_fetch r with
      | FetchClose current_vix =>
          (Some current_vix,
           {| max_vix := max_vix self; cache_minutes := cache_minutes self;
              cached_vix := Some current_vix; cache_time := Some now;
              calls := S (calls self) |})
      | FetchFails => (Some (max_vix self + 1), self1)
      | FetchEmpty => (None, self1)
      end
  end.

Definition is_favorable_volatility (w : World) (self : t)
    : (bool * Reason * Q) * t :=
  let '(vix, self1) := get_current_vix w self in
  match vix with
  | None => ((false, VIX_UNAVAILABLE, 999), self1)
  | Some vix =>
      if Py.le vix 15 then ((true, LOW_VOL_OPTIMAL, vix), self1)
      else if Py.le vix (max_vix self1)
      then ((true, MODERATE_VOL_ACCEPTABLE, vix), self1)
      else ((false, HIGH_VOL_UNFAVORABLE, vix), self1)
  end.

Definition get_quality_multiplier (w : World) (self : t) : Q * t :=
  let '((is_favorable, reason, _), self1) := is_favorable_volatility w self in
  (if negb is_favorable then 0
   else match reason with
        | LOW_VOL_OPTIMAL => 1
        | MODERATE_VOL_ACCEPTABLE => 7 # 10
        | _ => 0
        end,
   self1).

End VolatilityFilter.

Module StructureFilter.

Inductive Reason : Type :=
| INSUFFICIENT_DATA
| SHORT_AT_EXTREME_TOP | SHORT_TOO_LOW_IN_RANGE
| LONG_AT_EXTREME_BOTTOM | LONG_TOO_HIGH_IN_RANGE.

Definition lookback_bars : nat := 78.
Definition short_min_position : Q := 70 # 100.
Definition long_max_position : Q := 30 # 100.

Definition calculate_range_position (entry_price : Q) (bars : list Bar)
    : option Q :=
  if (List.length bars <? lookback_bars)%nat then None
  else
    match Py.last_n lookback_bars bars with
    | [] => None
    | b :: tl =>
        let range_high := Py.max_list (bar_high b) (map bar_high tl) in
        let range_low := Py.min_list (bar_low b) (map bar_low tl) in
        let range_size := range_high - range_low in
        if Py.eq range_size 0 then Some (1 # 2)
        else Some ((entry_price - range_low) / range_size)
    end.

Definition is_at_extreme (direction : Direction) (entry_price : Q)
    (bars : list Bar) : bool * Reason * Q :=
  match calculate_range_position entry_price bars with
  | None => (false, INSUFFICIENT_DATA, 0)
  | Some position =>
      match direction with
      | SHORT =>
          if Py.ge position short_min_position
          then (true, SHORT_AT_EXTREME_TOP, position)
          else (false, SHORT_TOO_LOW_IN_RANGE, position)
      | LONG =>
          if Py.le position long_max_position
          then (true, LONG_AT_EXTREME_BOTTOM, position)
          else (false, LONG_TOO_HIGH_IN_RANGE, position)
      end
  end.

Definition get_quality_score (direction : Direction) (entry_price : Q)
    (bars : list Bar) : Q :=
  match calculate_range_position entry_price bars with
  | None => 0
  | Some position =>
      match direction with
      | SHORT =>
          if Py.ge position short_min_position then
            let normalized :=
              (position - short_min_position) / (1 - short_min_position) in
            (7 # 10) + normalized * (3 # 10)
          else 0
      | LONG =>
          if Py.le position long_max_position then
            let normalized :=
              (long_max_position - position) / long_max_position in
            (7 # 10) + normalized * (3 # 10)
          else 0
      end
  end.

End StructureFilter.

Module SweepQualityScorer.

Import LiquiditySweepDetector.

Definition overnight_session_start : Z := clock 17 0.
Definition overnight_session_end : Z := clock 9 30.

Definition _is_overnight_extreme (cal : Calendar) (level : Q)
    (bars : list Bar) : bool :=
  existsb (fun bar =>
    match naive_time cal (bar_time bar) with
    | None => false
    | Some t =>
        ((overnight_session_start <=? t) || (t <=? overnight_session_end))%Z
        && (Py.lt (Qabs (bar_high bar - level)) 10
            || Py.lt (Qabs (bar_low bar - level)) 10)
    end) (Py.last_n 100 bars).

Definition _is_previous_day_extreme (level : Q) (bars : list Bar) : bool :=
  if (List.length bars <? 156)%nat then false
  else
    match Py.slice (List.length bars - 156) (List.length bars - 78) bars with
    | [] => false
    | b :: tl =>
        let prev_day_high := Py.max_list (bar_high b) (map bar_high tl) in
        let prev_day_low := Py.min_list (bar_low b) (map bar_low tl) in
        Py.lt (Qabs (level - prev_day_high)) 5
        || Py.lt (Qabs (level - prev_day_low)) 5
    end.

Definition _is_clean_sweep (sweep_data : Sweep) : bool :=
  let wick_size := Qabs (sw_extreme sweep_data - sw_close sweep_data) in
  Py.gt wick_size 5.

Definition score_sweep (cal : Calendar) (sweep_data : Sweep)
    (bars : list Bar) : Q :=
  let swept_level := sw_swing_level sweep_data in
  let score := 5 in
  let score := if _is_overnight_extreme cal swept_level bars
               then score + 3 else score in
  let score := if _is_previous_day_extreme swept_level bars
               then score + 2 else score in
  let score := if _is_clean_sweep sweep_data then score + 1 else score in
  Py.min2 score 10.

End SweepQualityScorer.

(** ** The pipeline ([src/strategy/signal_generator.py]) *)

Module SignalGenerator.

(** The configuration dictionary with the defaults of [config.get] applied.
    [FILTERS_ENABLED] is the module-level flag computed from the
    environment variable DISABLE_FILTERS (and stays false when the filter
    objects cannot be constructed). *)
Record Config : Type := mkConfig {
  MIN_SWING_CANDLES : nat;
  SWEEP_BUFFER_TICKS : Z;
  MIN_FVG_SIZE_TICKS : Z;
  MAX_HTF_FVG_AGE : Z;
  STOP_LOSS_BUFFER_TICKS : Z;
  MAX_VIX_LEVEL : Q;
  MIN_SWEEP_QUALITY : Q;
  MIN_OVERALL_SCORE : Q;
  USE_EDGE_FILTERS : bool;
  FILTERS_ENABLED : bool
}.

(** [self.confirmation_state] *)
Record ConfirmationState : Type := mkState {
  cs_sweep : option LiquiditySweepDetector.Sweep;
  cs_htf_fvg : option HTFFVGDetector.Delivery;
  cs_ifvg : option iFVGDetector.Inversion;
  cs_cisd : option CISDDetector.CISD
}.

Definition empty_state : ConfirmationState :=
  {| cs_sweep := None; cs_htf_fvg := None; cs_ifvg := None; cs_cisd := None |}.

Record FilterScores : Type := mkScores {
  time_score : Q;
  volatility_score : Q;
  structure_score : Q;
  sweep_quality : Q;
  overall_score : Q;
  vix : Q;
  fs_filters_enabled : bool
}.

Record Signal : Type := mkSignal {
  sg_time : Z;
  sg_direction : Direction;
  sg_entry : Q;
  sg_stop_loss : Q;
  sg_target : Q;
  sg_risk : Q;
  sg_reward : Q;
  sg_risk_reward_ratio : Q;
  sg_confirmations : ConfirmationState;
  sg_filter_scores : option FilterScores
}.

(** The generator object. *)
Record t : Type := mk {
  config : Config;
  sweep_detector : LiquiditySweepDetector.t;
  htf_fvg_detector : HTFFVGDetector.t;
  volatility_filter : VolatilityFilter.t;
  filters_enabled : bool;
  confirmation_state : ConfirmationState;
  min_sweep_quality : Q;
  min_overall_score : Q
}.

(** [__init__(config)] *)
Definition init (cfg : Config) : t :=
  {| config := cfg;
     sweep_detector :=
       LiquiditySweepDetector.init (MIN_SWING_CANDLES cfg) (SWEEP_BUFFER_TICKS cfg);
     htf_fvg_detector :=
       HTFFVGDetector.init (MIN_FVG_SIZE_TICKS cfg) (MAX_HTF_FVG_AGE cfg);
     volatility_filter := VolatilityFilter.init (MAX_VIX_LEVEL cfg);
     filters_enabled := FILTERS_ENABLED cfg && USE_EDGE_FILTERS cfg;
     confirmation_state := empty_state;
     min_sweep_quality := MIN_SWEEP_QUALITY cfg;
     min_overall_score := MIN_OVERALL_SCORE cfg |}.

(** Assignments to the attributes of [self]. *)
Definition set_sweep_detector (self : t) (d : LiquiditySweepDetector.t) : t :=
  {| config := config self; sweep_detector := d;
     htf_fvg_detector := htf_fvg_detector self;
     volatility_filter := volatility_filter self;
     filters_enabled := filters_enabled self;
     confirmation_state := confirmation_state self;
     min_sweep_quality := min_sweep_quality self;
     min_overall_score := min_overall_score self |}.

Definition set_htf_fvg_detector (self : t) (d : HTFFVGDetector.t) : t :=
  {| config := config self; sweep_detector := sweep_detector self;
     htf_fvg_detector := d;
     volatility_filter := volatility_filter self;
     filters_enabled := filters_enabled self;
     confirmation_state := confirmation_state self;
     min_sweep_quality := min_sweep_quality self;
     min_overall_score := min_overall_score self |}.

Definition set_volatility_filter (self : t) (v : VolatilityFilter.t) : t :=
  {| config := config self; sweep_detector := sweep_detector self;
     htf_fvg_detector := htf_fvg_detector self;
     volatility_filter := v;
     filters_enabled := filters_enabled self;
     confirmation_state := confirmation_state self;
     min_sweep_quality := min_sweep_quality self;
     min_overall_score := min_overall_score self |}.

Definition set_confirmation_state (self : t) (c : ConfirmationState) : t :=
  {| config := config self; sweep_detector := sweep_detector self;
     htf_fvg_detector := htf_fvg_detector self;
     volatility_filter := volatility_filter self;
     filters_enabled := filters_enabled self;
     confirmation_state := c;
     min_sweep_quality := min_sweep_quality self;
     min_overall_score := min_overall_score self |}.

(** Assignments to the entries of [self.confirmation_state]. *)
Definition record_sweep (c : ConfirmationState) (s : LiquiditySweepDetector.Sweep) :=
  {| cs_sweep := Some s; cs_htf_fvg := cs_htf_fvg c;
     cs_ifvg := cs_ifvg c; cs_cisd := cs_cisd c |}.
Definition record_htf_fvg (c : ConfirmationState) (d : HTFFVGDetector.Delivery) :=
  {| cs_sweep := cs_sweep c; cs_htf_fvg := Some d;
     cs_ifvg := cs_ifvg c; cs_cisd := cs_cisd c |}.
Definition record_ifvg (c : ConfirmationState) (i : iFVGDetector.Inversion) :=
  {| cs_sweep := cs_sweep c; cs_htf_fvg := cs_htf_fvg c;
     cs_ifvg := Some i; cs_cisd := cs_cisd c |}.
Definition record_cisd (c : ConfirmationState) (x : CISDDetector.CISD) :=
  {| cs_sweep := cs_sweep c; cs_htf_fvg := cs_htf_fvg c;
     cs_ifvg := cs_ifvg c; cs_cisd := Some x |}.

(** [_reset_confirmation_state] *)
Definition _reset_confirmation_state (self : t) : t :=
  set_confirmation_state self empty_state.

(** [_find_opposing_liquidity(direction)], reading the recorded sweep. *)
Definition _find_opposing_liquidity (self : t)
    (sweep : LiquiditySweepDetector.Sweep) (direction : Direction) : Q :=
  let level := LiquiditySweepDetector.sw_swing_level sweep in
  let close := LiquiditySweepDetector.sw_close sweep in
  match direction with
  | SHORT =>
      match LiquiditySweepDetector.sellside_liquidity (sweep_detector self) with
      | x :: tl => Py.min_list x tl
      | [] => level - Qabs (level - close) * 2
      end
  | LONG =>
      match LiquiditySweepDetector.buyside_liquidity (sweep_detector self) with
      | x :: tl => Py.max_list x tl
      | [] => level + Qabs (level - close) * 2
      end
  end.

(** [reward / risk if risk > 0 else 0] *)
Definition risk_reward (risk reward : Q) : Q :=
  if Py.gt risk 0 then reward / risk else 0.

(** [_build_signal(current_bar, direction, min_tick)]; it is only called
    with a recorded sweep, passed here as [sweep]. *)
Definition _build_signal (self : t) (sweep : LiquiditySweepDetector.Sweep)
    (current_bar : Bar) (direction : Direction) (min_tick : Q) : Signal :=
  let sweep_level := LiquiditySweepDetector.sw_swing_level sweep in
  let entry_price := bar_close current_bar in
  let buffer := inject_Z (STOP_LOSS_BUFFER_TICKS (config self)) * min_tick in
  let stop_loss :=
    match direction with
    | SHORT => sweep_level + buffer
    | LONG => sweep_level - buffer
    end in
  let target := _find_opposing_liquidity self sweep direction in
  let risk := Qabs (entry_price - stop_loss) in
  let reward := Qabs (target - entry_price) in
  {| sg_time := bar_time current_bar;
     sg_direction := direction;
     sg_entry := entry_price;
     sg_stop_loss := stop_loss;
     sg_target := target;
     sg_risk := risk;
     sg_reward := reward;
     sg_risk_reward_ratio := risk_reward risk reward;
     sg_confirmations := confirmation_state self;
     sg_filter_scores := None |}.

(** The tuple returned by [_run_edge_filters]. *)
Record FilterResult : Type := mkFilterResult {
  fr_time_score : Q;
  fr_vol_score : Q;
  fr_structure_score : Q;
  fr_sweep_quality : Q;
  fr_vix : Q
}.

(** [_run_edge_filters(current_bar, direction, entry_price, ltf_bars)]: the
    result, and the volatility filter as its two calls leave it. *)
Definition _run_edge_filters (cal : Calendar) (w : World) (self : t)
    (sweep : LiquiditySweepDetector.Sweep) (current_bar : Bar)
    (direction : Direction) (entry_price : Q) (ltf_bars : list Bar)
    : option FilterResult * VolatilityFilter.t :=
  (* FILTER 1: TIME *)
  let '(is_good_time, _) := TimeFilter.is_optimal_time cal (bar_time current_bar) in
  let time_score := TimeFilter.get_quality_multiplier cal (bar_time current_bar) in
  let time_score := if negb is_good_time then 1 # 2 else time_score in
  (* FILTER 2: VOLATILITY *)
  let '((is_good_vol, _, vix), vf1) :=
    VolatilityFilter.is_favorable_volatility w (volatility_filter self) in
  let '(vol_score, vf2) := VolatilityFilter.get_quality_multiplier w vf1 in
  let vol_score := if negb is_good_vol then 1 # 2 else vol_score in
  (* FILTER 3: STRUCTURE *)
  let '(is_at_extreme, _, _) :=
    StructureFilter.is_at_extreme direction entry_price ltf_bars in
  let structure_score :=
    StructureFilter.get_quality_score direction entry_price ltf_bars in
  if negb is_at_extreme then (None, vf2)
  else
    (* FILTER 4: SWEEP QUALITY *)
    let sweep_quality := SweepQualityScorer.score_sweep cal sweep ltf_bars in
    (Some {| fr_time_score := time_score; fr_vol_score := vol_score;
             fr_structure_score := structure_score;
             fr_sweep_quality := sweep_quality; fr_vix := vix |},
     vf2).

(** The scores used when the filters are off. *)
Definition default_scores : FilterResult :=
  {| fr_time_score := 1; fr_vol_score := 1; fr_structure_score := 1;
     fr_sweep_quality := 10; fr_vix := 15 |}.

Definition with_filter_scores (s : Signal) (r : FilterResult) (enabled : bool)
    : Signal :=
  {| sg_time := sg_time s; sg_direction := sg_direction s;
     sg_entry := sg_entry s; sg_stop_loss := sg_stop_loss s;
     sg_target := sg_target s; sg_risk := sg_risk s;
     sg_reward := sg_reward s;
     sg_risk_reward_ratio := sg_risk_reward_ratio s;
     sg_confirmations := sg_confirmations s;
     sg_filter_scores :=
       Some {| time_score := fr_time_score r;
               volatility_score := fr_vol_score r;
               structure_score := fr_structure_score r;
               sweep_quality := fr_sweep_quality r;
               overall_score :=
                 (fr_time_score r + fr_vol_score r + fr_structure_score r) / 3;
               vix := fr_vix r;
               fs_filters_enabled := enabled |} |}.

(** *** [check_for_signal], stage by stage *)

(** CONFIRMATION #1: the detector runs on every call, and a detected sweep
    is stored whatever the state holds. *)
Definition stage_sweep (self : t) (current_ltf_bar : Bar)
    (ltf_bars : list Bar) (min_tick : Q) : t :=
  let '(sweep, detector) :=
    LiquiditySweepDetector.detect_sweep (sweep_detector self) current_ltf_bar
      (Py.but_last ltf_bars) min_tick in
  let self1 := set_sweep_detector self detector in
  match sweep with
  | Some s =>
      set_confirmation_state self1 (record_sweep (confirmation_state self1) s)
  | None => self1
  end.

(** CONFIRMATION #2, under [if not self.confirmation_state['htf_fvg']]. *)
Definition stage_htf_fvg (self : t) (direction : Direction)
    (current_ltf_bar : Bar) (htf_bars : list Bar) (min_tick : Q) : t :=
  match cs_htf_fvg (confirmation_state self) with
  | Some _ => self
  | None =>
      let d1 := HTFFVGDetector.update_fvgs (htf_fvg_detector self) htf_bars min_tick in
      let '(htf_delivery, fvgs) :=
        HTFFVGDetector.check_delivery (HTFFVGDetector.max_age d1)
          (HTFFVGDetector.active_fvgs d1) current_ltf_bar in
      let d2 :=
        {| HTFFVGDetector.min_fvg_size_ticks := HTFFVGDetector.min_fvg_size_ticks d1;
           HTFFVGDetector.max_age := HTFFVGDetector.max_age d1;
           HTFFVGDetector.active_fvgs := fvgs |} in
      let self1 := set_htf_fvg_detector self d2 in
      match htf_delivery with
      | Some d =>
          if Direction_eqb (HTFFVGDetector.dl_direction d) direction
          then set_confirmation_state self1
                 (record_htf_fvg (confirmation_state self1) d)
          else self1
      | None => self1
      end
  end.

(** CONFIRMATION #3, under [if not self.confirmation_state['ifvg']]; the
    detector was built with [min_fvg_size_ticks=1]. *)
Definition stage_ifvg (self : t) (direction : Direction)
    (ltf_bars : list Bar) (min_tick : Q) : t :=
  match cs_ifvg (confirmation_state self) with
  | Some _ => self
  | None =>
      match iFVGDetector.detect_ifvg_inversion 1 (Py.last_n 10 ltf_bars)
              direction min_tick with
      | Some i =>
          if Direction_eqb (iFVGDetector.iv_direction i) direction
          then set_confirmation_state self
                 (record_ifvg (confirmation_state self) i)
          else self
      | None => self
      end
  end.

(** CONFIRMATION #4, under [if not self.confirmation_state['cisd']]. *)
Definition stage_cisd (self : t) (sweep : LiquiditySweepDetector.Sweep)
    (direction : Direction) (ltf_bars : list Bar) : t :=
  match cs_cisd (confirmation_state self) with
  | Some _ => self
  | None =>
      match CISDDetector.detect_cisd ltf_bars
              (LiquiditySweepDetector.sw_time sweep) direction with
      | Some c =>
          if Direction_eqb (CISDDetector.cisd_direction c) direction
          then set_confirmation_state self
                 (record_cisd (confirmation_state self) c)
          else self
      | None => self
      end
  end.

(** From BUILD SIGNAL to the final [return signal]. *)
Definition emit (self : t) (sweep : LiquiditySweepDetector.Sweep)
    (current_ltf_bar : Bar) (direction : Direction) (min_tick : Q)
    (scores : FilterResult) : option Signal * t :=
  let signal := _build_signal self sweep current_ltf_bar direction min_tick in
  (Some (with_filter_scores signal scores (filters_enabled self)),
   _reset_confirmation_state self).

(** The part of [check_for_signal] after "ALL 4 CONFIRMATIONS ALIGNED". *)
Definition filter_and_emit (cal : Calendar) (w : World) (self : t)
    (sweep : LiquiditySweepDetector.Sweep) (current_ltf_bar : Bar)
    (direction : Direction) (ltf_bars : list Bar) (min_tick : Q)
    : option Signal * t :=
  let entry_price := bar_close current_ltf_bar in
  if filters_enabled self then
    let '(filter_result, vf) :=
      _run_edge_filters cal w self sweep current_ltf_bar direction
        entry_price ltf_bars in
    let self1 := set_volatility_filter self vf in
    match filter_result with
    | None => (None, _reset_confirmation_state self1)
    | Some scores => emit self1 sweep current_ltf_bar direction min_tick scores
    end
  else emit self sweep current_ltf_bar direction min_tick default_scores.

(** The first part of [check_for_signal], down to the last
    [if not self.confirmation_state['cisd']: return None]: the generator as
    this part leaves it and, when it runs through, the recorded sweep, the
    current bar and the direction that the rest of the method uses. *)
Definition check_confirmations (self : t) (ltf_bars htf_bars : list Bar)
    (min_tick : Q)
    : t * option (LiquiditySweepDetector.Sweep * Bar * Direction) :=
  if (List.length ltf_bars <? 20)%nat || (List.length htf_bars <? 20)%nat
  then (self, None)
  else
    match Py.last_opt ltf_bars with
    | None => (self, None)
    | Some current_ltf_bar =>
        let self1 := stage_sweep self current_ltf_bar ltf_bars min_tick in
        match cs_sweep (confirmation_state self1) with
        | None => (self1, None)
        | Some sweep =>
            let direction := LiquiditySweepDetector.sw_direction sweep in
            let self2 :=
              stage_htf_fvg self1 direction current_ltf_bar htf_bars min_tick in
            match cs_htf_fvg (confirmation_state self2) with
            | None => (self2, None)
            | Some _ =>
                let self3 := stage_ifvg self2 direction ltf_bars min_tick in
                match cs_ifvg (confirmation_state self3) with
                | None => (self3, None)
                | Some _ =>
                    let self4 := stage_cisd self3 sweep direction ltf_bars in
                    match cs_cisd (confirmation_state self4) with
                    | None => (self4, None)
                    | Some _ =>
                        (self4, Some (sweep, current_ltf_bar, direction))
                    end
                end
            end
        end
    end.

(** [check_for_signal(ltf_bars, htf_bars, min_tick)]: the returned value and
    the generator as the call leaves it. *)
Definition check_for_signal (cal : Calendar) (w : World) (self : t)
    (ltf_bars htf_bars : list Bar) (min_tick : Q) : option Signal * t :=
  match check_confirmations self ltf_bars htf_bars min_tick with
  | (self1, None) => (None, self1)
  | (self4, Some (sweep, current_ltf_bar, direction)) =>
      filter_and_emit cal w self4 sweep current_ltf_bar direction
        ltf_bars min_tick
  end.

(** A sequence of calls on one generator object: the values returned, in
    order, and the generator after the last call. *)
Fixpoint run (cal : Calendar) (w : World) (self : t)
    (calls : list (list Bar * list Bar * Q)) : list (option Signal) * t :=
  match calls with
  | [] => ([], self)
  | (ltf_bars, htf_bars, min_tick) :: rest =>
      let '(r, self1) := check_for_signal cal w self ltf_bars htf_bars min_tick in
      let '(rs, self2) := run cal w self1 rest in
      (r :: rs, self2)
  end.

(** The generator after each call of such a sequence. *)
Fixpoint trace (cal : Calendar) (w : World) (self : t)
    (calls : list (list Bar * list Bar * Q)) : list t :=
  match calls with
  | [] => []
  | (ltf_bars, htf_bars, min_tick) :: rest =>
      let self1 := snd (check_for_signal cal w self ltf_bars htf_bars min_tick) in
      self1 :: trace cal w self1 rest
  end.

End SignalGenerator.

(** ** Trade simulation ([backtest_main.py]) *)

Module Backtester.

Import SignalGenerator PositionSizer.

Inductive Outcome : Type := LOSS | WIN | BREAKEVEN.

Record Trade : Type := mkTrade {
  tr_time : Z;
  tr_direction : Direction;
  tr_entry : Q;
  tr_exit : Q;
  tr_pnl : Q;
  tr_result : Outcome;
  tr_contracts : Z;
  tr_bars_held : nat
}.

(** [==] on two bar dictionaries. *)
Definition bar_eqb (a b : Bar) : bool :=
  (bar_time a =? bar_time b)%Z
  && Py.eq (bar_open a) (bar_open b) && Py.eq (bar_high a) (bar_high b)
  && Py.eq (bar_low a) (bar_low b) && Py.eq (bar_close a) (bar_close b)
  && Py.eq (bar_volume a) (bar_volume b).

(** [future_bars.index(bar)]: the position of the first equal bar.  The bar
    always comes from the list, so the ValueError case (here: the length
    of the list) does not arise. *)
Fixpoint index (l : list Bar) (bar : Bar) : nat :=
  match l with
  | [] => 0
  | x :: tl => if bar_eqb x bar then 0 else S (index tl bar)
  end.

Inductive Hit : Type := StopHit | TargetHit | NoHit.

(** The body of the loop for one bar: the stop is tested first. *)
Definition hit (direction : Direction) (stop target : Q) (bar : Bar) : Hit :=
  match direction with
  | SHORT =>
      if Py.ge (bar_high bar) stop then StopHit
      else if Py.le (bar_low bar) target then TargetHit
      else NoHit
  | LONG =>
      if Py.le (bar_low bar) stop then StopHit
      else if Py.ge (bar_high bar) target then TargetHit
      else NoHit
  end.

(** [for bar in future_bars[:max_bars_to_check]], returning at the first hit. *)
Fixpoint first_hit (direction : Direction) (stop target : Q)
    (bars : list Bar) : option (Bar * Hit) :=
  match bars with
  | [] => None
  | bar :: tl =>
      match hit direction stop target bar with
      | NoHit => first_hit direction stop target tl
      | h => Some (bar, h)
      end
  end.

Definition simulate_trade (signal : Signal) (position_size : PositionSize)
    (future_bars : list Bar) : Trade :=
  let entry := sg_entry signal in
  let stop := sg_stop_loss signal in
  let target := sg_target signal in
  let direction := sg_direction signal in
  let max_bars_to_check := Nat.min 100 (List.length future_bars) in
  match first_hit direction stop target (firstn max_bars_to_check future_bars) with
  | Some (bar, StopHit) =>
      {| tr_time := sg_time signal; tr_direction := direction;
         tr_entry := entry; tr_exit := stop;
         tr_pnl := - ps_total_risk_dollars position_size;
         tr_result := LOSS;
         tr_contracts := ps_contracts position_size;
         tr_bars_held := index future_bars bar + 1 |}
  | Some (bar, TargetHit) =>
      let reward_dollars :=
        match direction with
        | SHORT => inject_Z (ps_contracts position_size) * (entry - target)
                   * ps_tick_value position_size
        | LONG => inject_Z (ps_contracts position_size) * (target - entry)
                  * ps_tick_value position_size
        end in
      {| tr_time := sg_time signal; tr_direction := direction;
         tr_entry := entry; tr_exit := target;
         tr_pnl := reward_dollars;
         tr_result := WIN;
         tr_contracts := ps_contracts position_size;
         tr_bars_held := index future_bars bar + 1 |}
  | _ =>
      {| tr_time := sg_time signal; tr_direction := direction;
         tr_entry := entry; tr_exit := entry;
         tr_pnl := 0;
         tr_result := BREAKEVEN;
         tr_contracts := ps_contracts position_size;
         tr_bars_held := max_bars_to_check |}
  end.

End Backtester.

(** ** Trailing stops ([src/exits/trailing_stop.py]) *)

Module TrailingStopManager.

(** The manager object: its three R-multiple thresholds. *)
Record t : Type := mk {
  breakeven_threshold : Q;
  trail_start_threshold : Q;
  trail_distance : Q
}.

(** [__init__]: break even at 1R, trail from 1.5R on, 0.5R behind. *)
Definition init : t :=
  {| breakeven_threshold := 1;
     trail_start_threshold := 3 # 2;
     trail_distance := 1 # 2 |}.

Inductive StopReason : Type := BREAKEVEN | TRAILING | ORIGINAL.

Record Stop : Type := mkStop {
  st_stop_loss : Q;
  st_reason : StopReason;
  st_profit_locked : Q;
  st_r_multiple : Q
}.

(** The open profit in multiples of the initial risk:
    [current_pl / risk if risk > 0 else 0]. *)
Definition r_multiple (signal : SignalGenerator.Signal) (current_price : Q) : Q :=
  let entry := SignalGenerator.sg_entry signal in
  let risk := SignalGenerator.sg_risk signal in
  let current_pl :=
    match SignalGenerator.sg_direction signal with
    | SHORT => entry - current_price
    | LONG => current_price - entry
    end in
  if Py.gt risk 0 then current_pl / risk else 0.

(** [calculate_stop(signal, current_price)]: rule 1 is tested, and returns,
    before rule 2. *)
Definition calculate_stop (self : t) (signal : SignalGenerator.Signal)
    (current_price : Q) : Stop :=
  let entry := SignalGenerator.sg_entry signal in
  let original_stop := SignalGenerator.sg_stop_loss signal in
  let direction := SignalGenerator.sg_direction signal in
  let risk := SignalGenerator.sg_risk signal in
  let r := r_multiple signal current_price in
  if Py.ge r (breakeven_threshold self) then
    {| st_stop_loss := entry; st_reason := BREAKEVEN;
       st_profit_locked := 0; st_r_multiple := r |}
  else if Py.ge r (trail_start_threshold self) then
    let profit_to_lock := (r - trail_distance self) * risk in
    {| st_stop_loss := match direction with
                       | SHORT => entry - profit_to_lock
                       | LONG => entry + profit_to_lock
                       end;
       st_reason := TRAILING;
       st_profit_locked := profit_to_lock; st_r_multiple := r |}
  else
    {| st_stop_loss := original_stop; st_reason := ORIGINAL;
       st_profit_locked := 0; st_r_multiple := r |}.

(** The reason string of [should_take_profit]; ["TARGET_HIT_<r>R"] carries
    the R-multiple it prints. *)
Inductive ExitReason : Type :=
| TARGET_HIT (r : Q)
| PROFIT_LOCK_3R
| HOLD.

(** [should_take_profit(signal, current_price)] *)
Definition should_take_profit (signal : SignalGenerator.Signal)
    (current_price : Q) : bool * ExitReason :=
  let target := SignalGenerator.sg_target signal in
  let r := r_multiple signal current_price in
  if match SignalGenerator.sg_direction signal with
     | SHORT => Py.le current_price target
     | LONG => Py.ge current_price target
     end
  then (true, TARGET_HIT r)
  else if Py.ge r 3 then (true, PROFIT_LOCK_3R)
  else (false, HOLD).

End TrailingStopManager.

(** ** Bar aggregation ([backtest_main.py], [main.py]) *)

Module Aggregation.

(** The values of [range(0, n, step)] for [step >= 1]:
    [0, step, 2 * step, ...] below [n]. *)
Definition range_step (n step : nat) : list nat :=
  map (fun k => k * step)%nat (seq 0 ((n + step - 1) / step)).

(** [sum(...)] of floats, starting from 0. *)
Definition sum (l : list Q) : Q := fold_left Qplus l 0.

(** The aggregated bar built from a chunk: time and open of its first bar,
    highest high, lowest low, close of its last bar, summed volume.  [None]
    on the empty chunk, which has no first bar. *)
Definition agg_bar (chunk : list Bar) : option Bar :=
  match chunk, Py.last_opt chunk with
  | first :: rest, Some last =>
      Some {| bar_time := bar_time first;
              bar_open := bar_open first;
              bar_high := Py.max_list (bar_high first) (map bar_high rest);
              bar_low := Py.min_list (bar_low first) (map bar_low rest);
              bar_close := bar_close last;
              bar_volume := sum (map bar_volume chunk) |}
  | _, _ => None
  end.

(** [bars[i:i+periods]] for each [i] of the range. *)
Definition chunks (bars : list Bar) (periods : nat) : list (list Bar) :=
  map (fun i => Py.slice i (i + periods) bars)
      (range_step (List.length bars) periods).

(** The loop of [Backtester.aggregate_to_timeframe] for [periods >= 1]: every
    chunk with [len(chunk) > 0] gives a bar, the last and shorter one too. *)
Definition aggregate_chunks (bars : list Bar) (periods : nat) : list Bar :=
  flat_map (fun chunk =>
              match agg_bar chunk with
              | Some b => [b]
              | None => []
              end) (chunks bars periods).

(** [Backtester.aggregate_to_timeframe(bars, periods)] for a non-negative
    [periods]: too few bars are returned as they are; [None] is the
    ValueError of [range] with a zero step. *)
Definition aggregate_to_timeframe (bars : list Bar) (periods : nat)
    : option (list Bar) :=
  if (List.length bars <? periods)%nat then Some bars
  else
    match periods with
    | O => None
    | S _ => Some (aggregate_chunks bars periods)
    end.

(** The loop of [ConfirmationModelSystem._aggregate_bars] for
    [timeframe_minutes >= 1]: only chunks of full length give a bar. *)
Definition aggregate_full_chunks (bars_1m : list Bar) (timeframe_minutes : nat)
    : list Bar :=
  flat_map (fun chunk =>
              if (List.length chunk =? timeframe_minutes)%nat then
                match agg_bar chunk with
                | Some b => [b]
                | None => []
                end
              else []) (chunks bars_1m timeframe_minutes).

(** [ConfirmationModelSystem._aggregate_bars(bars_1m, timeframe_minutes)] for
    a non-negative [timeframe_minutes]: too few bars give the empty list.
    With a zero timeframe the loop does not advance and indexes its empty
    chunk, which is [None] here; without bars it does not run. *)
Definition _aggregate_bars (bars_1m : list Bar) (timeframe_minutes : nat)
    : option (list Bar) :=
  if (List.length bars_1m <? timeframe_minutes)%nat then Some []
  else
    match timeframe_minutes with
    | O => match bars_1m with [] => Some [] | _ => None end
    | S _ => Some (aggregate_full_chunks bars_1m timeframe_minutes)
    end.

End Aggregation.

(** ** The backtest loop ([backtest_main.py]) *)

Module BacktestLoop.

(** The entry of [settings.INSTRUMENTS] that the loop looks up for the
    symbol (the MNQ entry for an unknown symbol). *)
Record Instrument : Type := mkInstrument {
  min_tick : Q;
  tick_value : Q
}.

(** The backtester object, without its dates and [daily_returns], which the
    loop does not touch. *)
Record t : Type := mk {
  symbol : string;
  initial_capital : Q;
  capital : Q;
  signal_generator : SignalGenerator.t;
  position_sizer : PositionSizer.t;
  trades : list Backtester.Trade;
  equity_curve : list Q
}.

(** [__init__(symbol, start_date, end_date, initial_capital)]; the sizer is
    built with its default [risk_per_trade=0.005]. *)
Definition init (symbol : string) (cfg : SignalGenerator.Config)
    (initial_capital : Q) : t :=
  {| symbol := symbol;
     initial_capital := initial_capital;
     capital := initial_capital;
     signal_generator := SignalGenerator.init cfg;
     position_sizer := PositionSizer.init initial_capital (5 # 1000);
     trades := [];
     equity_curve := [initial_capital] |}.

Definition set_signal_generator (self : t) (g : SignalGenerator.t) : t :=
  {| symbol := symbol self; initial_capital := initial_capital self;
     capital := capital self; signal_generator := g;
     position_sizer := position_sizer self; trades := trades self;
     equity_curve := equity_curve self |}.

(** The two series handed to [check_for_signal] at index [i]:
    [current_ltf[-200:]] and [current_htf_15m[-50:]], each with its
    fallback for an empty list. *)
Definition windows (ltf_bars htf_bars_15m : list Bar) (i : nat)
    : list Bar * list Bar :=
  let current_ltf := firstn (i + 1) ltf_bars in
  let current_htf_15m :=
    if LiquiditySweepDetector.is_empty htf_bars_15m then current_ltf
    else firstn (List.length current_ltf / 3) htf_bars_15m in
  (Py.last_n 200 current_ltf,
   if LiquiditySweepDetector.is_empty current_htf_15m
   then Py.last_n 200 current_ltf
   else Py.last_n 50 current_htf_15m).

(** What the loop does once a position passed validation: the trade is
    simulated on [ltf_bars[i:]] and booked. *)
Definition book (self : t) (result : Backtester.Trade) : t :=
  let capital' := capital self + Backtester.tr_pnl result in
  {| symbol := symbol self; initial_capital := initial_capital self;
     capital := capital';
     signal_generator := signal_generator self;
     position_sizer :=
       PositionSizer.update_account_size (position_sizer self) capital';
     trades := trades self ++ [result];
     equity_curve := equity_curve self ++ [capital'] |}.

(** The body of [for i in range(100, len(ltf_bars))], on the backtester and
    the counter [signals_found].  The sizer is called without [min_tick],
    hence with its default 0.25; an exception inside the [try] leaves what
    was done before it and goes on with the next index. *)
Definition step (cal : Calendar) (w : World) (inst : Instrument)
    (ltf_bars htf_bars_15m : list Bar) (st : t * nat) (i : nat) : t * nat :=
  let '(self, signals_found) := st in
  let '(ltf_window, htf_window) := windows ltf_bars htf_bars_15m i in
  let '(signal, generator) :=
    SignalGenerator.check_for_signal cal w (signal_generator self)
      ltf_window htf_window (min_tick inst) in
  let self1 := set_signal_generator self generator in
  match signal with
  | None => (self1, signals_found)
  | Some signal =>
      let signals_found := S signals_found in
      match PositionSizer.calculate_position_size (position_sizer self1)
              (symbol self1) (SignalGenerator.sg_entry signal)
              (SignalGenerator.sg_stop_loss signal) (tick_value inst) (1 # 4)
      with
      | Py.Raise _ => (self1, signals_found)
      | Py.Ok position_size =>
          if PositionSizer.validate_position (position_sizer self1) position_size
          then (book self1
                  (Backtester.simulate_trade signal position_size
                     (skipn i ltf_bars)),
                signals_found)
          else (self1, signals_found)
      end
  end.

(** The loop over [range(100, len(ltf_bars))]. *)
Definition scan (cal : Calendar) (w : World) (inst : Instrument)
    (ltf_bars htf_bars_15m : list Bar) (self : t) : t * nat :=
  fold_left (step cal w inst ltf_bars htf_bars_15m)
            (seq 100 (List.length ltf_bars - 100)) (self, 0%nat).

(** [run_backtest] from the prepared bars on: the 15-minute series is
    [aggregate_to_timeframe(ltf_bars, 3)], which cannot fail for the period
    3, and the loop runs over it.  The result is the backtester and
    [signals_found]. *)
Definition run_backtest (cal : Calendar) (w : World) (inst : Instrument)
    (ltf_bars : list Bar) (self : t) : t * nat :=
  let htf_bars_15m :=
    match Aggregation.aggregate_to_timeframe ltf_bars 3 with
    | Some bars => bars
    | None => []
    end in
  scan cal w inst ltf_bars htf_bars_15m self.

End BacktestLoop.

(** * Vocabulary of the statements *)

(** ** Stop and target tests of [simulate_trade], one bar at a time *)

Definition stop_touched (direction : Direction) (stop : Q) (bar : Bar) : bool :=
  match direction with
  | SHORT => Py.ge (bar_high bar) stop
  | LONG => Py.le (bar_low bar) stop
  end.

Definition target_touched (direction : Direction) (target : Q) (bar : Bar) : bool :=
  match direction with
  | SHORT => Py.le (bar_low bar) target
  | LONG => Py.ge (bar_high bar) target
  end.

(** ** What [check_delivery] does to one FVG it examines *)

(** [examined max_age f f']: a filled FVG is left alone; an unfilled one has
    its age incremented by exactly one, and is marked filled when the new age
    exceeds [max_age]. *)
Definition examined (max_age : Z) (f f' : HTFFVGDetector.FVG) : Prop :=
  if HTFFVGDetector.fvg_filled f then f' = f
  else
    HTFFVGDetector.fvg_age f' = (HTFFVGDetector.fvg_age f + 1)%Z
    /\ ((HTFFVGDetector.fvg_age f + 1 > max_age)%Z ->
        HTFFVGDetector.fvg_filled f' = true).

(** ** The candle run in front of a sweep *)

(** The test a candle must pass to belong to the run, and the test the latest
    close must pass against the level, for each trade direction. *)
Definition same_direction_close (direction : Direction) : Bar -> bool :=
  match direction with
  | SHORT => CISDDetector.up_close
  | LONG => CISDDetector.down_close
  end.

Definition breaks_level (direction : Direction) (close level : Q) : bool :=
  match direction with
  | SHORT => Py.lt close level
  | LONG => Py.gt close level
  end.

(** ** A signal without what the volatility filter contributes *)

Definition without_volatility (s : SignalGenerator.Signal)
    : SignalGenerator.Signal :=
  let blank (f : SignalGenerator.FilterScores) :=
    {| SignalGenerator.time_score := SignalGenerator.time_score f;
       SignalGenerator.volatility_score := 0;
       SignalGenerator.structure_score := SignalGenerator.structure_score f;
       SignalGenerator.sweep_quality := SignalGenerator.sweep_quality f;
       SignalGenerator.overall_score := 0;
       SignalGenerator.vix := 0;
       SignalGenerator.fs_filters_enabled := SignalGenerator.fs_filters_enabled f |} in
  {| SignalGenerator.sg_time := SignalGenerator.sg_time s;
     SignalGenerator.sg_direction := SignalGenerator.sg_direction s;
     SignalGenerator.sg_entry := SignalGenerator.sg_entry s;
     SignalGenerator.sg_stop_loss := SignalGenerator.sg_stop_loss s;
     SignalGenerator.sg_target := SignalGenerator.sg_target s;
     SignalGenerator.sg_risk := SignalGenerator.sg_risk s;
     SignalGenerator.sg_reward := SignalGenerator.sg_reward s;
     SignalGenerator.sg_risk_reward_ratio := SignalGenerator.sg_risk_reward_ratio s;
     SignalGenerator.sg_confirmations := SignalGenerator.sg_confirmations s;
     SignalGenerator.sg_filter_scores :=
       option_map blank (SignalGenerator.sg_filter_scores s) |}.

(** ** Confirmations that a later state still holds *)

(** [keeps a b]: the HTF-FVG, iFVG and CISD confirmations recorded in the
    generator [a] are the ones [b] holds, and the HTF-FVG detector of [b] is
    the one of [a] when [a] holds an HTF-FVG confirmation (the detector was
    not run in between). *)
Definition keeps (a b : SignalGenerator.t) : Prop :=
  (forall d,
      SignalGenerator.cs_htf_fvg (SignalGenerator.confirmation_state a) = Some d ->
      SignalGenerator.cs_htf_fvg (SignalGenerator.confirmation_state b) = Some d
      /\ SignalGenerator.htf_fvg_detector b = SignalGenerator.htf_fvg_detector a)
  /\ (forall i,
        SignalGenerator.cs_ifvg (SignalGenerator.confirmation_state a) = Some i ->
        SignalGenerator.cs_ifvg (SignalGenerator.confirmation_state b) = Some i)
  /\ (forall c,
        SignalGenerator.cs_cisd (SignalGenerator.confirmation_state a) = Some c ->
        SignalGenerator.cs_cisd (SignalGenerator.confirmation_state b) = Some c).

(** What no call changes: the configuration and the filter switch. *)
Definition same_setup (a b : SignalGenerator.t) : Prop :=
  SignalGenerator.config b = SignalGenerator.config a
  /\ SignalGenerator.filters_enabled b = SignalGenerator.filters_enabled a
  /\ SignalGenerator.min_sweep_quality b = SignalGenerator.min_sweep_quality a
  /\ SignalGenerator.min_overall_score b = SignalGenerator.min_overall_score a.

(** The direction entries of a confirmation state. *)
Definition directions (c : SignalGenerator.ConfirmationState)
    : list (option Direction) :=
  [ option_map LiquiditySweepDetector.sw_direction (SignalGenerator.cs_sweep c);
    option_map HTFFVGDetector.dl_direction (SignalGenerator.cs_htf_fvg c);
    option_map iFVGDetector.iv_direction (SignalGenerator.cs_ifvg c);
    option_map CISDDetector.cisd_direction (SignalGenerator.cs_cisd c) ].

(** The VIX level and the volatility score a returned signal carries. *)
Definition signal_vix (r : option SignalGenerator.Signal) : option Q :=
  match r with
  | Some s => option_map SignalGenerator.vix (SignalGenerator.sg_filter_scores s)
  | None => None
  end.

Definition signal_volatility_score (r : option SignalGenerator.Signal) : option Q :=
  match r with
  | Some s =>
      option_map SignalGenerator.volatility_score
        (SignalGenerator.sg_filter_scores s)
  | None => None
  end.

(** [run_before direction bars s k]: the [k] bars in front of index [s] all
    close in the direction of the run. *)
Definition run_before (direction : Direction) (bars : list Bar) (s k : nat) : Prop :=
  forall j, (1 <= j <= k)%nat ->
    exists b, nth_error bars (s - j) = Some b
              /\ same_direction_close direction b = true.

(** The number of bars the backward walk looks at in front of the sweep at
    index [s]: nine, or fewer when the sweep is so close to the start of
    the window that the walk would reach the bar at index 0, which it never
    looks at. *)
Definition walk_length (s : nat) : nat := Nat.min 9 (s - 1).

(** [run_ends direction bars s k]: a run of [k] candles in front of index
    [s] goes no further: either the walk has no more bars to look at, or
    the next candle is not a same-direction close. *)
Definition run_ends (direction : Direction) (bars : list Bar) (s k : nat) : Prop :=
  k = walk_length s
  \/ ((k < walk_length s)%nat
      /\ exists stopper,
           nth_error bars (s - k - 1) = Some stopper
           /\ same_direction_close direction stopper = false).

(** * Concrete inputs *)

Module Scenario.

Import SignalGenerator.

Definition min_tick : Q := 1 # 4.

(** A quiet bar: open = close = 1000, high 1001, low 999. *)
Definition flat (t : Z) : Bar := mkBar t 1000 1001 999 1000 0.

(** [n] quiet bars with times [from], [from + 1], ... *)
Definition flats (from : Z) (n : nat) : list Bar :=
  map (fun i => flat (from + Z.of_nat i)) (seq 0 n).

(** The settings of [config/settings.py]; the filters are switched off in
    [baseline] (DISABLE_FILTERS=true) and on in [filtered]. *)
Definition baseline : Config :=
  {| MIN_SWING_CANDLES := 3; SWEEP_BUFFER_TICKS := 1; MIN_FVG_SIZE_TICKS := 2;
     MAX_HTF_FVG_AGE := 20; STOP_LOSS_BUFFER_TICKS := 3; MAX_VIX_LEVEL := 20;
     MIN_SWEEP_QUALITY := 7; MIN_OVERALL_SCORE := 7 # 10;
     USE_EDGE_FILTERS := true; FILTERS_ENABLED := false |}.

Definition filtered : Config :=
  {| MIN_SWING_CANDLES := 3; SWEEP_BUFFER_TICKS := 1; MIN_FVG_SIZE_TICKS := 2;
     MAX_HTF_FVG_AGE := 20; STOP_LOSS_BUFFER_TICKS := 3; MAX_VIX_LEVEL := 20;
     MIN_SWEEP_QUALITY := 7; MIN_OVERALL_SCORE := 7 # 10;
     USE_EDGE_FILTERS := true; FILTERS_ENABLED := true |}.

(** Twenty higher-timeframe bars holding one three-bar drop (times 10-12):
    the scan finds two bearish FVGs, [1000, 1020] and [999, 1010]. *)
Definition htf : list Bar :=
  flats 0 10
  ++ [ mkBar 10 1000 1020 999 1010 0;
       mkBar 11 1010 1010 1005 1006 0;
       mkBar 12 1001 1001 1000 1000 0 ]
  ++ flats 13 7.

(** Twenty-one bars: a swing low of 980 at time 5, a swing high of 1010 at
    time 10, and a last bar that sweeps above 1010 and closes at 998. *)
Definition ltf_first : list Bar :=
  flats 0 5 ++ [ mkBar 5 1000 1001 980 1000 0 ] ++ flats 6 4
  ++ [ mkBar 10 1000 1010 999 1000 0 ] ++ flats 11 9
  ++ [ mkBar 20 1000 1011 997 998 0 ].

(** The next bar sweeps below 980 and closes at 1003. *)
Definition ltf_resweep : list Bar :=
  ltf_first ++ [ mkBar 21 998 1003 975 1003 0 ].

(** Instead: three falling bars, then a bar that sweeps below 980 and
    closes above all of them. *)
Definition ltf_reversal : list Bar :=
  ltf_first
  ++ [ mkBar 21 1000 (2001 # 2) 996 997 0;
       mkBar 22 997 998 994 995 0;
       mkBar 23 995 (1991 # 2) 990 991 0;
       mkBar 24 991 1003 975 1003 0 ].

(** Eighty bars on which all four confirmations fire in one call, SHORT:
    a low of 900 at time 5, the swing high of 1010 at time 10, three rising
    bars (times 76-78) and a last bar that sweeps 1010 and closes at 986. *)
Definition ltf_single : list Bar :=
  flats 0 5 ++ [ mkBar 5 1000 1001 900 1000 0 ] ++ flats 6 4
  ++ [ mkBar 10 1000 1010 999 1000 0 ] ++ flats 11 65
  ++ [ mkBar 76 990 993 989 992 0;
       mkBar 77 992 996 991 995 0;
       mkBar 78 995 1000 994 999 0;
       mkBar 79 999 1011 985 986 0 ].

(** Every bar is read as 09:45 New York time / as an unreadable stamp. *)
Definition opening_bell : Calendar :=
  {| ny_time := fun _ => LocalTime (clock 9 45);
     naive_time := fun _ => Some (clock 9 45) |}.
Definition unreadable : Calendar :=
  {| ny_time := fun _ => InvalidTimeType; naive_time := fun _ => None |}.

(** The download gives a VIX close of 12 / of 30. *)
Definition calm : World := fun _ => {| vr_now := 0; vr_fetch := FetchClose 12 |}.
Definition stormy : World := fun _ => {| vr_now := 0; vr_fetch := FetchClose 30 |}.

(** Two unfilled bearish FVGs [100, 110], and a bar that taps both and
    closes below them. *)
Definition gap (age : Z) : HTFFVGDetector.FVG :=
  {| HTFFVGDetector.fvg_type := HTFFVGDetector.bearish;
     HTFFVGDetector.fvg_top := 110; HTFFVGDetector.fvg_bottom := 100;
     HTFFVGDetector.fvg_size := 10; HTFFVGDetector.fvg_start_index := 0;
     HTFFVGDetector.fvg_start_time := 0;
     HTFFVGDetector.fvg_direction := SHORT;
     HTFFVGDetector.fvg_filled := false; HTFFVGDetector.fvg_age := age |}.
Definition tap : Bar := mkBar 7 104 105 94 95 0.

(** A window for [detect_cisd]: the sweep at index 15, the ten bars in front
    of it all up-close (the oldest opens at 90, the next at 95), a quiet bar
    before them, and a last bar closing at 93. *)
Definition cisd_window : list Bar :=
  flats 0 5
  ++ [ mkBar 5 90 92 89 91 0; mkBar 6 95 97 94 96 0 ]
  ++ map (fun i => mkBar (7 + Z.of_nat i) 100 102 99 101 0) (seq 0 8)
  ++ flats 15 9
  ++ [ mkBar 24 100 101 92 93 0 ].

(** A window of eight bars: the sweep at index 6, one up-close bar in front
    of it opening at 100, and a last bar closing at 99. *)
Definition short_window : list Bar :=
  flats 0 5 ++ [ mkBar 5 100 102 99 101 0; flat 6; mkBar 7 100 101 98 99 0 ].

(** A window whose sweep sits at index 5, with all five bars in front of it
    up-close (the bar at index 0 opens at 90, the next at 95), and a last
    bar closing at 93. *)
Definition early_window : list Bar :=
  [ mkBar 0 90 92 89 91 0; mkBar 1 95 97 94 96 0 ]
  ++ map (fun i => mkBar (2 + Z.of_nat i) 100 102 99 101 0) (seq 0 3)
  ++ flats 5 9
  ++ [ mkBar 14 100 101 92 93 0 ].

End Scenario.


(** ** Strict local extrema *)

(** [strict_high w bars s]: the swing [s] sits at an index with [w] bars on
    each side, carries the high and the time of the bar there, and that high
    is strictly above the high of every one of these neighbours. *)
Definition strict_high (w : nat) (bars : list Bar)
    (s : LiquiditySweepDetector.Swing) : Prop :=
  let i := LiquiditySweepDetector.swing_index s in
  exists cur,
    (w <= i)%nat /\ (i + w < List.length bars)%nat
    /\ nth_error bars i = Some cur
    /\ LiquiditySweepDetector.swing_price s = bar_high cur
    /\ LiquiditySweepDetector.swing_time s = bar_time cur
    /\ forall j b, (i - w <= j <= i + w)%nat -> j <> i ->
         nth_error bars j = Some b -> bar_high b < bar_high cur.

Definition strict_low (w : nat) (bars : list Bar)
    (s : LiquiditySweepDetector.Swing) : Prop :=
  let i := LiquiditySweepDetector.swing_index s in
  exists cur,
    (w <= i)%nat /\ (i + w < List.length bars)%nat
    /\ nth_error bars i = Some cur
    /\ LiquiditySweepDetector.swing_price s = bar_low cur
    /\ LiquiditySweepDetector.swing_time s = bar_time cur
    /\ forall j b, (i - w <= j <= i + w)%nat -> j <> i ->
         nth_error bars j = Some b -> bar_low cur < bar_low b.

(** ** Fair value gaps *)

(** [fresh_fvg min_size min_tick bars f]: [f] is the gap of the three bars
    starting at its start index: unfilled, of age 0, with the middle bar
    strictly inside it, at least [min_size] ticks wide, and with the
    direction of its type. *)
Definition fresh_fvg (min_size : Z) (min_tick : Q) (bars : list Bar)
    (f : HTFFVGDetector.FVG) : Prop :=
  let i := HTFFVGDetector.fvg_start_index f in
  exists c1 c2 c3,
    nth_error bars i = Some c1
    /\ nth_error bars (i + 1) = Some c2
    /\ nth_error bars (i + 2) = Some c3
    /\ HTFFVGDetector.fvg_start_time f = bar_time c1
    /\ HTFFVGDetector.fvg_filled f = false
    /\ HTFFVGDetector.fvg_age f = 0%Z
    /\ HTFFVGDetector.fvg_size f
       = HTFFVGDetector.fvg_top f - HTFFVGDetector.fvg_bottom f
    /\ inject_Z min_size * min_tick <= HTFFVGDetector.fvg_size f
    /\ HTFFVGDetector.fvg_bottom f < bar_low c2
    /\ bar_high c2 < HTFFVGDetector.fvg_top f
    /\ match HTFFVGDetector.fvg_type f with
       | HTFFVGDetector.bearish =>
           HTFFVGDetector.fvg_top f = bar_high c1
           /\ HTFFVGDetector.fvg_bottom f = bar_low c3
           /\ HTFFVGDetector.fvg_direction f = SHORT
       | HTFFVGDetector.bullish =>
           HTFFVGDetector.fvg_bottom f = bar_low c1
           /\ HTFFVGDetector.fvg_top f = bar_high c3
           /\ HTFFVGDetector.fvg_direction f = LONG
       end.

(** [evolves f f']: what a call of [check_delivery] may do to an FVG: its
    type, bounds, size, origin and direction stay, its age grows by at most
    one, and a filled FVG stays exactly as it is. *)
Definition evolves (f f' : HTFFVGDetector.FVG) : Prop :=
  HTFFVGDetector.fvg_type f' = HTFFVGDetector.fvg_type f
  /\ HTFFVGDetector.fvg_top f' = HTFFVGDetector.fvg_top f
  /\ HTFFVGDetector.fvg_bottom f' = HTFFVGDetector.fvg_bottom f
  /\ HTFFVGDetector.fvg_size f' = HTFFVGDetector.fvg_size f
  /\ HTFFVGDetector.fvg_start_index f' = HTFFVGDetector.fvg_start_index f
  /\ HTFFVGDetector.fvg_start_time f' = HTFFVGDetector.fvg_start_time f
  /\ HTFFVGDetector.fvg_direction f' = HTFFVGDetector.fvg_direction f
  /\ (HTFFVGDetector.fvg_age f <= HTFFVGDetector.fvg_age f'
      <= HTFFVGDetector.fvg_age f + 1)%Z
  /\ (HTFFVGDetector.fvg_filled f = true -> f' = f).

(** ** Ages in the HTF detector *)

(** [young d]: every FVG the detector [d] holds has age 0 or 1. *)
Definition young (d : HTFFVGDetector.t) : Prop :=
  Forall (fun f => (0 <= HTFFVGDetector.fvg_age f <= 1)%Z)
         (HTFFVGDetector.active_fvgs d).

(** ** The equity curve *)

(** The capital after each of a series of profits and losses, starting with
    the capital before the first. *)
Fixpoint running_capital (c : Q) (pnls : list Q) : list Q :=
  c :: match pnls with
       | [] => []
       | p :: tl => running_capital (c + p) tl
       end.

(** [books_balanced c0 s]: the equity curve of the backtester [s] is the
    running capital from [c0] over the booked trades, it ends with the
    current capital, and the sizer works on that capital at 0.5% risk. *)
Definition books_balanced (c0 : Q) (s : BacktestLoop.t) : Prop :=
  BacktestLoop.equity_curve s
  = running_capital c0 (map Backtester.tr_pnl (BacktestLoop.trades s))
  /\ Py.last_opt (BacktestLoop.equity_curve s) = Some (BacktestLoop.capital s)
  /\ PositionSizer.account_size (BacktestLoop.position_sizer s)
     = BacktestLoop.capital s
  /\ PositionSizer.risk_per_trade (BacktestLoop.position_sizer s) = 5 # 1000
  /\ PositionSizer.max_risk_dollars (BacktestLoop.position_sizer s)
     = BacktestLoop.capital s * (5 # 1000).

(** [losses_bounded s]: every booked trade has at least one contract, a
    break-even trade books nothing, and a loss is at most 110% of 0.5% of
    the capital in front of the trade, which is the entry of the equity
    curve at the trade's index. *)
Definition losses_bounded (s : BacktestLoop.t) : Prop :=
  forall k t,
    nth_error (BacktestLoop.trades s) k = Some t ->
    exists c,
      nth_error (BacktestLoop.equity_curve s) k = Some c
      /\ (1 <= Backtester.tr_contracts t)%Z
      /\ (Backtester.tr_result t = Backtester.LOSS ->
          - Backtester.tr_pnl t <= c * (5 # 1000) * (11 # 10))
      /\ (Backtester.tr_result t = Backtester.BREAKEVEN ->
          Backtester.tr_pnl t = 0).

(** ** A backtest on 101 bars *)

Module BacktestScenario.

(** The MNQ entry of [settings.INSTRUMENTS]. *)
Definition mnq : BacktestLoop.Instrument :=
  {| BacktestLoop.min_tick := 1 # 4; BacktestLoop.tick_value := 2 |}.

(** 101 five-minute bars: a high of 1020 at time 6 and three bars around
    1005 behind it, which leave a bearish gap in the 15-minute series; a
    swing low of 980 at time 20 and a swing high of 1010 at time 30; three
    rising bars (times 97-99); and a last bar that sweeps 1010 up to 1011 and
    closes at 986. *)
Definition ltf_101 : list Bar :=
  Scenario.flats 0 6
  ++ [ mkBar 6 1000 1020 999 1010 0 ] ++ Scenario.flats 7 2
  ++ [ mkBar 9 1005 1010 1004 1006 0;
       mkBar 10 1005 1010 1004 1006 0;
       mkBar 11 1005 1010 1004 1006 0 ]
  ++ Scenario.flats 12 8
  ++ [ mkBar 20 1000 1001 980 1000 0 ] ++ Scenario.flats 21 9
  ++ [ mkBar 30 1000 1010 999 1000 0 ] ++ Scenario.flats 31 66
  ++ [ mkBar 97 990 993 989 992 0;
       mkBar 98 992 996 991 995 0;
       mkBar 99 995 1000 994 999 0;
       mkBar 100 999 1011 985 986 0 ].

End BacktestScenario.
(** * Properties *)

(** ** Arithmetic helpers *)

Lemma Qeq_bool_false_of_neq (x y : Q) : ~ x == y -> Qeq_bool x y = false.
Proof.
  intros H. destruct (Qeq_bool x y) eqn:E; [|reflexivity].
  apply Qeq_bool_iff in E. contradiction.
Qed.

Lemma Qabs_pos_of_neq (x : Q) : ~ x == 0 -> 0 < Qabs x.
Proof.
  intros Hx.
  destruct (Qle_lteq 0 (Qabs x)) as [H _].
  destruct (H (Qabs_nonneg x)) as [Hlt | Heq]; [exact Hlt|].
  exfalso. apply Hx.
  assert (Hle : Qabs x <= 0) by (rewrite <- Heq; apply Qle_refl).
  apply Qabs_Qle_condition in Hle. destruct Hle as [H1 H2].
  apply Qle_antisym; assumption.
Qed.

Lemma Qdiv_pos (a b : Q) : 0 < a -> 0 < b -> 0 < a / b.
Proof.
  intros Ha Hb. unfold Qdiv.
  apply Qmult_lt_0_compat; [exact Ha | apply Qinv_lt_0_compat; exact Hb].
Qed.

Lemma Py_div_ok (a b : Q) : ~ b == 0 -> Py.div a b = Py.Ok (a / b).
Proof.
  intros H. unfold Py.div, Py.eq. rewrite (Qeq_bool_false_of_neq H). reflexivity.
Qed.

Lemma Py_div_zero (a b : Q) : b == 0 -> Py.div a b = Py.Raise Py.ZeroDivisionError.
Proof.
  intros H. unfold Py.div, Py.eq.
  apply Qeq_bool_iff in H. rewrite H. reflexivity.
Qed.

Lemma Qneq_of_pos (x : Q) : 0 < x -> ~ x == 0.
Proof.
  intros H E. apply (Qlt_not_eq _ _ H). symmetry. exact E.
Qed.

(** ** Comparisons *)

Lemma Py_le_iff (a b : Q) : Py.le a b = true <-> a <= b.
Proof. apply Qle_bool_iff. Qed.

Lemma Py_ge_iff (a b : Q) : Py.ge a b = true <-> b <= a.
Proof. apply Qle_bool_iff. Qed.

Lemma Py_lt_iff (a b : Q) : Py.lt a b = true <-> a < b.
Proof.
  unfold Py.lt. rewrite negb_true_iff. split.
  - intros H. apply Qnot_le_lt. intros G. apply Qle_bool_iff in G.
    rewrite G in H. discriminate.
  - intros H. destruct (Qle_bool b a) eqn:E; [|reflexivity].
    apply Qle_bool_iff in E. exfalso. exact (Qlt_not_le _ _ H E).
Qed.

Lemma Py_gt_iff (a b : Q) : Py.gt a b = true <-> b < a.
Proof. apply (Py_lt_iff b a). Qed.

Lemma Py_lt_false_iff (a b : Q) : Py.lt a b = false <-> b <= a.
Proof.
  unfold Py.lt. rewrite negb_false_iff. apply Qle_bool_iff.
Qed.

Lemma Py_le_false_iff (a b : Q) : Py.le a b = false <-> b < a.
Proof.
  split.
  - intros H. apply Py_lt_iff. unfold Py.lt, Py.le in *. rewrite H. reflexivity.
  - intros H. apply Py_lt_iff in H. unfold Py.lt, Py.le in *.
    apply negb_true_iff in H. exact H.
Qed.

Lemma Py_ge_false_iff (a b : Q) : Py.ge a b = false <-> a < b.
Proof. apply (Py_le_false_iff b a). Qed.

Lemma Py_gt_false_iff (a b : Q) : Py.gt a b = false <-> a <= b.
Proof. apply (Py_lt_false_iff b a). Qed.

(** [int] of a non-negative float does not exceed it. *)
Lemma int_le (q : Q) : 0 <= q -> inject_Z (Py.int q) <= q.
Proof.
  destruct q as [n d]. unfold Py.int, Qle, inject_Z. cbn. intros H.
  rewrite Z.quot_div_nonneg by lia.
  rewrite Z.mul_1_r, Z.mul_comm. apply Z.mul_div_le. lia.
Qed.

Lemma inject_Z_le (a b : Z) : (a <= b)%Z -> inject_Z a <= inject_Z b.
Proof. intros H. rewrite <- Zle_Qle. exact H. Qed.

(** ** Position sizing *)

Section PositionSizing.

Import PositionSizer.

Variable self : PositionSizer.t.
Variable symbol : string.
Variables entry stop tick_value min_tick : Q.

Lemma risk_per_contract_pos :
  ~ entry == stop -> 0 < tick_value -> 0 < min_tick ->
  0 < (Qabs (entry - stop) / min_tick) * tick_value.
Proof.
  intros Hne Htv Hmt.
  apply Qmult_lt_0_compat; [|exact Htv].
  apply Qdiv_pos; [|exact Hmt].
  apply Qabs_pos_of_neq. intros E. apply Hne.
  setoid_replace entry with ((entry - stop) + stop) by ring.
  rewrite E. ring.
Qed.

(** On exact numbers, where no quotient leaves the range of the floats: for
    entry <> stop, tick_value > 0, min_tick > 0 and a sizer whose account
    size is not zero the call returns a position with at least one contract,
    whose total risk is contracts * risk_per_contract. *)
Lemma exact_sizer_returns :
  ~ entry == stop -> 0 < tick_value -> 0 < min_tick ->
  ~ account_size self == 0 ->
  exists p,
    calculate_position_size self symbol entry stop tick_value min_tick = Py.Ok p
    /\ (1 <= ps_contracts p)%Z
    /\ ps_risk_per_contract p = (Qabs (entry - stop) / min_tick) * tick_value
    /\ ps_total_risk_dollars p
       = inject_Z (ps_contracts p) * ps_risk_per_contract p.
Proof.
  intros Hne Htv Hmt Hacc.
  pose proof (risk_per_contract_pos Hne Htv Hmt) as Hpos.
  unfold calculate_position_size.
  rewrite (Py_div_ok _ (Qneq_of_pos Hmt)). cbn [Py.bind].
  rewrite (Py_div_ok _ (Qneq_of_pos Hpos)). cbn [Py.bind].
  rewrite (Py_div_ok _ Hacc). cbn [Py.bind].
  eexists. split; [reflexivity|].
  cbn [ps_contracts ps_risk_per_contract ps_total_risk_dollars].
  split; [apply Z.le_max_l|].
  split; reflexivity.
Qed.

(** With a zero risk distance the call never gets past its divisions. *)
Lemma zero_risk_raises :
  entry == stop ->
  calculate_position_size self symbol entry stop tick_value min_tick
  = Py.Raise Py.ZeroDivisionError.
Proof.
  intros E. unfold calculate_position_size.
  assert (H0 : Qabs (entry - stop) == 0).
  { setoid_replace (entry - stop) with 0 by (rewrite E; ring). reflexivity. }
  unfold Py.div at 1.
  destruct (Py.eq min_tick 0) eqn:Emt; [reflexivity|].
  cbn [Py.bind].
  rewrite Py_div_zero; [reflexivity|].
  rewrite H0. unfold Qdiv. ring.
Qed.

End PositionSizing.

(** ** The range of the floats *)

Section FloatFacts.

Import Float.

Lemma underflow_below_min : underflow_to < min_positive.
Proof. vm_compute. reflexivity. Qed.

Lemma min_positive_pos : 0 < min_positive.
Proof. reflexivity. Qed.

Lemma min_below_max : min_positive <= max_finite.
Proof. vm_compute. discriminate. Qed.

Lemma one_below_max : 1 <= max_finite.
Proof. vm_compute. discriminate. Qed.

Lemma max_below_overflow : max_finite < overflow_from.
Proof. vm_compute. reflexivity. Qed.

Lemma max_finite_pos : 0 < max_finite.
Proof. vm_compute. reflexivity. Qed.

(** A result within the range is kept. *)
Lemma round_in_range (x : Q) : in_range x -> round x = Fin x.
Proof.
  intros [Hlo Hhi]. unfold round. cbn zeta.
  replace (Py.ge (Qabs x) overflow_from) with false.
  2:{ symmetry. apply Py_ge_false_iff.
      eapply Qle_lt_trans; [exact Hhi | apply max_below_overflow]. }
  replace (Py.gt (Qabs x) max_finite) with false
    by (symmetry; apply Py_gt_false_iff; exact Hhi).
  replace (Py.le (Qabs x) underflow_to) with false.
  2:{ symmetry. apply Py_le_false_iff.
      eapply Qlt_le_trans; [apply underflow_below_min | exact Hlo]. }
  replace (Py.lt (Qabs x) min_positive) with false
    by (symmetry; apply Py_lt_false_iff; exact Hlo).
  reflexivity.
Qed.


(** A finite result is at most the largest double. *)
Lemma round_finite_bound (x y : Q) : round x = Fin y -> Qabs y <= max_finite.
Proof.
  unfold round. cbn zeta.
  destruct (Py.ge (Qabs x) overflow_from); [discriminate|].
  destruct (Py.gt (Qabs x) max_finite) eqn:G.
  { intros H. injection H as <-. destruct (negative x).
    - rewrite Qabs_opp, Qabs_pos; [apply Qle_refl|].
      apply Qlt_le_weak, max_finite_pos.
    - rewrite Qabs_pos; [apply Qle_refl|]. apply Qlt_le_weak, max_finite_pos. }
  apply Py_gt_false_iff in G.
  destruct (Py.le (Qabs x) underflow_to).
  { intros H. injection H as <-. apply Qlt_le_weak, max_finite_pos. }
  destruct (Py.lt (Qabs x) min_positive).
  { intros H. injection H as <-. destruct (negative x).
    - rewrite Qabs_opp, Qabs_pos; [apply min_below_max|].
      apply Qlt_le_weak, min_positive_pos.
    - rewrite Qabs_pos; [apply min_below_max|].
      apply Qlt_le_weak, min_positive_pos. }
  intros H. injection H as <-. exact G.
Qed.


(** An integer between 1 and the truncation of a finite float converts. *)
Lemma of_int_contracts (x : Q) (c : Z) :
  Qabs x <= max_finite -> (1 <= c)%Z -> (c <= Z.max 1 (Py.int x))%Z ->
  of_int c = Py.Ok (Fin (inject_Z c)).
Proof.
  intros Hx H1 Hc. unfold of_int.
  replace (Py.ge (Qabs (inject_Z c)) overflow_from) with false; [reflexivity|].
  symmetry. apply Py_ge_false_iff.
  eapply Qle_lt_trans; [|apply max_below_overflow].
  rewrite Qabs_pos by (change 0 with (inject_Z 0); rewrite <- Zle_Qle; lia).
  destruct (Z.max_spec 1 (Py.int x)) as [[Hlt E] | [Hge E]]; rewrite E in Hc.
  - assert (Hpos : 0 <= x).
    { destruct (Qlt_le_dec x 0) as [Hneg | Hnn]; [|exact Hnn].
      exfalso. destruct x as [n d]. unfold Py.int, Qlt in *. cbn in *.
      assert (n < 0)%Z by lia.
      pose proof (Z.quot_opp_l n (Zpos d) ltac:(lia)) as Q1.
      pose proof (Z.quot_pos (- n) (Zpos d) ltac:(lia) ltac:(lia)) as Q2.
      lia. }
    eapply Qle_trans; [apply inject_Z_le; exact Hc|].
    eapply Qle_trans; [apply int_le; exact Hpos|].
    rewrite <- (Qabs_pos x Hpos). exact Hx.
  - eapply Qle_trans; [apply inject_Z_le; exact Hc|]. apply one_below_max.
Qed.

End FloatFacts.

(** ** Position sizing on floats *)

Section FloatSizing.

Import Float FloatPositionSizer.

Variable self : PositionSizer.t.
Variable symbol : string.



(** Truncation does not see what the range does to a quotient of at most
    the largest double. *)
Lemma int_small (q : Q) : Qabs q < 1 -> Py.int q = 0%Z.
Proof.
  destruct q as [n d]. unfold Py.int, Qlt, Qabs. cbn. intros H.
  rewrite Z.mul_1_r in H.
  destruct (Z.abs_spec n) as [[Hn E] | [Hn E]]; rewrite E in H.
  - apply Z.quot_small. lia.
  - rewrite <- (Z.opp_involutive n), Z.quot_opp_l by lia.
    rewrite Z.quot_small by lia. reflexivity.
Qed.

Lemma int_round (q : Q) :
  Qabs q <= max_finite -> exists y, round q = Fin y /\ Py.int y = Py.int q.
Proof.
  intros H. unfold round. cbn zeta.
  replace (Py.ge (Qabs q) overflow_from) with false.
  2:{ symmetry. apply Py_ge_false_iff.
      eapply Qle_lt_trans; [exact H | apply max_below_overflow]. }
  replace (Py.gt (Qabs q) max_finite) with false
    by (symmetry; apply Py_gt_false_iff; exact H).
  assert (Small : Qabs q < min_positive -> Py.int q = 0%Z).
  { intros L. apply int_small. eapply Qlt_trans; [exact L|]. reflexivity. }
  destruct (Py.le (Qabs q) underflow_to) eqn:U.
  { apply Py_le_iff in U. exists 0. split; [reflexivity|].
    symmetry. apply Small.
    eapply Qle_lt_trans; [exact U | apply underflow_below_min]. }
  destruct (Py.lt (Qabs q) min_positive) eqn:M.
  { apply Py_lt_iff in M. rewrite (Small M).
    destruct (negative q); eexists; (split; [reflexivity|]);
      vm_compute; reflexivity. }
  exists q. split; reflexivity.
Qed.

Lemma lookup_bracket_agrees (br : list ((Q * Q) * Z)) (risk_points : Q) :
  lookup_bracket br (Fin risk_points)
  = PositionSizer.lookup_bracket br risk_points.
Proof.
  induction br as [|[[lo hi] c] tl IH]; [reflexivity|].
  cbn [lookup_bracket PositionSizer.lookup_bracket Float.le]. rewrite IH.
  reflexivity.
Qed.

(** Within the range the two embeddings of the sizer agree: where the sizer
    on exact numbers returns, the sizer on floats returns the same contracts,
    risk distance and risk per contract. *)
Lemma float_sizer_agrees (entry stop tick_value min_tick : Q)
    (p' : PositionSizer.PositionSize) :
  PositionSizer.calculate_position_size self symbol entry stop tick_value
    min_tick = Py.Ok p' ->
  in_range (entry - stop) ->
  in_range (Qabs (entry - stop) / min_tick) ->
  in_range (PositionSizer.ps_risk_per_contract p') ->
  Qabs (PositionSizer.max_risk_dollars self
        / PositionSizer.ps_risk_per_contract p') <= max_finite ->
  exists p,
    calculate_position_size self symbol (Fin entry) (Fin stop)
      (Fin tick_value) (Fin min_tick) = Py.Ok p
    /\ ps_contracts p = PositionSizer.ps_contracts p'
    /\ ps_risk_points p = Fin (PositionSizer.ps_risk_points p')
    /\ ps_risk_per_contract p = Fin (PositionSizer.ps_risk_per_contract p').
Proof.
  unfold PositionSizer.calculate_position_size.
  unfold Py.div at 1. destruct (Py.eq min_tick 0) eqn:Em; [discriminate|].
  cbn [Py.bind].
  set (r := Qabs (entry - stop) / min_tick * tick_value).
  unfold Py.div at 1. destruct (Py.eq r 0) eqn:Er; [discriminate|].
  cbn [Py.bind].
  unfold Py.div. destruct (Py.eq (PositionSizer.account_size self) 0) eqn:Ea;
    [discriminate|].
  cbn [Py.bind]. intros H. injection H as <-.
  cbn [PositionSizer.ps_risk_per_contract PositionSizer.ps_contracts
       PositionSizer.ps_risk_points].
  intros R1 R2 R3 R4.
  destruct (@int_round _ R4) as (y & Hy & Iy).
  unfold calculate_position_size.
  cbn [Float.sub]. rewrite (@round_in_range _ R1). cbn [Float.abs].
  unfold Float.div at 1. cbn [is_zero]. rewrite Em. cbn [Py.bind].
  rewrite (@round_in_range _ R2). cbn [Float.mul]. fold r.
  rewrite (@round_in_range _ R3).
  unfold Float.div at 1. cbn [is_zero]. rewrite Er. cbn [Py.bind].
  rewrite Hy. cbn [Float.int Py.bind]. rewrite Iy.
  unfold _get_mnq_contracts, PositionSizer._get_mnq_contracts.
  rewrite lookup_bracket_agrees.
  set (c := Z.max 1 _).
  assert (Hc1 : (1 <= c)%Z) by (unfold c; lia).
  assert (Hc2 : (c <= Z.max 1 (Py.int y))%Z)
    by (unfold c; rewrite Iy; destruct (String.eqb symbol "MNQ"); lia).
  rewrite (@of_int_contracts y c (@round_finite_bound _ _ Hy) Hc1 Hc2).
  cbn [Py.bind]. unfold Float.div. cbn [is_zero]. rewrite Ea. cbn [Py.bind].
  eexists. split; [reflexivity|].
  cbn [ps_contracts ps_risk_points ps_risk_per_contract].
  repeat split.
Qed.

End FloatSizing.



(** A NaN entry price makes every intermediate value NaN, and [int] raises
    ValueError. *)
Example float_sizer_nan_raises :
  FloatPositionSizer.calculate_position_size
    (PositionSizer.init 50000 (5 # 1000)) "MNQ" Float.NaN (Float.Fin 16527)
    (Float.Fin 2) (Float.Fin (1 # 4))
  = Py.Raise Py.ValueError.
Proof. vm_compute. reflexivity. Qed.

(** The scenario of the specification: two contracts by risk, one by bracket. *)
Example position_size_scenario :
  match PositionSizer.calculate_position_size
          (PositionSizer.init 50000 (5 # 1000)) "MNQ" 16515 16527 2 (1 # 4) with
  | Py.Ok p =>
      PositionSizer.ps_contracts p = 1%Z
      /\ PositionSizer.ps_risk_per_contract p == 96
  | Py.Raise _ => False
  end.
Proof. vm_compute. split; reflexivity. Qed.

(** [_build_signal] defines the ratio of a zero risk distance as 0. *)
Lemma build_signal_zero_risk (self : SignalGenerator.t)
    (sweep : LiquiditySweepDetector.Sweep) (current_bar : Bar)
    (direction : Direction) (min_tick : Q) :
  let s := SignalGenerator._build_signal self sweep current_bar direction min_tick in
  SignalGenerator.sg_risk s == 0 ->
  SignalGenerator.sg_risk_reward_ratio s = 0.
Proof.
  cbn zeta. unfold SignalGenerator._build_signal.
  cbn [SignalGenerator.sg_risk SignalGenerator.sg_risk_reward_ratio].
  intros H. unfold SignalGenerator.risk_reward, Py.gt.
  assert (Hle : Qle_bool
                  (Qabs (bar_close current_bar
                         - match direction with
                           | SHORT => LiquiditySweepDetector.sw_swing_level sweep
                                      + inject_Z (SignalGenerator.STOP_LOSS_BUFFER_TICKS
                                                    (SignalGenerator.config self)) * min_tick
                           | LONG => LiquiditySweepDetector.sw_swing_level sweep
                                     - inject_Z (SignalGenerator.STOP_LOSS_BUFFER_TICKS
                                                   (SignalGenerator.config self)) * min_tick
                           end)) 0 = true).
  { apply Qle_bool_iff. rewrite H. apply Qle_refl. }
  rewrite Hle. reflexivity.
Qed.

(** C4: a zero risk distance in the sizer.  [_build_signal] returns a ratio
    of 0 when the risk is 0, but [calculate_position_size] called with
    entry = stop raises ZeroDivisionError, whatever the sizer, the symbol,
    the tick value and the tick size. *)
Theorem C4_zero_risk_distance_raises_in_sizer :
  (forall self sweep current_bar direction min_tick,
      SignalGenerator.sg_risk
        (SignalGenerator._build_signal self sweep current_bar direction min_tick) == 0 ->
      SignalGenerator.sg_risk_reward_ratio
        (SignalGenerator._build_signal self sweep current_bar direction min_tick) = 0)
  /\ (forall self symbol price tick_value min_tick,
         PositionSizer.calculate_position_size self symbol price price
           tick_value min_tick = Py.Raise Py.ZeroDivisionError)
  /\ PositionSizer.calculate_position_size (PositionSizer.init 50000 (5 # 1000))
       "MNQ" 100 100 2 (1 # 4) = Py.Raise Py.ZeroDivisionError.
Proof.
  split; [|split].
  - intros. apply build_signal_zero_risk. assumption.
  - intros. apply zero_risk_raises. reflexivity.
  - vm_compute. reflexivity.
Qed.

(** ** The sweep detector *)

Section DetectSweep.

Import LiquiditySweepDetector.

Variable self : LiquiditySweepDetector.t.
Variable current_bar : Bar.
Variable previous_bars : list Bar.
Variable min_tick : Q.

Lemma buyside_check_inv (d : LiquiditySweepDetector.t) (s : Sweep) :
  buyside_check d current_bar min_tick = Some s ->
  sw_type s = buyside_sweep /\ sw_direction s = SHORT.
Proof.
  unfold buyside_check. destruct (Py.last_opt (swing_highs d)); [|discriminate].
  match goal with |- context [if ?c then _ else _] => destruct c end;
    [|discriminate].
  intros H. injection H as <-. split; reflexivity.
Qed.

Lemma sellside_check_inv (d : LiquiditySweepDetector.t) (s : Sweep) :
  sellside_check d current_bar min_tick = Some s ->
  sw_type s = sellside_sweep /\ sw_direction s = LONG.
Proof.
  unfold sellside_check. destruct (Py.last_opt (swing_lows d)); [|discriminate].
  match goal with |- context [if ?c then _ else _] => destruct c end;
    [|discriminate].
  intros H. injection H as <-. split; reflexivity.
Qed.

Lemma last_opt_some_not_empty {A : Type} (l : list A) (x : A) :
  Py.last_opt l = Some x -> is_empty l = false.
Proof. destruct l; [discriminate | reflexivity]. Qed.

(** C7: [detect_sweep] works on the swings the detector holds, or, when it
    holds none, on those [identify_swings] finds in the previous bars, and
    leaves the detector with them.  It returns at most one sweep (its result
    is an optional sweep); a returned buyside sweep has direction SHORT and a
    returned sellside sweep has direction LONG.  When the bar's high reaches
    the latest swing high plus the buffer and its close is back below that
    swing high, the buyside sweep is the one returned -- whether or not the
    sellside condition holds on the same bar; the sellside sweep is returned
    when the buyside condition fails and the bar's low reaches the latest
    swing low minus the buffer with a close back above that swing low. *)
Theorem C7_detect_sweep_buyside_first :
  let r := fst (detect_sweep self current_bar previous_bars min_tick) in
  let self' := snd (detect_sweep self current_bar previous_bars min_tick) in
  let buffer := inject_Z (sweep_buffer_ticks self') * min_tick in
  let buyside_condition sh :=
    Py.ge (bar_high current_bar) (swing_price sh + buffer)
    && Py.lt (bar_close current_bar) (swing_price sh) in
  let sellside_condition sl :=
    Py.le (bar_low current_bar) (swing_price sl - buffer)
    && Py.gt (bar_close current_bar) (swing_price sl) in
  (swing_highs self <> [] \/ swing_lows self <> [] -> self' = self)
  /\ (swing_highs self = [] -> swing_lows self = [] ->
      self' = identify_swings self previous_bars 20)
  /\ (forall s, r = Some s ->
        (sw_type s = buyside_sweep /\ sw_direction s = SHORT)
        \/ (sw_type s = sellside_sweep /\ sw_direction s = LONG))
  /\ (forall sh,
        Py.last_opt (swing_highs self') = Some sh ->
        buyside_condition sh = true ->
        r = Some {| sw_type := buyside_sweep;
                    sw_swing_level := swing_price sh;
                    sw_extreme := bar_high current_bar;
                    sw_close := bar_close current_bar;
                    sw_time := bar_time current_bar;
                    sw_direction := SHORT |})
  /\ (forall sl,
        Py.last_opt (swing_lows self') = Some sl ->
        (forall sh, Py.last_opt (swing_highs self') = Some sh ->
                    buyside_condition sh = false) ->
        sellside_condition sl = true ->
        r = Some {| sw_type := sellside_sweep;
                    sw_swing_level := swing_price sl;
                    sw_extreme := bar_low current_bar;
                    sw_close := bar_close current_bar;
                    sw_time := bar_time current_bar;
                    sw_direction := LONG |})
  /\ ((forall sh, Py.last_opt (swing_highs self') = Some sh ->
                  buyside_condition sh = false) ->
      (forall sl, Py.last_opt (swing_lows self') = Some sl ->
                  sellside_condition sl = false) ->
      r = None).
Proof.
  cbn zeta. unfold detect_sweep.
  set (self1 := if is_empty (swing_highs self) && is_empty (swing_lows self)
                then identify_swings self previous_bars 20 else self).
  assert (S1 : snd (if is_empty (swing_highs self1) && is_empty (swing_lows self1)
                    then (None, self1)
                    else match buyside_check self1 current_bar min_tick with
                         | Some s => (Some s, self1)
                         | None => (sellside_check self1 current_bar min_tick, self1)
                         end) = self1).
  { destruct (is_empty (swing_highs self1) && is_empty (swing_lows self1));
      [reflexivity|].
    destruct (buyside_check self1 current_bar min_tick); reflexivity. }
  rewrite S1.
  split; [|split].
  - intros H. unfold self1.
    destruct H as [H | H];
      [destruct (swing_highs self) | destruct (swing_lows self)];
      try contradiction; cbn [is_empty andb]; rewrite ?andb_false_r; reflexivity.
  - intros Hh Hl. unfold self1. rewrite Hh, Hl. reflexivity.
  - destruct (is_empty (swing_highs self1) && is_empty (swing_lows self1)) eqn:E.
    + apply andb_true_iff in E. destruct E as [Eh El]. cbn [fst].
      assert (Nh : Py.last_opt (swing_highs self1) = None)
        by (destruct (swing_highs self1); [reflexivity | discriminate]).
      assert (Nl : Py.last_opt (swing_lows self1) = None)
        by (destruct (swing_lows self1); [reflexivity | discriminate]).
      split; [discriminate|]. split; [intros sh Hsh; congruence|].
      split; [intros sl Hsl; congruence|]. reflexivity.
    + destruct (buyside_check self1 current_bar min_tick) as [b|] eqn:B;
        cbn [fst].
      * split; [intros s Hs; injection Hs as <-; left;
                exact (buyside_check_inv _ B)|].
        unfold buyside_check in B.
        destruct (Py.last_opt (swing_highs self1)) as [sh0|]; [|discriminate].
        destruct (Py.ge (bar_high current_bar) _
                  && Py.lt (bar_close current_bar) _) eqn:C; [|discriminate].
        split; [intros sh Hsh _; injection Hsh as <-; symmetry; exact B|].
        split; [intros sl _ Hno _; specialize (Hno sh0 eq_refl); congruence|].
        intros Hno _. specialize (Hno sh0 eq_refl). congruence.
      * split; [intros s Hs; right; exact (sellside_check_inv _ Hs)|].
        split.
        { intros sh Hsh Hc. unfold buyside_check in B. rewrite Hsh, Hc in B.
          discriminate. }
        unfold sellside_check.
        destruct (Py.last_opt (swing_lows self1)) as [sl0|];
          [|split; [intros sl Hsl; discriminate | reflexivity]].
        split.
        { intros sl Hsl _ Hc. injection Hsl as <-. rewrite Hc. reflexivity. }
        intros _ Hno. rewrite (Hno sl0 eq_refl). reflexivity.
Qed.

End DetectSweep.

(** A bar on which both conditions hold: its high of 1011 is above the swing
    high of 1010, its low of 975 below the swing low of 980, and its close of
    990 lies between the two levels.  The buyside sweep is returned. *)
Example detect_sweep_both_sides :
  let d := {| LiquiditySweepDetector.min_swing_candles := 3;
              LiquiditySweepDetector.sweep_buffer_ticks := 1;
              LiquiditySweepDetector.swing_highs :=
                [ LiquiditySweepDetector.mkSwing 10 10 1010
                    LiquiditySweepDetector.swing_high ];
              LiquiditySweepDetector.swing_lows :=
                [ LiquiditySweepDetector.mkSwing 5 5 980
                    LiquiditySweepDetector.swing_low ] |} in
  let bar := mkBar 30 1000 1011 975 990 0 in
  LiquiditySweepDetector.sellside_check d bar (1 # 4) <> None
  /\ option_map LiquiditySweepDetector.sw_type
       (fst (LiquiditySweepDetector.detect_sweep d bar [] (1 # 4)))
     = Some LiquiditySweepDetector.buyside_sweep.
Proof. vm_compute. split; [discriminate | reflexivity]. Qed.

(** ** Trade simulation *)

Section SimulateTrade.

Import Backtester SignalGenerator PositionSizer.

Variable signal : Signal.
Variable position_size : PositionSize.

Let direction := sg_direction signal.
Let stop := sg_stop_loss signal.
Let target := sg_target signal.

Lemma hit_stop_first (bar : Bar) :
  stop_touched direction stop bar = true ->
  hit direction stop target bar = StopHit.
Proof.
  unfold stop_touched, hit. destruct direction; intros ->; reflexivity.
Qed.

Lemma hit_nothing (bar : Bar) :
  stop_touched direction stop bar = false ->
  target_touched direction target bar = false ->
  hit direction stop target bar = NoHit.
Proof.
  unfold stop_touched, target_touched, hit.
  destruct direction; intros -> ->; reflexivity.
Qed.

Lemma first_hit_quiet (bars : list Bar) :
  (forall x, In x bars ->
   stop_touched direction stop x = false
   /\ target_touched direction target x = false) ->
  first_hit direction stop target bars = None.
Proof.
  induction bars as [|b tl IH]; intros H; [reflexivity|].
  cbn [first_hit]. destruct (H b (or_introl eq_refl)) as [Hs Ht].
  rewrite (hit_nothing _ Hs Ht). apply IH.
  intros x Hx. apply H. right. exact Hx.
Qed.

Lemma first_hit_after_quiet (pre : list Bar) (bar : Bar) (post : list Bar) :
  (forall x, In x pre ->
   stop_touched direction stop x = false
   /\ target_touched direction target x = false) ->
  stop_touched direction stop bar = true ->
  first_hit direction stop target (pre ++ bar :: post) = Some (bar, StopHit).
Proof.
  induction pre as [|b tl IH]; intros H Hbar.
  - cbn [app first_hit]. rewrite (hit_stop_first _ Hbar). reflexivity.
  - cbn [app first_hit]. destruct (H b (or_introl eq_refl)) as [Hs Ht].
    rewrite (hit_nothing _ Hs Ht). apply IH; [|exact Hbar].
    intros x Hx. apply H. right. exact Hx.
Qed.

(** The slice [future_bars[:max_bars_to_check]] is the first hundred bars. *)
Lemma scanned_bars (future_bars : list Bar) :
  firstn (Nat.min 100 (List.length future_bars)) future_bars
  = firstn 100 future_bars.
Proof.
  destruct (Nat.le_ge_cases 100 (List.length future_bars)) as [H | H].
  - rewrite Nat.min_l by exact H. reflexivity.
  - rewrite Nat.min_r by exact H.
    rewrite firstn_all. symmetry. apply firstn_all2. exact H.
Qed.

Lemma bar_eqb_refl (b : Bar) : bar_eqb b b = true.
Proof.
  unfold bar_eqb, Py.eq. rewrite Z.eqb_refl.
  repeat match goal with
         | |- context [Qeq_bool ?x ?x] =>
             replace (Qeq_bool x x) with true
               by (symmetry; apply Qeq_bool_iff; reflexivity)
         end.
  reflexivity.
Qed.

Lemma first_hit_in (bars : list Bar) (bar : Bar) (h : Hit) :
  first_hit direction stop target bars = Some (bar, h) -> In bar bars.
Proof.
  induction bars as [|b tl IH]; [discriminate|].
  cbn [first_hit]. destruct (hit direction stop target b).
  - intros E. injection E as <- _. left. reflexivity.
  - intros E. injection E as <- _. left. reflexivity.
  - intros E. right. apply IH. exact E.
Qed.

(** [index] finds a bar of the first [n] bars inside the first [n] bars. *)
Lemma index_firstn (n : nat) (l : list Bar) (bar : Bar) :
  In bar (firstn n l) -> index (firstn n l) bar = index l bar.
Proof.
  revert n. induction l as [|x tl IH]; intros n H.
  - rewrite firstn_nil in H. destruct H.
  - destruct n as [|n]; [destruct H|].
    cbn [firstn index] in *. destruct (bar_eqb x bar) eqn:E; [reflexivity|].
    f_equal. apply IH. destruct H as [-> | H]; [|exact H].
    rewrite bar_eqb_refl in E. discriminate.
Qed.

(** C8: [simulate_trade] looks at the first hundred future bars only; on
    the first bar that touches the stop or the target it tests the stop
    first, so a bar touching the stop after bars touching neither gives
    LOSS with pnl = -total_risk_dollars and exit = stop (even when the same
    bar touches the target too); and when none of the scanned bars touches
    either, the result is BREAKEVEN with pnl = 0 and exit = entry. *)
Theorem C8_simulate_trade_stop_before_target (future_bars : list Bar) :
  let t := simulate_trade signal position_size future_bars in
  t = simulate_trade signal position_size (firstn 100 future_bars)
  /\ (forall pre bar post,
        future_bars = pre ++ bar :: post ->
        (List.length pre < 100)%nat ->
        (forall x, In x pre ->
           stop_touched (sg_direction signal) (sg_stop_loss signal) x = false
           /\ target_touched (sg_direction signal) (sg_target signal) x = false) ->
        stop_touched (sg_direction signal) (sg_stop_loss signal) bar = true ->
        tr_result t = LOSS
        /\ tr_pnl t = - ps_total_risk_dollars position_size
        /\ tr_exit t = sg_stop_loss signal)
  /\ ((forall x, In x (firstn 100 future_bars) ->
         stop_touched (sg_direction signal) (sg_stop_loss signal) x = false
         /\ target_touched (sg_direction signal) (sg_target signal) x = false) ->
      tr_result t = BREAKEVEN
      /\ tr_pnl t = 0
      /\ tr_exit t = sg_entry signal).
Proof.
  cbn zeta. split; [|split].
  - unfold simulate_trade.
    rewrite !scanned_bars, firstn_firstn, Nat.min_id.
    replace (Nat.min 100 (List.length (firstn 100 future_bars)))
      with (Nat.min 100 (List.length future_bars))
      by (rewrite length_firstn; lia).
    fold direction stop target.
    destruct (first_hit direction stop target (firstn 100 future_bars))
      as [[bar h]|] eqn:E; [|reflexivity].
    pose proof (first_hit_in _ E) as Hin.
    rewrite (index_firstn _ _ _ Hin). reflexivity.
  - intros pre bar post -> Hlen Hpre Hbar.
    unfold simulate_trade. rewrite scanned_bars.
    replace (firstn 100 (pre ++ bar :: post))
      with (pre ++ bar :: firstn (100 - List.length pre - 1) post).
    + fold direction stop target.
      rewrite (@first_hit_after_quiet pre bar _ Hpre Hbar).
      cbn [tr_result tr_pnl tr_exit]. repeat split; reflexivity.
    + rewrite firstn_app.
      rewrite (firstn_all2 (n := 100) pre) by lia.
      f_equal.
      destruct (100 - List.length pre)%nat as [|k] eqn:K; [lia|].
      cbn [firstn]. f_equal. f_equal. lia.
  - intros Hquiet. unfold simulate_trade. rewrite scanned_bars.
    fold direction stop target.
    rewrite (@first_hit_quiet _ Hquiet).
    cbn [tr_result tr_pnl tr_exit]. repeat split; reflexivity.
Qed.

End SimulateTrade.

(** C8, on the scenario of the specification: a SHORT trade with entry 100,
    stop 106 and target 88, and a future bar whose high reaches 107 (and whose
    low reaches 88 as well) after a bar that touches nothing. *)
Lemma C8_stop_hit_scenario :
  let signal :=
    {| SignalGenerator.sg_time := 0; SignalGenerator.sg_direction := SHORT;
       SignalGenerator.sg_entry := 100; SignalGenerator.sg_stop_loss := 106;
       SignalGenerator.sg_target := 88; SignalGenerator.sg_risk := 6;
       SignalGenerator.sg_reward := 12;
       SignalGenerator.sg_risk_reward_ratio := 2;
       SignalGenerator.sg_confirmations := SignalGenerator.empty_state;
       SignalGenerator.sg_filter_scores := None |} in
  let size :=
    {| PositionSizer.ps_symbol := "MNQ"; PositionSizer.ps_contracts := 1;
       PositionSizer.ps_entry := 100; PositionSizer.ps_stop := 106;
       PositionSizer.ps_risk_points := 6;
       PositionSizer.ps_risk_per_contract := 48;
       PositionSizer.ps_total_risk_dollars := 48;
       PositionSizer.ps_risk_percentage := 96 # 1000;
       PositionSizer.ps_tick_value := 2 |} in
  let t := Backtester.simulate_trade signal size
             [ mkBar 1 100 101 99 100 0; mkBar 2 100 107 88 90 0 ] in
  Backtester.tr_result t = Backtester.LOSS
  /\ Backtester.tr_pnl t = - 48
  /\ Backtester.tr_exit t = 106.
Proof.
  cbv zeta.
  refine (proj1 (proj2 (C8_simulate_trade_stop_before_target _ _ _))
            [ mkBar 1 100 101 99 100 0 ] (mkBar 2 100 107 88 90 0) [] eq_refl _ _ _).
  - cbn. lia.
  - intros x [<- | []]. split; reflexivity.
  - reflexivity.
Defined.

(** ** Delivery into a higher-timeframe FVG *)

Section CheckDelivery.

Import HTFFVGDetector.

Variable max_age : Z.
Variable current_bar : Bar.

Lemma examined_filled (f : FVG) : fvg_filled f = true -> examined max_age f f.
Proof. unfold examined. intros ->. reflexivity. Qed.

Lemma examined_expired (f : FVG) :
  fvg_filled f = false ->
  examined max_age f (set_filled (set_age f (fvg_age f + 1))).
Proof.
  unfold examined. intros ->. cbn. split; [reflexivity|]. intros _. reflexivity.
Qed.

Lemma examined_kept (f : FVG) :
  fvg_filled f = false ->
  (fvg_age f + 1 >? max_age)%Z = false ->
  examined max_age f (set_age f (fvg_age f + 1))
  /\ examined max_age f (set_filled (set_age f (fvg_age f + 1))).
Proof.
  unfold examined. intros -> H. cbn.
  assert (~ (fvg_age f + 1 > max_age)%Z).
  { intros G. apply Z.gt_lt, Z.gtb_lt in G. rewrite G in H. discriminate. }
  repeat split; try reflexivity; intros; contradiction.
Qed.

(** C5 (amended): [check_delivery] walks the list in order up to the first
    delivery.  Every FVG it examines that was not filled at the start has its
    age incremented by exactly one, and is marked filled -- and not returned --
    when the new age exceeds [max_age]; filled FVGs are left alone.  When a
    delivery is returned, it is an unfilled FVG whose incremented age does
    not exceed [max_age], and the FVGs after it in the list are unchanged. *)
Theorem C5_check_delivery_ages_examined (fvgs : list FVG) :
  match check_delivery max_age fvgs current_bar with
  | (None, fvgs') => Forall2 (examined max_age) fvgs fvgs'
  | (Some d, fvgs') =>
      exists pre f post pre',
        fvgs = pre ++ f :: post
        /\ fvgs' = pre' ++ dl_fvg d :: post
        /\ Forall2 (examined max_age) pre pre'
        /\ fvg_filled f = false
        /\ dl_fvg d = set_age f (fvg_age f + 1)
        /\ (fvg_age f + 1 <= max_age)%Z
        /\ fvg_filled (dl_fvg d) = false
  end.
Proof.
  induction fvgs as [|f rest IH]; [constructor|].
  cbn [check_delivery].
  destruct (check_delivery max_age rest current_bar) as [[d|] rest'] eqn:E.
  - (* a later FVG delivers, unless this one does *)
    destruct IH as (pre & f0 & post & pre' & -> & -> & Hpre & Hf0 & Hd & Hage & Hfill).
    destruct (fvg_filled f) eqn:Ff.
    + exists (f :: pre), f0, post, (f :: pre').
      repeat split; try assumption.
      constructor; [apply examined_filled; exact Ff | exact Hpre].
    + destruct (fvg_age (set_age f (fvg_age f + 1)) >? max_age)%Z eqn:Old.
      * exists (f :: pre), f0, post,
          (set_filled (set_age f (fvg_age f + 1)) :: pre').
        repeat split; try assumption.
        constructor; [apply examined_expired; exact Ff | exact Hpre].
      * cbn [fvg_age set_age] in Old.
        destruct (judge (set_age f (fvg_age f + 1)) current_bar) eqn:J.
        -- exists [], f, (pre ++ f0 :: post), [].
           cbn [dl_fvg app]. repeat split; try assumption; try constructor.
           ++ intros G. apply Z.gt_lt, Z.gtb_lt in G. rewrite G in Old. discriminate.
        -- exists (f :: pre), f0, post,
             (set_filled (set_age f (fvg_age f + 1)) :: pre').
           repeat split; try assumption.
           constructor; [apply (examined_kept _ Ff Old) | exact Hpre].
        -- exists (f :: pre), f0, post, (set_age f (fvg_age f + 1) :: pre').
           repeat split; try assumption.
           constructor; [apply (examined_kept _ Ff Old) | exact Hpre].
  - destruct (fvg_filled f) eqn:Ff.
    + constructor; [apply examined_filled; exact Ff | exact IH].
    + destruct (fvg_age (set_age f (fvg_age f + 1)) >? max_age)%Z eqn:Old.
      * constructor; [apply examined_expired; exact Ff | exact IH].
      * cbn [fvg_age set_age] in Old.
        destruct (judge (set_age f (fvg_age f + 1)) current_bar) eqn:J.
        -- exists [], f, rest, [].
           cbn [dl_fvg app]. repeat split; try assumption; try constructor.
           ++ intros G. apply Z.gt_lt, Z.gtb_lt in G. rewrite G in Old. discriminate.
        -- constructor; [apply (examined_kept _ Ff Old) | exact IH].
        -- constructor; [apply (examined_kept _ Ff Old) | exact IH].
Qed.

End CheckDelivery.

(** C5, counterexample to the statement for every unfilled FVG of the list:
    with two unfilled FVGs that the bar both delivers into, the call returns
    at the first one, and the second one -- unfilled at the start -- keeps its
    age of 0. *)
Lemma C5_fvg_after_delivery_not_aged :
  HTFFVGDetector.fvg_filled (Scenario.gap 0) = false
  /\ option_map HTFFVGDetector.dl_fvg
       (fst (HTFFVGDetector.check_delivery 20
               [Scenario.gap 0; Scenario.gap 0] Scenario.tap))
     = Some (Scenario.gap 1)
  /\ snd (HTFFVGDetector.check_delivery 20
            [Scenario.gap 0; Scenario.gap 0] Scenario.tap)
     = [Scenario.gap 1; Scenario.gap 0]
  /\ HTFFVGDetector.fvg_age (Scenario.gap 0)
     <> (HTFFVGDetector.fvg_age (Scenario.gap 0) + 1)%Z.
Proof.
  repeat split; try (vm_compute; reflexivity).
  vm_compute. discriminate.
Qed.

(** ** The pipeline *)

Section Pipeline.

Import SignalGenerator.

Lemma keeps_refl (a : t) : keeps a a.
Proof. unfold keeps. repeat split; intros; auto. Qed.

Lemma keeps_trans (a b c : t) : keeps a b -> keeps b c -> keeps a c.
Proof.
  intros (H1 & H2 & H3) (G1 & G2 & G3). split; [|split].
  - intros d Hd. destruct (H1 _ Hd) as [Hb Hdet].
    destruct (G1 _ Hb) as [Hc Gdet]. split; [exact Hc|].
    rewrite Gdet. exact Hdet.
  - intros i Hi. apply G2, H2, Hi.
  - intros x Hx. apply G3, H3, Hx.
Qed.

Lemma same_setup_refl (a : t) : same_setup a a.
Proof. unfold same_setup. repeat split. Qed.

Lemma same_setup_trans (a b c : t) :
  same_setup a b -> same_setup b c -> same_setup a c.
Proof.
  intros (A1 & A2 & A3 & A4) (B1 & B2 & B3 & B4).
  repeat split; etransitivity; eassumption.
Qed.

Variable ltf_bars htf_bars : list Bar.
Variable min_tick : Q.

(** *** What each stage leaves alone *)

Lemma stage_sweep_keeps (self : t) (bar : Bar) :
  keeps self (stage_sweep self bar ltf_bars min_tick)
  /\ same_setup self (stage_sweep self bar ltf_bars min_tick)
  /\ volatility_filter (stage_sweep self bar ltf_bars min_tick)
     = volatility_filter self.
Proof.
  unfold stage_sweep.
  destruct (LiquiditySweepDetector.detect_sweep _ _ _ _) as [[s|] d];
    repeat split; cbn; auto.
Qed.

Lemma stage_htf_fvg_keeps (self : t) (direction : Direction) (bar : Bar) :
  keeps self (stage_htf_fvg self direction bar htf_bars min_tick)
  /\ same_setup self (stage_htf_fvg self direction bar htf_bars min_tick)
  /\ volatility_filter (stage_htf_fvg self direction bar htf_bars min_tick)
     = volatility_filter self.
Proof.
  unfold stage_htf_fvg.
  destruct (cs_htf_fvg (confirmation_state self)) eqn:E.
  - split; [apply keeps_refl | split; [apply same_setup_refl | reflexivity]].
  - destruct (HTFFVGDetector.check_delivery _ _ _) as [[d|] fvgs];
      [destruct (Direction_eqb _ _)|];
      (split; [|split; [repeat split | reflexivity]]);
      (split; [intros d0 H; rewrite E in H; discriminate | split; cbn; auto]).
Qed.

Lemma stage_ifvg_keeps (self : t) (direction : Direction) :
  keeps self (stage_ifvg self direction ltf_bars min_tick)
  /\ same_setup self (stage_ifvg self direction ltf_bars min_tick)
  /\ volatility_filter (stage_ifvg self direction ltf_bars min_tick)
     = volatility_filter self.
Proof.
  unfold stage_ifvg.
  destruct (cs_ifvg (confirmation_state self)) eqn:E.
  - split; [apply keeps_refl | split; [apply same_setup_refl | reflexivity]].
  - destruct (iFVGDetector.detect_ifvg_inversion _ _ _ _) as [i|];
      [destruct (Direction_eqb _ _)|];
      (split; [|split; [repeat split | reflexivity]]);
      (split; [cbn; auto | split; [intros i0 H; rewrite E in H; discriminate
                                  | cbn; auto]]).
Qed.

Lemma stage_cisd_keeps (self : t) (sweep : LiquiditySweepDetector.Sweep)
    (direction : Direction) :
  keeps self (stage_cisd self sweep direction ltf_bars)
  /\ same_setup self (stage_cisd self sweep direction ltf_bars)
  /\ volatility_filter (stage_cisd self sweep direction ltf_bars)
     = volatility_filter self.
Proof.
  unfold stage_cisd.
  destruct (cs_cisd (confirmation_state self)) eqn:E.
  - split; [apply keeps_refl | split; [apply same_setup_refl | reflexivity]].
  - destruct (CISDDetector.detect_cisd _ _ _) as [c|];
      [destruct (Direction_eqb _ _)|];
      (split; [|split; [repeat split | reflexivity]]);
      (split; [cbn; auto | split; [cbn; auto
                                  | intros c0 H; rewrite E in H; discriminate]]).
Qed.

(** The first part of [check_for_signal] keeps what the later stages had
    recorded, and never touches the setup or the volatility filter. *)
Lemma check_confirmations_keeps (self : t) :
  keeps self (fst (check_confirmations self ltf_bars htf_bars min_tick))
  /\ same_setup self (fst (check_confirmations self ltf_bars htf_bars min_tick))
  /\ volatility_filter (fst (check_confirmations self ltf_bars htf_bars min_tick))
     = volatility_filter self.
Proof.
  unfold check_confirmations.
  destruct ((List.length ltf_bars <? 20)%nat || (List.length htf_bars <? 20)%nat);
    [cbn [fst]; auto using keeps_refl, same_setup_refl|].
  destruct (Py.last_opt ltf_bars) as [bar|];
    [|cbn [fst]; auto using keeps_refl, same_setup_refl].
  destruct (stage_sweep_keeps self bar) as (K1 & S1 & V1).
  set (self1 := stage_sweep self bar ltf_bars min_tick) in *.
  destruct (cs_sweep (confirmation_state self1)) as [sweep|];
    [|cbn [fst]; auto].
  destruct (stage_htf_fvg_keeps self1 (LiquiditySweepDetector.sw_direction sweep) bar)
    as (K2 & S2 & V2).
  set (self2 := stage_htf_fvg self1 _ bar htf_bars min_tick) in *.
  pose proof (keeps_trans K1 K2) as K12.
  pose proof (same_setup_trans S1 S2) as S12.
  assert (V12 : volatility_filter self2 = volatility_filter self)
    by (rewrite V2; exact V1).
  destruct (cs_htf_fvg (confirmation_state self2)); [|cbn [fst]; auto].
  destruct (stage_ifvg_keeps self2 (LiquiditySweepDetector.sw_direction sweep))
    as (K3 & S3 & V3).
  set (self3 := stage_ifvg self2 _ ltf_bars min_tick) in *.
  pose proof (keeps_trans K12 K3) as K13.
  pose proof (same_setup_trans S12 S3) as S13.
  assert (V13 : volatility_filter self3 = volatility_filter self)
    by (rewrite V3; exact V12).
  destruct (cs_ifvg (confirmation_state self3)); [|cbn [fst]; auto].
  destruct (stage_cisd_keeps self3 sweep (LiquiditySweepDetector.sw_direction sweep))
    as (K4 & S4 & V4).
  set (self4 := stage_cisd self3 sweep _ ltf_bars) in *.
  pose proof (keeps_trans K13 K4) as K14.
  pose proof (same_setup_trans S13 S4) as S14.
  assert (V14 : volatility_filter self4 = volatility_filter self)
    by (rewrite V4; exact V13).
  destruct (cs_cisd (confirmation_state self4)); cbn [fst]; auto.
Qed.

(** Past the confirmations, every path resets the confirmation state. *)
Lemma filter_and_emit_resets (cal : Calendar) (w : World) (self : t)
    (sweep : LiquiditySweepDetector.Sweep) (bar : Bar) (direction : Direction) :
  confirmation_state
    (snd (filter_and_emit cal w self sweep bar direction ltf_bars min_tick))
  = empty_state
  /\ same_setup self
       (snd (filter_and_emit cal w self sweep bar direction ltf_bars min_tick)).
Proof.
  unfold filter_and_emit, emit.
  destruct (filters_enabled self) eqn:F.
  - destruct (_run_edge_filters _ _ _ _ _ _ _ _) as [[r|] vf];
      cbn; repeat split; auto.
  - cbn. repeat split; auto.
Qed.

(** One call either ends the episode (the state is reset) or keeps what the
    later stages had recorded. *)
Lemma call_resets_or_keeps (cal : Calendar) (w : World) (self : t) :
  let self' := snd (check_for_signal cal w self ltf_bars htf_bars min_tick) in
  (confirmation_state self' = empty_state \/ keeps self self')
  /\ same_setup self self'.
Proof.
  cbn zeta. unfold check_for_signal.
  pose proof (check_confirmations_keeps self) as (K & S & _).
  destruct (check_confirmations self ltf_bars htf_bars min_tick)
    as [self4 [[[sweep bar] direction]|]]; cbn [fst snd] in *.
  - destruct (filter_and_emit_resets cal w self4 sweep bar direction) as [R S'].
    split; [left; exact R | exact (same_setup_trans S S')].
  - split; [right; exact K | exact S].
Qed.

End Pipeline.

Section PipelineCalls.

Import SignalGenerator.

Variable cal : Calendar.
Variable w : World.



End PipelineCalls.



(** C1: a signal whose confirmations disagree with its direction.  On a
    fresh generator (filters off), the first call records a SHORT sweep and a
    SHORT HTF-FVG delivery; the second call detects a LONG sweep, records LONG
    iFVG and CISD confirmations and returns a LONG signal whose
    ['confirmations'] still hold the SHORT HTF-FVG delivery. *)
Theorem C1_signal_with_opposite_htf_fvg :
  match
    fst (SignalGenerator.run Scenario.unreadable Scenario.calm
           (SignalGenerator.init Scenario.baseline)
           [ (Scenario.ltf_first, Scenario.htf, Scenario.min_tick);
             (Scenario.ltf_reversal, Scenario.htf, Scenario.min_tick) ])
  with
  | [None; Some signal] =>
      SignalGenerator.sg_direction signal = LONG
      /\ directions (SignalGenerator.sg_confirmations signal)
         = [Some LONG; Some SHORT; Some LONG; Some LONG]
  | _ => False
  end.
Proof. vm_compute. split; reflexivity. Qed.

(** The same happens when the generator is called on every new bar, as the
    backtest loop does: bars 20 to 24, one call each. *)
Example replay_signal_with_opposite_htf_fvg :
  map (option_map (fun s =>
         (SignalGenerator.sg_direction s,
          directions (SignalGenerator.sg_confirmations s))))
    (fst (SignalGenerator.run Scenario.unreadable Scenario.calm
            (SignalGenerator.init Scenario.baseline)
            (map (fun n => (firstn n Scenario.ltf_reversal, Scenario.htf,
                            Scenario.min_tick))
                 [21; 22; 23; 24; 25]%nat)))
  = [ None; None; None; None;
      Some (LONG, [Some LONG; Some SHORT; Some LONG; Some LONG]) ].
Proof. vm_compute. reflexivity. Qed.

(** ** Edge filters *)

Section EdgeFilters.

Import SignalGenerator.

Variable cal : Calendar.
Variable ltf_bars htf_bars : list Bar.
Variable min_tick : Q.

(** [_build_signal] does not read the volatility filter. *)
Lemma build_signal_ignores_volatility_filter (self : t) (vf : VolatilityFilter.t)
    (sweep : LiquiditySweepDetector.Sweep) (bar : Bar) (direction : Direction) :
  _build_signal (set_volatility_filter self vf) sweep bar direction min_tick
  = _build_signal self sweep bar direction min_tick.
Proof. reflexivity. Qed.

(** The filters reject exactly when the structure filter does, and otherwise
    report the scores as [_run_edge_filters] computes them. *)
Lemma run_edge_filters_veto (w : World) (self : t)
    (sweep : LiquiditySweepDetector.Sweep) (bar : Bar) (direction : Direction) :
  let extreme :=
    fst (fst (StructureFilter.is_at_extreme direction (bar_close bar) ltf_bars)) in
  let good_time := fst (TimeFilter.is_optimal_time cal (bar_time bar)) in
  let good_vol :=
    fst (fst (fst (VolatilityFilter.is_favorable_volatility w
                     (volatility_filter self)))) in
  match fst (_run_edge_filters cal w self sweep bar direction
               (bar_close bar) ltf_bars) with
  | None => extreme = false
  | Some r =>
      extreme = true
      /\ (good_time = false -> fr_time_score r = 1 # 2)
      /\ (good_time = true ->
          fr_time_score r = TimeFilter.get_quality_multiplier cal (bar_time bar))
      /\ (good_vol = false -> fr_vol_score r = 1 # 2)
      /\ fr_structure_score r
         = StructureFilter.get_quality_score direction (bar_close bar) ltf_bars
      /\ fr_sweep_quality r = SweepQualityScorer.score_sweep cal sweep ltf_bars
  end.
Proof.
  cbn zeta. unfold _run_edge_filters.
  destruct (TimeFilter.is_optimal_time cal (bar_time bar)) as [good_time reason].
  destruct (VolatilityFilter.is_favorable_volatility w (volatility_filter self))
    as [[[good_vol vreason] v] vf1].
  destruct (VolatilityFilter.get_quality_multiplier w vf1) as [vol_score vf2].
  destruct (StructureFilter.is_at_extreme direction (bar_close bar) ltf_bars)
    as [[extreme sreason] position].
  cbn [fst snd]. destruct extreme; cbn [negb fst]; [|reflexivity].
  cbn [fr_time_score fr_vol_score fr_structure_score fr_sweep_quality].
  repeat split; intros ->; reflexivity.
Qed.

(** C9: with the edge filters enabled, on a call in which all four
    confirmations are held, [check_for_signal] returns none and resets the
    confirmation state when the structure filter fails, and returns a signal
    whenever the structure filter passes -- whatever the time filter, the
    volatility filter and the sweep-quality score say.  A failing time or
    volatility filter is recorded as a score of 0.5, and the sweep quality is
    recorded as scored, below the minimum or not. *)
Theorem C9_only_structure_filter_vetoes (w : World) (self self4 : t)
    (sweep : LiquiditySweepDetector.Sweep) (bar : Bar) (direction : Direction) :
  filters_enabled self = true ->
  check_confirmations self ltf_bars htf_bars min_tick
  = (self4, Some (sweep, bar, direction)) ->
  let extreme :=
    fst (fst (StructureFilter.is_at_extreme direction (bar_close bar) ltf_bars)) in
  let result := check_for_signal cal w self ltf_bars htf_bars min_tick in
  (extreme = false ->
   fst result = None /\ confirmation_state (snd result) = empty_state)
  /\ (extreme = true ->
      exists signal scores,
        fst result = Some signal
        /\ sg_direction signal = direction
        /\ sg_confirmations signal = confirmation_state self4
        /\ sg_filter_scores signal = Some scores
        /\ (fst (TimeFilter.is_optimal_time cal (bar_time bar)) = false ->
            time_score scores = 1 # 2)
        /\ (fst (fst (fst (VolatilityFilter.is_favorable_volatility w
                             (volatility_filter self4)))) = false ->
            volatility_score scores = 1 # 2)
        /\ sweep_quality scores
           = SweepQualityScorer.score_sweep cal sweep ltf_bars).
Proof.
  intros Hon Hconf. cbn zeta.
  pose proof (check_confirmations_keeps ltf_bars htf_bars min_tick self)
    as (_ & (_ & Hf & _) & _).
  unfold check_for_signal. rewrite Hconf in *. cbn [fst] in Hf.
  unfold filter_and_emit. rewrite Hf, Hon.
  pose proof (run_edge_filters_veto w self4 sweep bar direction) as R.
  cbn zeta in R.
  destruct (_run_edge_filters cal w self4 sweep bar direction (bar_close bar)
              ltf_bars) as [[r|] vf]; cbn [fst snd] in *.
  - destruct R as (He & Ht & _ & Hv & _ & Hq). split.
    + intros H. rewrite H in He. discriminate.
    + intros _. unfold emit. cbn [fst].
      eexists. eexists. split; [reflexivity|].
      cbn [with_filter_scores sg_direction sg_confirmations sg_filter_scores
           _build_signal time_score volatility_score sweep_quality
           set_volatility_filter confirmation_state].
      repeat split; assumption.
  - split.
    + intros _. split; reflexivity.
    + intros H. rewrite H in R. discriminate.
Qed.

(** C10 (amended): two calls of [check_for_signal] on a freshly constructed
    generator, over the same bars and configuration, agree on whether a signal
    is returned and on everything in it except what the volatility filter
    read from the outside world (volatility score, overall score, VIX); with
    the edge filters disabled they return the same result. *)
Theorem C10_same_result_up_to_vix_reading (w1 w2 : World) (cfg : Config) :
  let r1 := fst (check_for_signal cal w1 (init cfg) ltf_bars htf_bars min_tick) in
  let r2 := fst (check_for_signal cal w2 (init cfg) ltf_bars htf_bars min_tick) in
  option_map without_volatility r1 = option_map without_volatility r2
  /\ (FILTERS_ENABLED cfg && USE_EDGE_FILTERS cfg = false -> r1 = r2).
Proof.
  cbn zeta. unfold check_for_signal.
  pose proof (check_confirmations_keeps ltf_bars htf_bars min_tick (init cfg))
    as (_ & (_ & Hf & _) & _).
  destruct (check_confirmations (init cfg) ltf_bars htf_bars min_tick)
    as [self4 [[[sweep bar] direction]|]]; cbn [fst snd] in *;
    [|split; reflexivity].
  unfold filter_and_emit. rewrite Hf. cbn [filters_enabled init].
  destruct (FILTERS_ENABLED cfg && USE_EDGE_FILTERS cfg);
    [|split; reflexivity].
  split; [|discriminate].
  unfold _run_edge_filters.
  destruct (TimeFilter.is_optimal_time cal (bar_time bar)) as [good_time reason].
  destruct (VolatilityFilter.is_favorable_volatility w1 (volatility_filter self4))
    as [[[g1 vr1] v1] vf1].
  destruct (VolatilityFilter.get_quality_multiplier w1 vf1) as [q1 vf1'].
  destruct (VolatilityFilter.is_favorable_volatility w2 (volatility_filter self4))
    as [[[g2 vr2] v2] vf2].
  destruct (VolatilityFilter.get_quality_multiplier w2 vf2) as [q2 vf2'].
  destruct (StructureFilter.is_at_extreme direction (bar_close bar) ltf_bars)
    as [[extreme sreason] position].
  destruct extreme; reflexivity.
Qed.

End EdgeFilters.

(** With the filters disabled nothing of the calendar or the outside world is
    read, on any sequence of calls. *)
Lemma run_without_filters (cal1 cal2 : Calendar) (w1 w2 : World)
    (calls : list (list Bar * list Bar * Q)) (self : SignalGenerator.t) :
  SignalGenerator.filters_enabled self = false ->
  SignalGenerator.run cal1 w1 self calls = SignalGenerator.run cal2 w2 self calls.
Proof.
  revert self. induction calls as [|[[ltf htf] mt] rest IH]; intros self Hoff;
    [reflexivity|].
  cbn [SignalGenerator.run].
  assert (E : SignalGenerator.check_for_signal cal1 w1 self ltf htf mt
              = SignalGenerator.check_for_signal cal2 w2 self ltf htf mt).
  { unfold SignalGenerator.check_for_signal.
    pose proof (check_confirmations_keeps ltf htf mt self) as (_ & (_ & Hf & _) & _).
    destruct (SignalGenerator.check_confirmations self ltf htf mt)
      as [self4 [[[sweep bar] direction]|]]; cbn [fst] in *; [|reflexivity].
    unfold SignalGenerator.filter_and_emit. rewrite Hf, Hoff. reflexivity. }
  rewrite E.
  destruct (call_resets_or_keeps ltf htf mt cal2 w2 self) as [_ (_ & Hf & _)].
  destruct (SignalGenerator.check_for_signal cal2 w2 self ltf htf mt)
    as [r self1]; cbn [snd] in *.
  rewrite (IH self1) by (rewrite Hf; exact Hoff). reflexivity.
Qed.

(** C9, witness: on the eighty-bar scenario with unreadable time stamps and a
    VIX of 30, the time filter and the volatility filter fail and the sweep
    scores 6 against a minimum of 7; the structure filter passes, and the
    signal is returned with scores 0.5, 0.5 and 6. *)
Lemma C9_failing_soft_filters_scenario :
  exists signal scores,
    fst (SignalGenerator.check_for_signal Scenario.unreadable Scenario.stormy
           (SignalGenerator.init Scenario.filtered)
           Scenario.ltf_single Scenario.htf Scenario.min_tick) = Some signal
    /\ SignalGenerator.sg_filter_scores signal = Some scores
    /\ SignalGenerator.time_score scores = 1 # 2
    /\ SignalGenerator.volatility_score scores = 1 # 2
    /\ SignalGenerator.sweep_quality scores = 6
    /\ Py.lt (SignalGenerator.sweep_quality scores)
             (SignalGenerator.MIN_SWEEP_QUALITY Scenario.filtered) = true.
Proof.
  destruct (SignalGenerator.check_confirmations
              (SignalGenerator.init Scenario.filtered)
              Scenario.ltf_single Scenario.htf Scenario.min_tick)
    as [self4 [[[sweep bar] direction]|]] eqn:E;
    [|vm_compute in E; discriminate E].
  destruct (@C9_only_structure_filter_vetoes Scenario.unreadable
              Scenario.ltf_single Scenario.htf Scenario.min_tick
              Scenario.stormy (SignalGenerator.init Scenario.filtered)
              self4 sweep bar direction eq_refl E) as [_ H].
  assert (Hsame : (self4, Some (sweep, bar, direction))
                  = SignalGenerator.check_confirmations
                      (SignalGenerator.init Scenario.filtered)
                      Scenario.ltf_single Scenario.htf Scenario.min_tick)
    by (symmetry; exact E).
  vm_compute in Hsame.
  injection Hsame as -> -> -> ->.
  destruct (H eq_refl) as (signal & scores & Hr & _ & _ & Hs & Ht & Hv & Hq).
  exists signal, scores.
  split; [exact Hr|]. split; [exact Hs|].
  split; [apply Ht; reflexivity|].
  split; [apply Hv; reflexivity|].
  assert (Hq6 : SignalGenerator.sweep_quality scores = 6)
    by (rewrite Hq; vm_compute; reflexivity).
  split; [exact Hq6|]. rewrite Hq6. reflexivity.
Defined.

(** C10, counterexample to the statement with the filters enabled: the same
    fresh generator, bars and configuration, and two VIX readings (12 and 30),
    give signals with different volatility scores and VIX levels. *)
Lemma C10_vix_reading_changes_signal :
  let run_with (w : World) :=
    fst (SignalGenerator.check_for_signal Scenario.opening_bell w
           (SignalGenerator.init Scenario.filtered)
           Scenario.ltf_single Scenario.htf Scenario.min_tick) in
  signal_vix (run_with Scenario.calm) = Some 12
  /\ signal_vix (run_with Scenario.stormy) = Some 30
  /\ signal_volatility_score (run_with Scenario.calm) = Some 1
  /\ signal_volatility_score (run_with Scenario.stormy) = Some (1 # 2)
  /\ run_with Scenario.calm <> run_with Scenario.stormy.
Proof.
  cbv zeta. repeat split; try (vm_compute; reflexivity).
  intros H. apply (f_equal signal_vix) in H. vm_compute in H. discriminate H.
Qed.

(** ** The CISD detector *)

Section CISD.

Import CISDDetector.

Lemma range_down_spec (lo n : nat) :
  rev (seq (S lo) n) = map (fun j => lo + n + 1 - j)%nat (seq 1 n).
Proof.
  induction n as [|n IH]; [reflexivity|].
  rewrite seq_S, rev_app_distr. cbn [rev app seq map].
  f_equal; [lia|].
  rewrite IH, <- (seq_shift n 1), map_map.
  apply map_ext. intros j. lia.
Qed.

(** The indices the backward walk visits, counted from the sweep. *)
Lemma lookback_indices_spec (s : nat) :
  (1 <= s)%nat ->
  lookback_indices s
  = map (fun j => s - j)%nat (seq 1 (s - 1 - (s - 10))).
Proof.
  intros Hs. unfold lookback_indices, Py.range_down. cbn [Nat.max].
  rewrite range_down_spec. apply map_ext_in.
  intros j Hj. apply in_seq in Hj. lia.
Qed.

(** The walk visits at most nine bars, and never the bar at index 0. *)
Lemma lookback_at_most_nine (s : nat) :
  (List.length (lookback_indices s) <= 9)%nat
  /\ ~ In 0%nat (lookback_indices s).
Proof.
  unfold lookback_indices, Py.range_down. cbn [Nat.max].
  rewrite length_rev, length_seq. split; [lia|].
  intros H. apply in_rev, in_seq in H. lia.
Qed.

Lemma bars_at_app (bars : list Bar) (a b : list nat) :
  bars_at bars (a ++ b) = bars_at bars a ++ bars_at bars b.
Proof. unfold bars_at. apply flat_map_app. Qed.

Lemma take_while_run (p : Bar -> bool) (bars : list Bar) (stopper : Bar)
    (run : list nat) (stop : nat) (rest : list nat) :
  (forall i, In i run -> exists b, nth_error bars i = Some b /\ p b = true) ->
  nth_error bars stop = Some stopper -> p stopper = false ->
  Py.take_while p (bars_at bars (run ++ stop :: rest)) = bars_at bars run.
Proof.
  intros Hrun Hstop Hp. induction run as [|i tl IH].
  - cbn [app bars_at flat_map]. rewrite Hstop. cbn [app Py.take_while].
    rewrite Hp. reflexivity.
  - destruct (Hrun i (or_introl eq_refl)) as (b & Hb & Hpb).
    cbn [app bars_at flat_map]. rewrite Hb. cbn [app Py.take_while].
    rewrite Hpb. f_equal. apply IH. intros j Hj. apply Hrun. right. exact Hj.
Qed.

Lemma last_opt_snoc {A : Type} (l : list A) (x : A) :
  Py.last_opt (l ++ [x]) = Some x.
Proof. unfold Py.last_opt. rewrite rev_app_distr. reflexivity. Qed.

(** The series collected in front of the sweep when the run has [k] candles
    and the candle before it, still among the bars the walk visits, stops it. *)
Lemma close_series_of_run (direction : Direction) (bars : list Bar)
    (s k : nat) (stopper : Bar) :
  (k + 2 <= s)%nat -> (k <= 8)%nat ->
  run_before direction bars s k ->
  nth_error bars (s - k - 1) = Some stopper ->
  same_direction_close direction stopper = false ->
  close_series (same_direction_close direction) bars s
  = bars_at bars (map (fun j => s - j)%nat (seq 1 k)).
Proof.
  intros Hs Hk Hrun Hstop Hp. unfold close_series.
  rewrite lookback_indices_spec by lia.
  replace (s - 1 - (s - 10))%nat with (k + S (s - 1 - (s - 10) - k - 1))%nat by lia.
  rewrite seq_app, map_app. cbn [seq map].
  apply take_while_run with (stopper := stopper).
  - intros i Hi. apply in_map_iff in Hi. destruct Hi as (j & <- & Hj).
    apply in_seq in Hj. apply Hrun. lia.
  - replace (s - (1 + k))%nat with (s - k - 1)%nat by lia. exact Hstop.
  - exact Hp.
Qed.

Lemma last_of_run (direction : Direction) (bars : list Bar) (s k : nat)
    (first : Bar) :
  (1 <= k)%nat ->
  run_before direction bars s k ->
  nth_error bars (s - k) = Some first ->
  Py.last_opt (bars_at bars (map (fun j => s - j)%nat (seq 1 k))) = Some first.
Proof.
  intros Hk Hrun Hfirst. destruct k as [|k]; [lia|].
  rewrite seq_S, map_app, bars_at_app. cbn [map bars_at flat_map].
  replace (s - (1 + k))%nat with (s - S k)%nat by lia.
  rewrite Hfirst. cbn [app]. apply last_opt_snoc.
Qed.

Lemma lookback_length (s : nat) :
  List.length (lookback_indices s) = walk_length s.
Proof.
  unfold lookback_indices, Py.range_down, walk_length. cbn [Nat.max].
  rewrite length_rev, length_seq. lia.
Qed.

Lemma take_while_all (p : Bar -> bool) (bars : list Bar) (idx : list nat) :
  (forall i, In i idx -> exists b, nth_error bars i = Some b /\ p b = true) ->
  Py.take_while p (bars_at bars idx) = bars_at bars idx.
Proof.
  induction idx as [|i tl IH]; intros H; [reflexivity|].
  destruct (H i (or_introl eq_refl)) as (b & Hb & Hp).
  cbn [bars_at flat_map]. rewrite Hb. cbn [app Py.take_while]. rewrite Hp.
  f_equal. apply IH. intros j Hj. apply H. right. exact Hj.
Qed.

(** The series collected when every bar the walk looks at belongs to the
    run. *)
Lemma close_series_whole_walk (direction : Direction) (bars : list Bar)
    (s : nat) :
  (1 <= s)%nat ->
  run_before direction bars s (walk_length s) ->
  close_series (same_direction_close direction) bars s
  = bars_at bars (map (fun j => s - j)%nat (seq 1 (walk_length s))).
Proof.
  intros Hs Hrun. unfold close_series.
  rewrite lookback_indices_spec by exact Hs.
  replace (s - 1 - (s - 10))%nat with (walk_length s)
    by (unfold walk_length; lia).
  apply take_while_all. intros i Hi.
  apply in_map_iff in Hi. destruct Hi as (j & <- & Hj).
  apply in_seq in Hj. apply Hrun. lia.
Qed.

(** The series collected for a run that ends, one way or the other. *)
Lemma close_series_of_ended_run (direction : Direction) (bars : list Bar)
    (s k : nat) :
  (1 <= s)%nat ->
  run_before direction bars s k -> run_ends direction bars s k ->
  close_series (same_direction_close direction) bars s
  = bars_at bars (map (fun j => s - j)%nat (seq 1 k)).
Proof.
  intros Hs Hrun [-> | (Hk & stopper & Hstop & Hp)].
  - apply close_series_whole_walk; assumption.
  - unfold walk_length in Hk.
    apply close_series_of_run with (stopper := stopper);
      try assumption; lia.
Qed.

Lemma find_sweep_index_bound (bars : list Bar) (sweep_time : Z) :
  forall i s, find_sweep_index i bars sweep_time = Some s ->
              (i <= s < i + List.length bars)%nat.
Proof.
  induction bars as [|x tl IH]; intros i s; cbn [find_sweep_index];
    [discriminate|].
  destruct (bar_time x =? sweep_time)%Z.
  - intros H. injection H as <-. cbn [List.length]. lia.
  - intros H. apply IH in H. cbn [List.length]. lia.
Qed.

(** In front of any index inside the window there is a run that ends: the
    case analysis of the walk is complete. *)
Lemma ended_run_exists (direction : Direction) (bars : list Bar) (s : nat) :
  (s < List.length bars)%nat ->
  exists k, (k <= walk_length s)%nat
            /\ run_before direction bars s k /\ run_ends direction bars s k.
Proof.
  intros Hs.
  assert (G : forall n, (n <= walk_length s)%nat ->
            exists k, (k <= n)%nat
              /\ run_before direction bars s k
              /\ (k = n
                  \/ ((k < n)%nat
                      /\ exists stopper,
                           nth_error bars (s - k - 1) = Some stopper
                           /\ same_direction_close direction stopper = false))).
  { induction n as [|n IH]; intros Hn.
    - exists 0%nat. split; [lia|]. split; [intros j Hj; lia | left; reflexivity].
    - destruct (IH ltac:(lia)) as (k & Hk & Hrun & [-> | (Hlt & Hst)]).
      + destruct (nth_error bars (s - n - 1)) as [b|] eqn:Hb.
        2:{ apply nth_error_None in Hb. unfold walk_length in Hn. lia. }
        destruct (same_direction_close direction b) eqn:Hp.
        * exists (S n). split; [lia|]. split; [|left; reflexivity].
          intros j Hj. destruct (Nat.eq_dec j (S n)) as [-> | Hne].
          -- exists b. split; [|exact Hp].
             replace (s - S n)%nat with (s - n - 1)%nat by lia. exact Hb.
          -- apply Hrun. lia.
        * exists n. split; [lia|]. split; [exact Hrun|].
          right. split; [lia|]. exists b. split; assumption.
      + exists k. split; [lia|]. split; [exact Hrun|].
        right. split; [lia | exact Hst]. }
  destruct (G (walk_length s) (le_n _)) as (k & Hk & Hrun & Hend).
  exists k. split; [exact Hk|]. split; [exact Hrun | exact Hend].
Qed.

(** C6 (amended): [detect_cisd] returns none when the window has fewer than
    ten bars, when no bar has exactly the sweep's time, and when the first
    such bar lies in the first five bars of the window.  Otherwise it walks
    backward from the bar just in front of the sweep over at most nine bars,
    never looking at the bar at index 0, and collects the run of
    same-direction closes up to the first candle that is not one.  It
    returns none when the run is empty; otherwise the CISD level is the open
    of the oldest candle collected, and a confirmation is returned exactly
    when the latest close breaks past that level in the trade direction.
    Every window falls under one of these cases. *)
Theorem C6_detect_cisd_run_and_level (bars : list Bar) (sweep_time : Z)
    (direction : Direction) :
  ((List.length bars < 10)%nat -> detect_cisd bars sweep_time direction = None)
  /\ (find_sweep_index 0 bars sweep_time = None ->
      detect_cisd bars sweep_time direction = None)
  /\ (forall s, find_sweep_index 0 bars sweep_time = Some s -> (s < 5)%nat ->
        detect_cisd bars sweep_time direction = None)
  /\ (forall s stopper,
        find_sweep_index 0 bars sweep_time = Some s ->
        nth_error bars (s - 1) = Some stopper ->
        same_direction_close direction stopper = false ->
        detect_cisd bars sweep_time direction = None)
  /\ (forall s k first current_bar,
        (10 <= List.length bars)%nat ->
        find_sweep_index 0 bars sweep_time = Some s -> (5 <= s)%nat ->
        (1 <= k)%nat ->
        run_before direction bars s k ->
        run_ends direction bars s k ->
        nth_error bars (s - k) = Some first ->
        Py.last_opt bars = Some current_bar ->
        detect_cisd bars sweep_time direction
        = if breaks_level direction (bar_close current_bar) (bar_open first)
          then Some {| cisd_level := bar_open first;
                       cisd_direction := direction;
                       cisd_first_candle := first;
                       cisd_current_close := bar_close current_bar;
                       cisd_time := bar_time current_bar |}
          else None)
  /\ (forall s, find_sweep_index 0 bars sweep_time = Some s ->
        (s < List.length bars)%nat
        /\ (List.length (lookback_indices s) <= 9)%nat
        /\ ~ In 0%nat (lookback_indices s)
        /\ List.length (lookback_indices s) = walk_length s
        /\ exists k, (k <= walk_length s)%nat
                     /\ run_before direction bars s k
                     /\ run_ends direction bars s k).
Proof.
  split; [|split; [|split; [|split; [|split]]]].
  - intros H. unfold detect_cisd. apply Nat.ltb_lt in H. rewrite H. reflexivity.
  - intros H. unfold detect_cisd. rewrite H.
    destruct (List.length bars <? 10)%nat; reflexivity.
  - intros s Hs H5. unfold detect_cisd. rewrite Hs.
    apply Nat.ltb_lt in H5. rewrite H5.
    destruct (List.length bars <? 10)%nat; reflexivity.
  - intros s stopper Hs Hstop Hp. unfold detect_cisd. rewrite Hs.
    destruct (List.length bars <? 10)%nat; [reflexivity|].
    destruct (s <? 5)%nat eqn:H5; [reflexivity|].
    apply Nat.ltb_ge in H5.
    assert (E : close_series (same_direction_close direction) bars s = []).
    { rewrite (@close_series_of_run direction bars s 0 stopper); try lia.
      - reflexivity.
      - intros j Hj. lia.
      - replace (s - 0 - 1)%nat with (s - 1)%nat by lia. exact Hstop.
      - exact Hp. }
    destruct direction; cbn [same_direction_close] in E; rewrite E; reflexivity.
  - intros s k first current_bar Hlen Hs H5 Hk1 Hrun Hend Hfirst Hcur.
    assert (H1 : (1 <= s)%nat) by lia.
    unfold detect_cisd. rewrite Hs.
    apply Nat.ltb_ge in Hlen. rewrite Hlen.
    apply Nat.ltb_ge in H5. rewrite H5.
    assert (E : close_series (same_direction_close direction) bars s
                = bars_at bars (map (fun j => s - j)%nat (seq 1 k)))
      by (apply close_series_of_ended_run; [exact H1 | exact Hrun | exact Hend]).
    pose proof (last_of_run Hk1 Hrun Hfirst) as L.
    rewrite <- E in L.
    destruct direction; cbn [same_direction_close breaks_level] in *;
      rewrite L, Hcur; reflexivity.
  - intros s Hs.
    destruct (lookback_at_most_nine s) as [A B].
    apply find_sweep_index_bound in Hs.
    split; [lia|].
    split; [exact A|]. split; [exact B|]. split; [apply lookback_length|].
    apply ended_run_exists. lia.
Qed.

End CISD.

(** The first bar with the sweep's time: what "found by exact time match"
    means for [find_sweep_index]. *)
Lemma find_sweep_index_first (bars : list Bar) (sweep_time : Z) (s : nat) :
  CISDDetector.find_sweep_index 0 bars sweep_time = Some s <->
  (exists b, nth_error bars s = Some b /\ bar_time b = sweep_time)
  /\ (forall j b, (j < s)%nat -> nth_error bars j = Some b ->
        bar_time b <> sweep_time).
Proof.
  assert (G : forall l i s,
             CISDDetector.find_sweep_index i l sweep_time = Some s <->
             (i <= s)%nat
             /\ (exists b, nth_error l (s - i) = Some b /\ bar_time b = sweep_time)
             /\ (forall j b, (j < s - i)%nat -> nth_error l j = Some b ->
                   bar_time b <> sweep_time)).
  { induction l as [|x tl IH]; intros i s0; cbn [CISDDetector.find_sweep_index].
    - split; [discriminate|].
      intros (_ & (b & Hb & _) & _). destruct (s0 - i)%nat; discriminate.
    - destruct (bar_time x =? sweep_time)%Z eqn:E.
      + apply Z.eqb_eq in E. split.
        * intros H. injection H as <-. rewrite Nat.sub_diag.
          split; [lia|]. split; [exists x; split; [reflexivity | exact E]|].
          intros j b Hj. lia.
        * intros (Hle & (b & Hb & Ht) & Hfirst).
          destruct (s0 - i)%nat as [|d] eqn:D; [f_equal; lia|].
          exfalso. apply (Hfirst 0%nat x); [lia | reflexivity | exact E].
      + apply Z.eqb_neq in E. rewrite IH. split.
        * intros (Hle & (b & Hb & Ht) & Hfirst).
          split; [lia|]. replace (s0 - i)%nat with (S (s0 - S i)) by lia.
          split; [exists b; split; assumption|].
          intros j b0 Hj Hb0. destruct j as [|j].
          -- injection Hb0 as <-. exact E.
          -- apply (Hfirst j b0); [lia | exact Hb0].
        * intros (Hle & (b & Hb & Ht) & Hfirst).
          destruct (s0 - i)%nat as [|d] eqn:D.
          -- injection Hb as <-. contradiction.
          -- split; [lia|]. replace (s0 - S i)%nat with d by lia.
             split; [exists b; split; assumption|].
             intros j b0 Hj Hb0. apply (Hfirst (S j) b0); [lia | exact Hb0]. }
  rewrite G, Nat.sub_0_r. split.
  - intros (_ & H1 & H2). split; assumption.
  - intros (H1 & H2). split; [lia|]. split; assumption.
Qed.

(** C6, on the bars of the reversal scenario: the sweep is the last bar
    (index 24), the four bars in front of it close down, the quiet bar before
    them stops the run, and the last close of 1003 is above the open of the
    oldest candle of the run (1000): a LONG confirmation at level 1000. *)
Lemma C6_reversal_scenario :
  CISDDetector.detect_cisd Scenario.ltf_reversal 24 LONG
  = Some {| CISDDetector.cisd_level := 1000;
            CISDDetector.cisd_direction := LONG;
            CISDDetector.cisd_first_candle := mkBar 20 1000 1011 997 998 0;
            CISDDetector.cisd_current_close := 1003;
            CISDDetector.cisd_time := 24 |}.
Proof.
  refine (proj1 (proj2 (proj2 (proj2 (proj2
            (C6_detect_cisd_run_and_level Scenario.ltf_reversal 24 LONG)))))
            24%nat 4%nat (mkBar 20 1000 1011 997 998 0)
            (mkBar 24 991 1003 975 1003 0) _ _ _ _ _ _ _ _);
    try (vm_compute; reflexivity); try (vm_compute; lia).
  - intros j Hj.
    assert (Hcases : j = 1%nat \/ j = 2%nat \/ j = 3%nat \/ j = 4%nat) by lia.
    destruct Hcases as [-> | [-> | [-> | ->]]];
      eexists; (split; [vm_compute; reflexivity | vm_compute; reflexivity]).
  - right. split; [vm_compute; lia|].
    exists (Scenario.flat 19). split; vm_compute; reflexivity.
Defined.

(** C6, counterexample to the bound of ten bars: the ten bars in front of the
    sweep (indices 5 to 14) all close up and the bar before them does not, so
    the run of the statement has ten candles and its oldest opens at 90; the
    last close of 93 is not below 90.  The walk stops after nine bars, takes
    the open of the bar at index 6 (95) as the level and returns a SHORT
    confirmation. *)
Lemma C6_run_of_ten_is_cut_at_nine :
  CISDDetector.find_sweep_index 0 Scenario.cisd_window 15 = Some 15%nat
  /\ forallb CISDDetector.up_close (Py.slice 5 15 Scenario.cisd_window) = true
  /\ option_map CISDDetector.up_close (nth_error Scenario.cisd_window 4)
     = Some false
  /\ option_map bar_open (nth_error Scenario.cisd_window 5) = Some 90
  /\ option_map bar_close (Py.last_opt Scenario.cisd_window) = Some 93
  /\ breaks_level SHORT 93 90 = false
  /\ option_map CISDDetector.cisd_level
       (CISDDetector.detect_cisd Scenario.cisd_window 15 SHORT)
     = Some 95.
Proof. vm_compute. repeat split; reflexivity. Qed.

(** The walk never looks at the bar at index 0: with the sweep at index 5
    and all five bars in front of it up-close, the run collected starts at
    index 1, whose open of 95 is the level, and the last close of 93 confirms;
    the open of the bar at index 0 is 90, which 93 does not break. *)
Example detect_cisd_never_looks_at_first_bar :
  CISDDetector.find_sweep_index 0 Scenario.early_window 5 = Some 5%nat
  /\ forallb CISDDetector.up_close (Py.slice 0 5 Scenario.early_window) = true
  /\ option_map bar_open (nth_error Scenario.early_window 0) = Some 90
  /\ option_map bar_close (Py.last_opt Scenario.early_window) = Some 93
  /\ breaks_level SHORT 93 90 = false
  /\ option_map CISDDetector.cisd_level
       (CISDDetector.detect_cisd Scenario.early_window 5 SHORT)
     = Some 95.
Proof. vm_compute. repeat split; reflexivity. Qed.

(** A window of eight bars: the sweep is found at index 6, the bar in front of
    it closes up from an open of 100 and the last close of 99 is below that
    open, but the length guard returns none. *)
Example detect_cisd_short_window :
  CISDDetector.find_sweep_index 0 Scenario.short_window 6 = Some 6%nat
  /\ option_map CISDDetector.up_close (nth_error Scenario.short_window 5)
     = Some true
  /\ option_map bar_open (nth_error Scenario.short_window 5) = Some 100
  /\ option_map bar_close (Py.last_opt Scenario.short_window) = Some 99
  /\ breaks_level SHORT 99 100 = true
  /\ CISDDetector.detect_cisd Scenario.short_window 6 SHORT = None.
Proof. vm_compute. repeat split; reflexivity. Qed.

(** C5, on two FVGs that expire: with [max_age] 20, an unfilled FVG of age 20
    is aged to 21, marked filled and not returned; a filled one is skipped. *)
Lemma C5_expiry_scenario :
  HTFFVGDetector.check_delivery 20
    [ Scenario.gap 20; HTFFVGDetector.set_filled (Scenario.gap 3) ] Scenario.tap
  = (None, [ HTFFVGDetector.set_filled (Scenario.gap 21);
             HTFFVGDetector.set_filled (Scenario.gap 3) ]).
Proof. vm_compute. reflexivity. Qed.

(** * Further properties of the code *)

From Stdlib Require Import Lqa.

(** ** Slices *)

(** The elements of [l[a:b]] are the elements of [l] at the indices from [a]
    to [b - 1]. *)
Lemma slice_nth_error {A : Type} (a b : nat) (l : list A) (k : nat) :
  nth_error (Py.slice a b l) k
  = if (k <? b - a)%nat then nth_error l (a + k) else None.
Proof.
  unfold Py.slice. rewrite nth_error_firstn.
  destruct (k <? b - a)%nat; [apply nth_error_skipn | reflexivity].
Qed.

Lemma forallb_slice {A : Type} (p : A -> bool) (a b : nat) (l : list A) :
  forallb p (Py.slice a b l) = true ->
  forall j x, (a <= j < b)%nat -> nth_error l j = Some x -> p x = true.
Proof.
  intros H j x Hj Hx. rewrite forallb_forall in H. apply H.
  apply nth_error_In with (n := (j - a)%nat).
  rewrite slice_nth_error.
  replace (j - a <? b - a)%nat with true
    by (symmetry; apply Nat.ltb_lt; lia).
  replace (a + (j - a))%nat with j by lia. exact Hx.
Qed.

Lemma last_opt_in {A : Type} (l : list A) (x : A) :
  Py.last_opt l = Some x -> In x l.
Proof.
  unfold Py.last_opt. destruct (rev l) as [|y tl] eqn:E; [discriminate|].
  intros H. injection H as <-. apply in_rev. rewrite E. left. reflexivity.
Qed.

Lemma last_n_incl {A : Type} (n : nat) (l : list A) (x : A) :
  In x (Py.last_n n l) -> In x l.
Proof.
  unfold Py.last_n. intros H.
  rewrite <- (firstn_skipn (List.length l - n) l). apply in_or_app. right. exact H.
Qed.

Lemma last_n_length {A : Type} (n : nat) (l : list A) :
  List.length (Py.last_n n l) = Nat.min n (List.length l).
Proof. unfold Py.last_n. rewrite length_skipn. lia. Qed.

(** ** Swings *)

Section Swings.

Import LiquiditySweepDetector.

Lemma scan_highs_spec (w : nat) (bars : list Bar) (s : Swing) :
  In s (scan_highs w bars) -> strict_high w bars s.
Proof.
  unfold scan_highs, swing_range, strict_high. intros H.
  apply in_flat_map in H. destruct H as (i & Hi & Hs).
  apply in_seq in Hi.
  destruct (nth_error bars i) as [cur|] eqn:Hcur; [|destruct Hs].
  destruct (is_swing_high w bars i cur) eqn:Hsw; [|destruct Hs].
  destruct Hs as [<- | []]. cbn [swing_index swing_price swing_time].
  exists cur. repeat split; try lia; try assumption.
  intros j b Hj Hne Hb. unfold is_swing_high in Hsw.
  apply andb_true_iff in Hsw. destruct Hsw as [Hl Hr].
  assert (Hcase : (i - w <= j < i)%nat \/ (i + 1 <= j < i + w + 1)%nat) by lia.
  destruct Hcase as [Hc | Hc].
  - pose proof (@forallb_slice _ _ _ _ _ Hl _ _ Hc Hb) as P. cbn beta in P.
    apply negb_true_iff, Py_ge_false_iff in P. exact P.
  - pose proof (@forallb_slice _ _ _ _ _ Hr _ _ Hc Hb) as P. cbn beta in P.
    apply negb_true_iff, Py_ge_false_iff in P. exact P.
Qed.

Lemma scan_lows_spec (w : nat) (bars : list Bar) (s : Swing) :
  In s (scan_lows w bars) -> strict_low w bars s.
Proof.
  unfold scan_lows, swing_range, strict_low. intros H.
  apply in_flat_map in H. destruct H as (i & Hi & Hs).
  apply in_seq in Hi.
  destruct (nth_error bars i) as [cur|] eqn:Hcur; [|destruct Hs].
  destruct (is_swing_low w bars i cur) eqn:Hsw; [|destruct Hs].
  destruct Hs as [<- | []]. cbn [swing_index swing_price swing_time].
  exists cur. repeat split; try lia; try assumption.
  intros j b Hj Hne Hb. unfold is_swing_low in Hsw.
  apply andb_true_iff in Hsw. destruct Hsw as [Hl Hr].
  assert (Hcase : (i - w <= j < i)%nat \/ (i + 1 <= j < i + w + 1)%nat) by lia.
  destruct Hcase as [Hc | Hc].
  - pose proof (@forallb_slice _ _ _ _ _ Hl _ _ Hc Hb) as P. cbn beta in P.
    apply negb_true_iff, Py_le_false_iff in P. exact P.
  - pose proof (@forallb_slice _ _ _ _ _ Hr _ _ Hc Hb) as P. cbn beta in P.
    apply negb_true_iff, Py_le_false_iff in P. exact P.
Qed.

(** X1: the swings [identify_swings] stores are strict local extrema: a
    swing high is strictly above the highs of the [min_swing_candles] bars on
    each side of it, a swing low strictly below their lows, and each keeps
    that many bars on each side. *)
Theorem identify_swings_strict_extrema (self : LiquiditySweepDetector.t)
    (bars : list Bar) (lookback : nat) :
  (lookback <= List.length bars)%nat ->
  let d := identify_swings self bars lookback in
  (forall s, In s (swing_highs d) -> strict_high (min_swing_candles self) bars s)
  /\ (forall s, In s (swing_lows d) -> strict_low (min_swing_candles self) bars s).
Proof.
  intros Hlen. cbn zeta. unfold identify_swings.
  apply Nat.ltb_ge in Hlen. rewrite Hlen. cbn [swing_highs swing_lows].
  split; intros s Hs; [apply scan_highs_spec | apply scan_lows_spec]; exact Hs.
Qed.

(** With swings in hand [detect_sweep] never computes them again. *)
Lemma detect_sweep_keeps_swings (self : LiquiditySweepDetector.t) (bar : Bar)
    (previous_bars : list Bar) (min_tick : Q) :
  swing_highs self <> [] \/ swing_lows self <> [] ->
  snd (detect_sweep self bar previous_bars min_tick) = self.
Proof.
  intros H. unfold detect_sweep.
  assert (E : is_empty (swing_highs self) && is_empty (swing_lows self) = false).
  { destruct H as [H | H];
      [destruct (swing_highs self) | destruct (swing_lows self)];
      try contradiction; cbn; [reflexivity | apply andb_false_r]. }
  rewrite E, E.
  destruct (buyside_check self bar min_tick); reflexivity.
Qed.

(** X4: the geometry of a returned sweep.  It carries the time and close of
    the current bar; a buyside sweep has the bar's high as extreme, at least
    the buffer above the latest swing high, and a close below that swing
    high; a sellside sweep has the bar's low as extreme, at least the buffer
    below the latest swing low, and a close above that swing low. *)
Theorem detect_sweep_geometry (self : LiquiditySweepDetector.t) (bar : Bar)
    (previous_bars : list Bar) (min_tick : Q) (s : Sweep) :
  fst (detect_sweep self bar previous_bars min_tick) = Some s ->
  let d := snd (detect_sweep self bar previous_bars min_tick) in
  let buffer := inject_Z (sweep_buffer_ticks d) * min_tick in
  sw_time s = bar_time bar /\ sw_close s = bar_close bar
  /\ match sw_type s with
     | buyside_sweep =>
         sw_extreme s = bar_high bar
         /\ option_map swing_price (Py.last_opt (swing_highs d))
            = Some (sw_swing_level s)
         /\ sw_swing_level s + buffer <= sw_extreme s
         /\ sw_close s < sw_swing_level s
     | sellside_sweep =>
         sw_extreme s = bar_low bar
         /\ option_map swing_price (Py.last_opt (swing_lows d))
            = Some (sw_swing_level s)
         /\ sw_extreme s <= sw_swing_level s - buffer
         /\ sw_swing_level s < sw_close s
     end.
Proof.
  cbn zeta. unfold detect_sweep.
  set (self1 := if is_empty (swing_highs self) && is_empty (swing_lows self)
                then identify_swings self previous_bars 20 else self).
  destruct (is_empty (swing_highs self1) && is_empty (swing_lows self1));
    [discriminate|].
  destruct (buyside_check self1 bar min_tick) as [b|] eqn:B; cbn [fst snd].
  - intros H. injection H as <-. unfold buyside_check in B.
    destruct (Py.last_opt (swing_highs self1)) as [sh|]; [|discriminate].
    destruct (Py.ge (bar_high bar) _) eqn:G; [|discriminate].
    destruct (Py.lt (bar_close bar) _) eqn:L; [|discriminate].
    cbn in B. injection B as <-. cbn.
    apply Py_ge_iff in G. apply Py_lt_iff in L. repeat split; assumption.
  - intros H. unfold sellside_check in H.
    destruct (Py.last_opt (swing_lows self1)) as [sl|]; [|discriminate].
    destruct (Py.le (bar_low bar) _) eqn:G; [|discriminate].
    destruct (Py.gt (bar_close bar) _) eqn:L; [|discriminate].
    cbn in H. injection H as <-. cbn.
    apply Py_le_iff in G. apply Py_gt_iff in L. repeat split; assumption.
Qed.

End Swings.

(** ** Fair value gaps *)

Section FairValueGaps.

Import HTFFVGDetector.

Lemma fvgs_at_spec (min_size : Z) (min_tick : Q) (i : nat) (c1 c2 c3 : Bar)
    (f : FVG) :
  In f (fvgs_at min_size min_tick i c1 c2 c3) ->
  fvg_start_index f = i
  /\ fvg_start_time f = bar_time c1
  /\ fvg_filled f = false
  /\ fvg_age f = 0%Z
  /\ fvg_size f = fvg_top f - fvg_bottom f
  /\ inject_Z min_size * min_tick <= fvg_size f
  /\ fvg_bottom f < bar_low c2
  /\ bar_high c2 < fvg_top f
  /\ match fvg_type f with
     | bearish =>
         fvg_top f = bar_high c1 /\ fvg_bottom f = bar_low c3
         /\ fvg_direction f = SHORT
     | bullish =>
         fvg_bottom f = bar_low c1 /\ fvg_top f = bar_high c3
         /\ fvg_direction f = LONG
     end.
Proof.
  unfold fvgs_at. intros H. apply in_app_or in H. destruct H as [H | H].
  - destruct (Py.lt (bar_high c2) (bar_high c1)) eqn:A; [|destruct H].
    destruct (Py.gt (bar_low c2) (bar_low c3)) eqn:B; [|destruct H].
    destruct (Py.ge _ _) eqn:C; [|destruct H].
    destruct H as [<- | []]. cbn.
    apply Py_lt_iff in A. apply Py_gt_iff in B. apply Py_ge_iff in C.
    repeat split; assumption.
  - destruct (Py.gt (bar_low c2) (bar_low c1)) eqn:A; [|destruct H].
    destruct (Py.lt (bar_high c2) (bar_high c3)) eqn:B; [|destruct H].
    destruct (Py.ge _ _) eqn:C; [|destruct H].
    destruct H as [<- | []]. cbn.
    apply Py_gt_iff in A. apply Py_lt_iff in B. apply Py_ge_iff in C.
    repeat split; assumption.
Qed.

Lemma scan_fvgs_spec (min_size : Z) (min_tick : Q) (bars : list Bar) :
  forall i f,
    In f (scan_fvgs min_size min_tick i bars) ->
    exists k c1 c2 c3,
      fvg_start_index f = (i + k)%nat
      /\ nth_error bars k = Some c1
      /\ nth_error bars (k + 1) = Some c2
      /\ nth_error bars (k + 2) = Some c3
      /\ In f (fvgs_at min_size min_tick (i + k) c1 c2 c3).
Proof.
  induction bars as [|c1 tl IH]; intros i f H; [destruct H|].
  cbn [scan_fvgs] in H.
  destruct tl as [|c2 [|c3 rest]]; try destruct H.
  apply in_app_or in H. destruct H as [H | H].
  - exists 0%nat, c1, c2, c3. rewrite Nat.add_0_r.
    pose proof (fvgs_at_spec _ _ _ _ _ _ _ H) as (Hi & _).
    repeat split; try reflexivity; assumption.
  - destruct (IH _ _ H) as (k & d1 & d2 & d3 & Hi & H1 & H2 & H3 & Hin).
    exists (S k), d1, d2, d3.
    replace (i + S k)%nat with (S i + k)%nat by lia.
    repeat split; assumption.
Qed.

(** The gaps of a scan are fresh. *)
Lemma scanned_fvgs_fresh (self : HTFFVGDetector.t) (bars : list Bar)
    (min_tick : Q) :
  Forall (fresh_fvg (min_fvg_size_ticks self) min_tick bars)
         (identify_fvgs self bars min_tick).
Proof.
  apply Forall_forall. intros f H. unfold identify_fvgs in H.
  destruct (scan_fvgs_spec _ _ _ _ _ H) as (k & c1 & c2 & c3 & Hi & H1 & H2 & H3 & Hin).
  cbn [Nat.add] in *.
  pose proof (fvgs_at_spec _ _ _ _ _ _ _ Hin) as (_ & P).
  unfold fresh_fvg. cbn zeta. rewrite Hi.
  exists c1, c2, c3. repeat split; try assumption; apply P.
Qed.

(** X6: every FVG that [identify_fvgs] returns is the gap of three
    consecutive bars of the input, starting at its start index: it is
    unfilled, of age 0, its size is top minus bottom and at least the minimum
    size, the middle bar lies strictly inside it, and a bearish gap (top =
    first bar's high, bottom = third bar's low) has direction SHORT, a
    bullish one (bottom = first bar's low, top = third bar's high) LONG. *)
Theorem identify_fvgs_fresh (self : HTFFVGDetector.t) (bars : list Bar)
    (min_tick : Q) :
  Forall (fresh_fvg (min_fvg_size_ticks self) min_tick bars)
         (identify_fvgs self bars min_tick).
Proof. exact (scanned_fvgs_fresh self bars min_tick). Qed.

Lemma last_n_idem {A : Type} (n : nat) (l : list A) :
  Py.last_n n (Py.last_n n l) = Py.last_n n l.
Proof.
  unfold Py.last_n at 1. rewrite last_n_length.
  replace (Nat.min n (List.length l) - n)%nat with 0%nat by lia. reflexivity.
Qed.

Lemma filter_all {A : Type} (p : A -> bool) (l : list A) :
  Forall (fun x => p x = true) l -> filter p l = l.
Proof.
  induction 1 as [|x tl Hx _ IH]; [reflexivity|].
  cbn [filter]. rewrite Hx, IH. reflexivity.
Qed.

(** The filter of [update_fvgs] on filled gaps removes nothing. *)
Lemma update_fvgs_active (self : HTFFVGDetector.t) (bars : list Bar)
    (min_tick : Q) :
  active_fvgs (update_fvgs self bars min_tick)
  = identify_fvgs self (Py.last_n 50 bars) min_tick.
Proof.
  unfold update_fvgs. cbn [active_fvgs]. apply filter_all.
  eapply Forall_impl; [|apply scanned_fvgs_fresh].
  intros f (c1 & c2 & c3 & _ & _ & _ & _ & Hf & _). rewrite Hf. reflexivity.
Qed.

(** X7: [update_fvgs] forgets the previous active set and everything but
    the last 50 bars: the new active set is exactly the scan of the last 50
    bars (the filter on filled gaps removes nothing), whatever the detector
    held before. *)
Theorem update_fvgs_rescans_last_50 (self : HTFFVGDetector.t) (bars : list Bar)
    (min_tick : Q) :
  active_fvgs (update_fvgs self bars min_tick)
  = identify_fvgs self (Py.last_n 50 bars) min_tick
  /\ update_fvgs self bars min_tick
     = update_fvgs self (Py.last_n 50 bars) min_tick
  /\ (forall old,
        update_fvgs {| min_fvg_size_ticks := min_fvg_size_ticks self;
                       max_age := max_age self;
                       active_fvgs := old |} bars min_tick
        = update_fvgs self bars min_tick).
Proof.
  split; [apply update_fvgs_active|]. split.
  - unfold update_fvgs. rewrite last_n_idem. reflexivity.
  - intros old. reflexivity.
Qed.

Lemma evolves_refl (f : FVG) : evolves f f.
Proof. unfold evolves. repeat split; try reflexivity; lia. Qed.

Lemma evolves_aged (f : FVG) :
  fvg_filled f = false ->
  evolves f (set_age f (fvg_age f + 1))
  /\ evolves f (set_filled (set_age f (fvg_age f + 1))).
Proof.
  intros Hf. unfold evolves. cbn.
  repeat split; try reflexivity; try lia;
    intros H; rewrite H in Hf; discriminate.
Qed.

(** One call of [check_delivery], entry by entry. *)
Lemma check_delivery_pointwise (max_age : Z) (fvgs : list FVG) (bar : Bar) :
  Forall2 evolves fvgs (snd (check_delivery max_age fvgs bar)).
Proof.
  induction fvgs as [|f rest IH]; [constructor|].
  cbn [check_delivery].
  destruct (check_delivery max_age rest bar) as [r rest'] eqn:E.
  cbn [snd] in IH.
  destruct (fvg_filled f) eqn:Ff.
  - cbn [snd]. constructor; [apply evolves_refl | exact IH].
  - destruct (evolves_aged f Ff) as [Ea Eb].
    destruct (fvg_age (set_age f (fvg_age f + 1)) >? max_age)%Z.
    + cbn [snd]. constructor; assumption.
    + destruct (judge (set_age f (fvg_age f + 1)) bar); cbn [snd].
      * constructor; [exact Ea|].
        clear. induction rest; constructor; [apply evolves_refl | assumption].
      * constructor; assumption.
      * constructor; assumption.
Qed.

(** X9: a call of [check_delivery] keeps the list's length and order, never
    changes an FVG's type, bounds, size, origin or direction, never lowers an
    age nor raises it by more than one, and never touches a filled FVG. *)
Theorem check_delivery_evolves (max_age : Z) (fvgs : list FVG) (bar : Bar) :
  Forall2 evolves fvgs (snd (check_delivery max_age fvgs bar)).
Proof. exact (check_delivery_pointwise max_age fvgs bar). Qed.

(** X10: a confirmed delivery is sound.  The returned FVG is an unfilled
    entry of the list as the call leaves it; for a bearish FVG the direction
    is SHORT, the bar's high reached the bottom of the gap and the bar closed
    below it; for a bullish FVG the direction is LONG, the bar's low reached
    the top of the gap and the bar closed above it. *)
Theorem check_delivery_sound (max_age : Z) (fvgs : list FVG) (bar : Bar)
    (d : Delivery) :
  fst (check_delivery max_age fvgs bar) = Some d ->
  dl_delivery_confirmed d = true
  /\ dl_delivery_time d = bar_time bar
  /\ In (dl_fvg d) (snd (check_delivery max_age fvgs bar))
  /\ fvg_filled (dl_fvg d) = false
  /\ match fvg_type (dl_fvg d) with
     | bearish =>
         dl_direction d = SHORT
         /\ fvg_bottom (dl_fvg d) <= bar_high bar
         /\ bar_close bar < fvg_bottom (dl_fvg d)
     | bullish =>
         dl_direction d = LONG
         /\ bar_low bar <= fvg_top (dl_fvg d)
         /\ fvg_top (dl_fvg d) < bar_close bar
     end.
Proof.
  induction fvgs as [|f rest IH]; [discriminate|].
  cbn [check_delivery].
  destruct (check_delivery max_age rest bar) as [r rest'] eqn:E.
  cbn [fst snd] in IH.
  assert (Later : r = Some d ->
                  forall x, dl_delivery_confirmed d = true
                  /\ dl_delivery_time d = bar_time bar
                  /\ In (dl_fvg d) (x :: rest')
                  /\ fvg_filled (dl_fvg d) = false
                  /\ match fvg_type (dl_fvg d) with
                     | bearish =>
                         dl_direction d = SHORT
                         /\ fvg_bottom (dl_fvg d) <= bar_high bar
                         /\ bar_close bar < fvg_bottom (dl_fvg d)
                     | bullish =>
                         dl_direction d = LONG
                         /\ bar_low bar <= fvg_top (dl_fvg d)
                         /\ fvg_top (dl_fvg d) < bar_close bar
                     end).
  { intros Hr x. destruct (IH Hr) as (A & B & C & D & F).
    repeat split; try assumption. right. exact C. }
  destruct (fvg_filled f) eqn:Ff; [cbn [fst snd]; intros Hr; apply Later, Hr|].
  destruct (fvg_age (set_age f (fvg_age f + 1)) >? max_age)%Z;
    [cbn [fst snd]; intros Hr; apply Later, Hr|].
  destruct (judge (set_age f (fvg_age f + 1)) bar) as [dir| |] eqn:J;
    cbn [fst snd]; try (intros Hr; apply Later, Hr).
  intros Hd. injection Hd as <-. cbn [dl_delivery_confirmed dl_delivery_time
                                      dl_fvg dl_direction].
  split; [reflexivity|]. split; [reflexivity|].
  split; [left; reflexivity|]. split; [exact Ff|].
  unfold judge in J. cbn [fvg_type fvg_top fvg_bottom set_age] in *.
  destruct (fvg_type f).
  - destruct (Py.ge (bar_high bar) (fvg_bottom f)) eqn:A; [|discriminate].
    destruct (Py.lt (bar_close bar) (fvg_bottom f)) eqn:B.
    + injection J as <-. apply Py_ge_iff in A. apply Py_lt_iff in B.
      repeat split; assumption.
    + destruct (Py.gt (bar_close bar) (fvg_top f)); discriminate.
  - destruct (Py.le (bar_low bar) (fvg_top f)) eqn:A; [|discriminate].
    destruct (Py.gt (bar_close bar) (fvg_top f)) eqn:B.
    + injection J as <-. apply Py_le_iff in A. apply Py_gt_iff in B.
      repeat split; assumption.
    + destruct (Py.lt (bar_close bar) (fvg_bottom f)); discriminate.
Qed.

End FairValueGaps.

(** ** The iFVG and CISD detectors *)

Lemma last_n_of_last_n {A : Type} (m n : nat) (l : list A) :
  (m <= n)%nat -> Py.last_n m (Py.last_n n l) = Py.last_n m l.
Proof.
  intros H. unfold Py.last_n. rewrite length_skipn, skipn_skipn. f_equal. lia.
Qed.

Lemma last_opt_app_r {A : Type} (l1 l2 : list A) (x : A) :
  Py.last_opt l2 = Some x -> Py.last_opt (l1 ++ l2) = Some x.
Proof.
  unfold Py.last_opt. rewrite rev_app_distr.
  destruct (rev l2); [discriminate|]. cbn [app]. auto.
Qed.

Lemma last_opt_of_last_n {A : Type} (n : nat) (l : list A) (x : A) :
  Py.last_opt (Py.last_n n l) = Some x -> Py.last_opt l = Some x.
Proof.
  intros H. rewrite <- (firstn_skipn (List.length l - n) l).
  apply last_opt_app_r. exact H.
Qed.

(** X11: [detect_ifvg_inversion] looks at the last four bars only -- any
    window of at least four bars ending at the same bars gives the same
    answer, and fewer than four bars give none.  A returned inversion has the
    requested direction, its gap is at least the minimum size, and the last
    close is strictly outside the gap: below its bottom for SHORT (a bullish
    gap disrespected), above its top for LONG (a bearish gap disrespected). *)
Theorem detect_ifvg_inversion_last_four (min_size : Z) (bars : list Bar)
    (direction : Direction) (min_tick : Q) :
  ((List.length bars < 4)%nat ->
   iFVGDetector.detect_ifvg_inversion min_size bars direction min_tick = None)
  /\ (forall n, (4 <= n)%nat -> (4 <= List.length bars)%nat ->
        iFVGDetector.detect_ifvg_inversion min_size (Py.last_n n bars)
          direction min_tick
        = iFVGDetector.detect_ifvg_inversion min_size bars direction min_tick)
  /\ (forall i,
        iFVGDetector.detect_ifvg_inversion min_size bars direction min_tick
        = Some i ->
        iFVGDetector.iv_direction i = direction
        /\ inject_Z min_size * min_tick
           <= iFVGDetector.iv_fvg_top i - iFVGDetector.iv_fvg_bottom i
        /\ option_map bar_close (Py.last_opt bars)
           = Some (iFVGDetector.iv_inversion_close i)
        /\ match direction with
           | SHORT =>
               iFVGDetector.iv_type i = iFVGDetector.bullish_fvg_disrespected
               /\ iFVGDetector.iv_inversion_close i < iFVGDetector.iv_fvg_bottom i
           | LONG =>
               iFVGDetector.iv_type i = iFVGDetector.bearish_fvg_disrespected
               /\ iFVGDetector.iv_fvg_top i < iFVGDetector.iv_inversion_close i
           end).
Proof.
  split; [|split].
  - intros H. unfold iFVGDetector.detect_ifvg_inversion.
    apply Nat.ltb_lt in H. rewrite H. reflexivity.
  - intros n Hn Hlen. unfold iFVGDetector.detect_ifvg_inversion.
    rewrite (last_n_of_last_n _ Hn), last_n_length.
    replace (Nat.min n (List.length bars) <? 4)%nat with false
      by (symmetry; apply Nat.ltb_ge; lia).
    replace (List.length bars <? 4)%nat with false
      by (symmetry; apply Nat.ltb_ge; lia).
    reflexivity.
  - intros i. unfold iFVGDetector.detect_ifvg_inversion.
    destruct (List.length bars <? 4)%nat; [discriminate|].
    assert (L : forall c, Py.last_opt (Py.last_n 4 bars) = Some c ->
                          Py.last_opt bars = Some c).
    { intros c. apply last_opt_of_last_n. }
    destruct (Py.last_n 4 bars) as [|c1 [|c2 [|c3 [|c4 [|]]]]]; try discriminate.
    specialize (L c4 eq_refl). rewrite L. cbn [option_map].
    destruct direction.
    + match goal with |- context [if ?c then _ else _] => destruct c eqn:C end;
        [|discriminate].
      intros H. injection H as <-. cbn.
      repeat (apply andb_true_iff in C; destruct C as [C ?]).
      repeat split; try reflexivity.
      * apply Py_ge_iff. assumption.
      * apply Py_lt_iff. assumption.
    + match goal with |- context [if ?c then _ else _] => destruct c eqn:C end;
        [|discriminate].
      intros H. injection H as <-. cbn.
      repeat (apply andb_true_iff in C; destruct C as [C ?]).
      repeat split; try reflexivity.
      * apply Py_ge_iff. assumption.
      * apply Py_gt_iff. assumption.
Qed.

Lemma take_while_incl {A : Type} (p : A -> bool) (l : list A) (x : A) :
  In x (Py.take_while p l) -> In x l /\ p x = true.
Proof.
  induction l as [|y tl IH]; [intros []|].
  cbn [Py.take_while]. destruct (p y) eqn:E; [|intros []].
  intros [<- | H]; [split; [left; reflexivity | exact E]|].
  destruct (IH H). split; [right|]; assumption.
Qed.

Lemma bars_at_incl (bars : list Bar) (idx : list nat) (x : Bar) :
  In x (CISDDetector.bars_at bars idx) ->
  exists i, In i idx /\ nth_error bars i = Some x.
Proof.
  unfold CISDDetector.bars_at. intros H. apply in_flat_map in H.
  destruct H as (i & Hi & Hx). exists i. split; [exact Hi|].
  destruct (nth_error bars i); [|destruct Hx].
  destruct Hx as [<- | []]. reflexivity.
Qed.

(** X12: what a CISD confirmation says.  It has the requested direction; the
    window has at least ten bars and the sweep's bar is found at an index of
    at least five; the first candle is a bar of the window between one and
    nine places in front of the sweep that closes in the run's direction
    (up for SHORT, down for LONG); the level is its open; and the last bar's
    close, which the confirmation carries with that bar's time, is strictly
    beyond the level in the trade direction. *)
Theorem detect_cisd_sound (bars : list Bar) (sweep_time : Z)
    (direction : Direction) (c : CISDDetector.CISD) :
  CISDDetector.detect_cisd bars sweep_time direction = Some c ->
  CISDDetector.cisd_direction c = direction
  /\ (10 <= List.length bars)%nat
  /\ (exists s j,
        CISDDetector.find_sweep_index 0 bars sweep_time = Some s
        /\ (5 <= s)%nat /\ (1 <= j <= 9)%nat /\ (j < s)%nat
        /\ nth_error bars (s - j) = Some (CISDDetector.cisd_first_candle c))
  /\ same_direction_close direction (CISDDetector.cisd_first_candle c) = true
  /\ CISDDetector.cisd_level c = bar_open (CISDDetector.cisd_first_candle c)
  /\ (exists last, Py.last_opt bars = Some last
                   /\ CISDDetector.cisd_current_close c = bar_close last
                   /\ CISDDetector.cisd_time c = bar_time last)
  /\ breaks_level direction (CISDDetector.cisd_current_close c)
       (CISDDetector.cisd_level c) = true.
Proof.
  unfold CISDDetector.detect_cisd.
  destruct (List.length bars <? 10)%nat eqn:Hlen; [discriminate|].
  apply Nat.ltb_ge in Hlen.
  destruct (CISDDetector.find_sweep_index 0 bars sweep_time) as [s|] eqn:Hs;
    [|discriminate].
  destruct (s <? 5)%nat eqn:H5; [discriminate|]. apply Nat.ltb_ge in H5.
  assert (Series : forall p first,
             Py.last_opt (CISDDetector.close_series p bars s) = Some first ->
             p first = true
             /\ exists j, (1 <= j <= 9)%nat /\ (j < s)%nat
                          /\ nth_error bars (s - j) = Some first).
  { intros p first Hl. apply last_opt_in in Hl.
    unfold CISDDetector.close_series in Hl.
    apply take_while_incl in Hl. destruct Hl as [Hin Hp]. split; [exact Hp|].
    apply bars_at_incl in Hin. destruct Hin as (i & Hi & Hn).
    rewrite lookback_indices_spec in Hi by lia.
    apply in_map_iff in Hi. destruct Hi as (j & <- & Hj). apply in_seq in Hj.
    exists j. repeat split; try lia. exact Hn. }
  destruct direction.
  - destruct (Py.last_opt (CISDDetector.close_series CISDDetector.up_close bars s))
      as [first|] eqn:Hf; [|discriminate].
    destruct (Py.last_opt bars) as [last|] eqn:Hl; [|discriminate].
    destruct (Py.lt (bar_close last) (bar_open first)) eqn:B; [|discriminate].
    intros H. injection H as <-. cbn.
    destruct (Series _ _ Hf) as (Hp & j & Hj1 & Hj2 & Hn).
    repeat split; try assumption; try reflexivity.
    + exists s, j. repeat split; try assumption; lia.
    + exists last. repeat split; reflexivity.
  - destruct (Py.last_opt (CISDDetector.close_series CISDDetector.down_close bars s))
      as [first|] eqn:Hf; [|discriminate].
    destruct (Py.last_opt bars) as [last|] eqn:Hl; [|discriminate].
    destruct (Py.gt (bar_close last) (bar_open first)) eqn:B; [|discriminate].
    intros H. injection H as <-. cbn.
    destruct (Series _ _ Hf) as (Hp & j & Hj1 & Hj2 & Hn).
    repeat split; try assumption; try reflexivity.
    + exists s, j. repeat split; try assumption; lia.
    + exists last. repeat split; reflexivity.
Qed.

(** ** Minimum and maximum of a list *)

Lemma max2_ub (a b : Q) : a <= Py.max2 a b /\ b <= Py.max2 a b.
Proof.
  unfold Py.max2. destruct (Py.gt b a) eqn:E.
  - apply Py_gt_iff in E. split; [apply Qlt_le_weak; exact E | apply Qle_refl].
  - apply Py_gt_false_iff in E. split; [apply Qle_refl | exact E].
Qed.

Lemma min2_lb (a b : Q) : Py.min2 a b <= a /\ Py.min2 a b <= b.
Proof.
  unfold Py.min2. destruct (Py.lt b a) eqn:E.
  - apply Py_lt_iff in E. split; [apply Qlt_le_weak; exact E | apply Qle_refl].
  - apply Py_lt_false_iff in E. split; [apply Qle_refl | exact E].
Qed.

Lemma max_list_ub (l : list Q) :
  forall x y, In y (x :: l) -> y <= Py.max_list x l.
Proof.
  unfold Py.max_list. induction l as [|a tl IH]; intros x y H.
  - destruct H as [<- | []]. apply Qle_refl.
  - cbn [fold_left]. destruct (max2_ub x a) as [Hx Ha].
    destruct H as [<- | [<- | H]].
    + eapply Qle_trans; [exact Hx | apply IH; left; reflexivity].
    + eapply Qle_trans; [exact Ha | apply IH; left; reflexivity].
    + apply IH. right. exact H.
Qed.

Lemma min_list_lb (l : list Q) :
  forall x y, In y (x :: l) -> Py.min_list x l <= y.
Proof.
  unfold Py.min_list. induction l as [|a tl IH]; intros x y H.
  - destruct H as [<- | []]. apply Qle_refl.
  - cbn [fold_left]. destruct (min2_lb x a) as [Hx Ha].
    destruct H as [<- | [<- | H]].
    + eapply Qle_trans; [apply IH; left; reflexivity | exact Hx].
    + eapply Qle_trans; [apply IH; left; reflexivity | exact Ha].
    + apply IH. right. exact H.
Qed.

Lemma max_list_in (l : list Q) : forall x, In (Py.max_list x l) (x :: l).
Proof.
  unfold Py.max_list. induction l as [|a tl IH]; intros x; [left; reflexivity|].
  cbn [fold_left]. specialize (IH (Py.max2 x a)).
  destruct IH as [E | H]; [|right; right; exact H].
  rewrite <- E. unfold Py.max2. destruct (Py.gt a x); [right|]; left; reflexivity.
Qed.

Lemma min_list_in (l : list Q) : forall x, In (Py.min_list x l) (x :: l).
Proof.
  unfold Py.min_list. induction l as [|a tl IH]; intros x; [left; reflexivity|].
  cbn [fold_left]. specialize (IH (Py.min2 x a)).
  destruct IH as [E | H]; [|right; right; exact H].
  rewrite <- E. unfold Py.min2. destruct (Py.lt a x); [right|]; left; reflexivity.
Qed.

(** X5: the target levels.  [get_liquidity_levels] offers at most five
    levels on each side, each the price of a stored swing; with sellside
    levels at hand the SHORT target of [_find_opposing_liquidity] is one of
    them and no other is lower, and with buyside levels at hand the LONG
    target is one of them and no other is higher. *)
Theorem find_opposing_liquidity_extreme (self : SignalGenerator.t)
    (sweep : LiquiditySweepDetector.Sweep) :
  let d := SignalGenerator.sweep_detector self in
  let buyside := LiquiditySweepDetector.buyside_liquidity d in
  let sellside := LiquiditySweepDetector.sellside_liquidity d in
  (List.length buyside <= 5)%nat /\ (List.length sellside <= 5)%nat
  /\ (forall y, In y buyside ->
        exists s, In s (LiquiditySweepDetector.swing_highs d)
                  /\ y = LiquiditySweepDetector.swing_price s)
  /\ (forall y, In y sellside ->
        exists s, In s (LiquiditySweepDetector.swing_lows d)
                  /\ y = LiquiditySweepDetector.swing_price s)
  /\ (sellside <> [] ->
      In (SignalGenerator._find_opposing_liquidity self sweep SHORT) sellside
      /\ forall y, In y sellside ->
           SignalGenerator._find_opposing_liquidity self sweep SHORT <= y)
  /\ (buyside <> [] ->
      In (SignalGenerator._find_opposing_liquidity self sweep LONG) buyside
      /\ forall y, In y buyside ->
           y <= SignalGenerator._find_opposing_liquidity self sweep LONG).
Proof.
  cbn zeta.
  unfold LiquiditySweepDetector.buyside_liquidity,
    LiquiditySweepDetector.sellside_liquidity,
    SignalGenerator._find_opposing_liquidity.
  repeat split.
  - rewrite length_map, last_n_length. lia.
  - rewrite length_map, last_n_length. lia.
  - intros y H. apply in_map_iff in H. destruct H as (s & <- & Hs).
    exists s. split; [exact (last_n_incl _ _ _ Hs) | reflexivity].
  - intros y H. apply in_map_iff in H. destruct H as (s & <- & Hs).
    exists s. split; [exact (last_n_incl _ _ _ Hs) | reflexivity].
  - unfold LiquiditySweepDetector.sellside_liquidity.
    destruct (map _ _) as [|x tl]; [contradiction | apply min_list_in].
  - unfold LiquiditySweepDetector.sellside_liquidity.
    destruct (map _ _) as [|x tl]; [contradiction|].
    intros y Hy. apply min_list_lb. exact Hy.
  - unfold LiquiditySweepDetector.buyside_liquidity.
    destruct (map _ _) as [|x tl]; [contradiction | apply max_list_in].
  - unfold LiquiditySweepDetector.buyside_liquidity.
    destruct (map _ _) as [|x tl]; [contradiction|].
    intros y Hy. apply max_list_ub. exact Hy.
Qed.

(** ** The detectors inside the pipeline *)

Section Detectors.

Import SignalGenerator.

Variables (ltf htf : list Bar) (mt : Q).

Lemma stage_sweep_detectors (self : t) (bar : Bar) :
  sweep_detector (stage_sweep self bar ltf mt)
  = snd (LiquiditySweepDetector.detect_sweep (sweep_detector self) bar
           (Py.but_last ltf) mt)
  /\ htf_fvg_detector (stage_sweep self bar ltf mt) = htf_fvg_detector self.
Proof.
  unfold stage_sweep.
  destruct (LiquiditySweepDetector.detect_sweep _ _ _ _) as [[s|] d];
    cbn; auto.
Qed.

(** Stage 2 either leaves the HTF detector alone or replaces its list by a
    fresh scan walked once by [check_delivery]. *)
Lemma stage_htf_fvg_detectors (self : t) (direction : Direction) (bar : Bar) :
  let self' := stage_htf_fvg self direction bar htf mt in
  sweep_detector self' = sweep_detector self
  /\ cs_sweep (confirmation_state self') = cs_sweep (confirmation_state self)
  /\ (htf_fvg_detector self' = htf_fvg_detector self
      \/ HTFFVGDetector.active_fvgs (htf_fvg_detector self')
         = snd (HTFFVGDetector.check_delivery
                  (HTFFVGDetector.max_age (htf_fvg_detector self))
                  (HTFFVGDetector.identify_fvgs (htf_fvg_detector self)
                     (Py.last_n 50 htf) mt) bar)).
Proof.
  cbn zeta. unfold stage_htf_fvg.
  destruct (cs_htf_fvg (confirmation_state self)); [auto|].
  rewrite update_fvgs_active.
  change (HTFFVGDetector.max_age
            (HTFFVGDetector.update_fvgs (htf_fvg_detector self) htf mt))
    with (HTFFVGDetector.max_age (htf_fvg_detector self)).
  destruct (HTFFVGDetector.check_delivery _ _ _) as [[d|] fvgs];
    [destruct (Direction_eqb _ _)|]; cbn; auto.
Qed.

Lemma stage_ifvg_detectors (self : t) (direction : Direction) :
  let self' := stage_ifvg self direction ltf mt in
  sweep_detector self' = sweep_detector self
  /\ htf_fvg_detector self' = htf_fvg_detector self
  /\ cs_sweep (confirmation_state self') = cs_sweep (confirmation_state self)
  /\ cs_htf_fvg (confirmation_state self') = cs_htf_fvg (confirmation_state self).
Proof.
  cbn zeta. unfold stage_ifvg.
  destruct (cs_ifvg (confirmation_state self)); [auto|].
  destruct (iFVGDetector.detect_ifvg_inversion _ _ _ _) as [i|];
    [destruct (Direction_eqb _ _)|]; cbn; auto.
Qed.

Lemma stage_cisd_detectors (self : t) (sweep : LiquiditySweepDetector.Sweep)
    (direction : Direction) :
  let self' := stage_cisd self sweep direction ltf in
  sweep_detector self' = sweep_detector self
  /\ htf_fvg_detector self' = htf_fvg_detector self
  /\ cs_sweep (confirmation_state self') = cs_sweep (confirmation_state self)
  /\ cs_htf_fvg (confirmation_state self') = cs_htf_fvg (confirmation_state self)
  /\ cs_ifvg (confirmation_state self') = cs_ifvg (confirmation_state self).
Proof.
  cbn zeta. unfold stage_cisd.
  destruct (cs_cisd (confirmation_state self)); [auto 6|].
  destruct (CISDDetector.detect_cisd _ _ _) as [c|];
    [destruct (Direction_eqb _ _)|]; cbn; auto 6.
Qed.

Lemma filter_and_emit_detectors (cal : Calendar) (w : World) (self : t)
    (sweep : LiquiditySweepDetector.Sweep) (bar : Bar) (direction : Direction) :
  let self' := snd (filter_and_emit cal w self sweep bar direction ltf mt) in
  sweep_detector self' = sweep_detector self
  /\ htf_fvg_detector self' = htf_fvg_detector self.
Proof.
  cbn zeta. unfold filter_and_emit, emit.
  destruct (filters_enabled self).
  - destruct (_run_edge_filters _ _ _ _ _ _ _ _) as [[r|] vf]; cbn; auto.
  - cbn. auto.
Qed.

(** What the first part of a call does to the two detectors. *)
Lemma check_confirmations_detectors (self : t) :
  let self' := fst (check_confirmations self ltf htf mt) in
  (sweep_detector self' = sweep_detector self
   \/ exists bar,
        sweep_detector self'
        = snd (LiquiditySweepDetector.detect_sweep (sweep_detector self) bar
                 (Py.but_last ltf) mt))
  /\ (htf_fvg_detector self' = htf_fvg_detector self
      \/ exists bar,
           HTFFVGDetector.active_fvgs (htf_fvg_detector self')
           = snd (HTFFVGDetector.check_delivery
                    (HTFFVGDetector.max_age (htf_fvg_detector self))
                    (HTFFVGDetector.identify_fvgs (htf_fvg_detector self)
                       (Py.last_n 50 htf) mt) bar)).
Proof.
  cbn zeta. unfold check_confirmations.
  destruct ((List.length ltf <? 20)%nat || (List.length htf <? 20)%nat);
    [cbn [fst]; auto|].
  destruct (Py.last_opt ltf) as [bar|]; [|cbn [fst]; auto].
  destruct (stage_sweep_detectors self bar) as [S1 H1].
  set (self1 := stage_sweep self bar ltf mt) in *.
  assert (A1 : sweep_detector self1 = sweep_detector self
               \/ exists bar0,
                    sweep_detector self1
                    = snd (LiquiditySweepDetector.detect_sweep
                             (sweep_detector self) bar0 (Py.but_last ltf) mt))
    by (right; exists bar; exact S1).
  destruct (cs_sweep (confirmation_state self1)) as [sweep|];
    [|cbn [fst]; auto].
  destruct (stage_htf_fvg_detectors self1
              (LiquiditySweepDetector.sw_direction sweep) bar) as (S2 & _ & H2).
  set (self2 := stage_htf_fvg self1 _ bar htf mt) in *.
  rewrite H1 in H2. rewrite <- S2 in A1.
  assert (B2 : htf_fvg_detector self2 = htf_fvg_detector self
               \/ exists bar0,
                    HTFFVGDetector.active_fvgs (htf_fvg_detector self2)
                    = snd (HTFFVGDetector.check_delivery
                             (HTFFVGDetector.max_age (htf_fvg_detector self))
                             (HTFFVGDetector.identify_fvgs (htf_fvg_detector self)
                                (Py.last_n 50 htf) mt) bar0))
    by (destruct H2 as [H2 | H2]; [left; exact H2 | right; exists bar; exact H2]).
  destruct (cs_htf_fvg (confirmation_state self2)); [|cbn [fst]; auto].
  destruct (stage_ifvg_detectors self2
              (LiquiditySweepDetector.sw_direction sweep)) as (S3 & H3 & _).
  set (self3 := stage_ifvg self2 _ ltf mt) in *.
  rewrite <- S3 in A1. rewrite <- H3 in B2.
  destruct (cs_ifvg (confirmation_state self3)); [|cbn [fst]; auto].
  destruct (stage_cisd_detectors self3 sweep
              (LiquiditySweepDetector.sw_direction sweep)) as (S4 & H4 & _).
  set (self4 := stage_cisd self3 sweep _ ltf) in *.
  rewrite <- S4 in A1. rewrite <- H4 in B2.
  destruct (cs_cisd (confirmation_state self4)); cbn [fst]; auto.
Qed.

Lemma check_for_signal_detectors (cal : Calendar) (w : World) (self : t) :
  let self' := snd (check_for_signal cal w self ltf htf mt) in
  (sweep_detector self' = sweep_detector self
   \/ exists bar,
        sweep_detector self'
        = snd (LiquiditySweepDetector.detect_sweep (sweep_detector self) bar
                 (Py.but_last ltf) mt))
  /\ (htf_fvg_detector self' = htf_fvg_detector self
      \/ exists bar,
           HTFFVGDetector.active_fvgs (htf_fvg_detector self')
           = snd (HTFFVGDetector.check_delivery
                    (HTFFVGDetector.max_age (htf_fvg_detector self))
                    (HTFFVGDetector.identify_fvgs (htf_fvg_detector self)
                       (Py.last_n 50 htf) mt) bar)).
Proof.
  cbn zeta. unfold check_for_signal.
  pose proof (check_confirmations_detectors self) as P. cbn zeta in P.
  destruct (check_confirmations self ltf htf mt)
    as [self4 [[[sweep bar] direction]|]]; cbn [fst snd] in *; [|exact P].
  destruct (filter_and_emit_detectors cal w self4 sweep bar direction) as [S H].
  rewrite S, H. exact P.
Qed.

End Detectors.

Section Calls.

Import SignalGenerator.

(** X2: the swings are computed once.  As soon as the sweep detector holds a
    swing high or a swing low, no later call of [check_for_signal] changes the
    detector, whatever bars it is given: every sweep is then measured against
    the swings of the bars seen at that first computation. *)
Theorem swings_never_refreshed (cal : Calendar) (w : World) (self : t)
    (calls : list (list Bar * list Bar * Q)) :
  LiquiditySweepDetector.swing_highs (sweep_detector self) <> []
  \/ LiquiditySweepDetector.swing_lows (sweep_detector self) <> [] ->
  Forall (fun s => sweep_detector s = sweep_detector self)
         (trace cal w self calls).
Proof.
  revert self. induction calls as [|[[ltf htf] mt] rest IH]; intros self H;
    [constructor|].
  cbn [trace].
  assert (E : sweep_detector (snd (check_for_signal cal w self ltf htf mt))
              = sweep_detector self).
  { destruct (check_for_signal_detectors ltf htf mt cal w self) as [[E | [bar E]] _];
      [exact E|].
    rewrite E. apply detect_sweep_keeps_swings. exact H. }
  constructor; [exact E|].
  rewrite <- E. apply IH. rewrite E. exact H.
Qed.

Lemma young_after_scan (d : HTFFVGDetector.t) (bars : list Bar) (mt : Q)
    (max_age : Z) (bar : Bar) (fvgs : list HTFFVGDetector.FVG) :
  fvgs = snd (HTFFVGDetector.check_delivery max_age
                (HTFFVGDetector.identify_fvgs d bars mt) bar) ->
  Forall (fun f => (0 <= HTFFVGDetector.fvg_age f <= 1)%Z) fvgs.
Proof.
  intros ->.
  pose proof (check_delivery_pointwise max_age
                (HTFFVGDetector.identify_fvgs d bars mt) bar) as P.
  pose proof (scanned_fvgs_fresh d bars mt) as F.
  revert P F.
  generalize (snd (HTFFVGDetector.check_delivery max_age
                     (HTFFVGDetector.identify_fvgs d bars mt) bar)).
  generalize (HTFFVGDetector.identify_fvgs d bars mt).
  intros l l' P. induction P as [|f f' l l' E _ IH]; intros F; constructor.
  - inversion F as [|? ? Hf _]; subst.
    destruct Hf as (c1 & c2 & c3 & _ & _ & _ & _ & _ & Ha & _).
    destruct E as (_ & _ & _ & _ & _ & _ & _ & Hage & _). lia.
  - apply IH. inversion F; assumption.
Qed.

(** X8: in the pipeline no FVG grows old.  Whenever stage 2 runs it replaces
    the active list by a fresh scan before walking it once, so along any
    sequence of calls on a new generator every FVG of the HTF detector has age
    0 or 1. *)
Theorem pipeline_fvgs_stay_young (cal : Calendar) (w : World) (cfg : Config)
    (calls : list (list Bar * list Bar * Q)) :
  Forall (fun s => young (htf_fvg_detector s))
         (trace cal w (init cfg) calls).
Proof.
  assert (G : forall self, young (htf_fvg_detector self) ->
                Forall (fun s => young (htf_fvg_detector s))
                       (trace cal w self calls)).
  { induction calls as [|[[ltf htf] mt] rest IH]; intros self Y; [constructor|].
    cbn [trace].
    assert (Y' : young (htf_fvg_detector
                          (snd (check_for_signal cal w self ltf htf mt)))).
    { destruct (check_for_signal_detectors ltf htf mt cal w self)
        as [_ [E | [bar E]]].
      - rewrite E. exact Y.
      - unfold young. eapply young_after_scan. exact E. }
    constructor; [exact Y' | apply IH; exact Y']. }
  apply G. unfold young. cbn. constructor.
Qed.

(** X3: the guard of [check_for_signal] asks for 20 bars of each series, but
    the sweep detector is handed the bars without the current one and needs
    20 of them.  A generator without swings and without a recorded sweep that
    is given fewer than 21 lower-timeframe bars, or fewer than 20
    higher-timeframe bars, returns None and is left exactly as it was. *)
Theorem no_signal_below_21_bars (cal : Calendar) (w : World) (self : t)
    (ltf htf : list Bar) (mt : Q) :
  LiquiditySweepDetector.swing_highs (sweep_detector self) = [] ->
  LiquiditySweepDetector.swing_lows (sweep_detector self) = [] ->
  cs_sweep (confirmation_state self) = None ->
  (List.length ltf < 21)%nat \/ (List.length htf < 20)%nat ->
  check_for_signal cal w self ltf htf mt = (None, self).
Proof.
  intros Hh Hl Hs Hlen. unfold check_for_signal, check_confirmations.
  destruct ((List.length ltf <? 20)%nat || (List.length htf <? 20)%nat) eqn:G;
    [reflexivity|].
  apply orb_false_iff in G. destruct G as [G1 G2].
  apply Nat.ltb_ge in G1. apply Nat.ltb_ge in G2.
  destruct (Py.last_opt ltf) as [bar|]; [|reflexivity].
  assert (E : stage_sweep self bar ltf mt = self).
  { unfold stage_sweep, LiquiditySweepDetector.detect_sweep.
    rewrite Hh, Hl. cbn [LiquiditySweepDetector.is_empty andb].
    unfold LiquiditySweepDetector.identify_swings.
    assert (L : (List.length (Py.but_last ltf) <? 20)%nat = true).
    { apply Nat.ltb_lt. unfold Py.but_last.
      destruct ltf as [|x tl]; [cbn; lia|].
      rewrite removelast_firstn_len, length_firstn. cbn [List.length] in *. lia. }
    rewrite L, Hh, Hl. cbn [LiquiditySweepDetector.is_empty andb].
    destruct self; reflexivity. }
  rewrite E, Hs. reflexivity.
Qed.

End Calls.

Section Emission.

Import SignalGenerator.

(** When the first part of a call runs through, the sweep it hands on is the
    recorded one and the three later confirmations are recorded. *)
Lemma check_confirmations_through (self s : t) (ltf htf : list Bar) (mt : Q)
    (sweep : LiquiditySweepDetector.Sweep) (bar : Bar) (direction : Direction) :
  check_confirmations self ltf htf mt = (s, Some (sweep, bar, direction)) ->
  (20 <= List.length ltf)%nat /\ (20 <= List.length htf)%nat
  /\ Py.last_opt ltf = Some bar
  /\ direction = LiquiditySweepDetector.sw_direction sweep
  /\ cs_sweep (confirmation_state s) = Some sweep
  /\ cs_htf_fvg (confirmation_state s) <> None
  /\ cs_ifvg (confirmation_state s) <> None
  /\ cs_cisd (confirmation_state s) <> None.
Proof.
  unfold check_confirmations.
  destruct ((List.length ltf <? 20)%nat || (List.length htf <? 20)%nat) eqn:G;
    [discriminate|].
  apply orb_false_iff in G. destruct G as [G1 G2].
  apply Nat.ltb_ge in G1. apply Nat.ltb_ge in G2.
  destruct (Py.last_opt ltf) as [cur|]; [|discriminate].
  set (self1 := stage_sweep self cur ltf mt).
  destruct (cs_sweep (confirmation_state self1)) as [sw|] eqn:C1; [|discriminate].
  destruct (stage_htf_fvg_detectors htf mt self1
              (LiquiditySweepDetector.sw_direction sw) cur) as (_ & K2 & _).
  set (self2 := stage_htf_fvg self1 _ cur htf mt) in *.
  destruct (cs_htf_fvg (confirmation_state self2)) as [d|] eqn:C2; [|discriminate].
  destruct (stage_ifvg_detectors ltf mt self2
              (LiquiditySweepDetector.sw_direction sw)) as (_ & _ & K3 & F3).
  set (self3 := stage_ifvg self2 _ ltf mt) in *.
  destruct (cs_ifvg (confirmation_state self3)) as [i|] eqn:C3; [|discriminate].
  destruct (stage_cisd_detectors ltf self3 sw
              (LiquiditySweepDetector.sw_direction sw)) as (_ & _ & K4 & F4 & I4).
  set (self4 := stage_cisd self3 sw _ ltf) in *.
  destruct (cs_cisd (confirmation_state self4)) as [c|] eqn:C4; [|discriminate].
  intros H. injection H as <- <- <- <-.
  repeat split; try assumption; try reflexivity.
  - rewrite K4, K3, K2. exact C1.
  - rewrite F4, F3, C2. discriminate.
  - rewrite I4, C3. discriminate.
  - rewrite C4. discriminate.
Qed.

Lemma risk_reward_nonneg (risk reward : Q) :
  0 <= reward -> 0 <= risk_reward risk reward.
Proof.
  intros Hr. unfold risk_reward. destruct (Py.gt risk 0) eqn:G;
    [|apply Qle_refl].
  apply Py_gt_iff in G. unfold Qdiv.
  apply Qmult_le_0_compat; [exact Hr|].
  apply Qlt_le_weak, Qinv_lt_0_compat. exact G.
Qed.

(** The shape of a returned signal. *)
Lemma returned_signal_shape (cal : Calendar) (w : World) (self : t)
    (ltf htf : list Bar) (mt : Q) (sig : Signal) :
  fst (check_for_signal cal w self ltf htf mt) = Some sig ->
  let self' := snd (check_for_signal cal w self ltf htf mt) in
  let buffer := inject_Z (STOP_LOSS_BUFFER_TICKS (config self)) * mt in
  (20 <= List.length ltf)%nat /\ (20 <= List.length htf)%nat
  /\ (exists bar, Py.last_opt ltf = Some bar
                  /\ sg_time sig = bar_time bar
                  /\ sg_entry sig = bar_close bar)
  /\ (exists sweep,
        cs_sweep (sg_confirmations sig) = Some sweep
        /\ sg_direction sig = LiquiditySweepDetector.sw_direction sweep
        /\ sg_stop_loss sig
           = match sg_direction sig with
             | SHORT => LiquiditySweepDetector.sw_swing_level sweep + buffer
             | LONG => LiquiditySweepDetector.sw_swing_level sweep - buffer
             end)
  /\ cs_htf_fvg (sg_confirmations sig) <> None
  /\ cs_ifvg (sg_confirmations sig) <> None
  /\ cs_cisd (sg_confirmations sig) <> None
  /\ sg_risk sig = Qabs (sg_entry sig - sg_stop_loss sig)
  /\ sg_reward sig = Qabs (sg_target sig - sg_entry sig)
  /\ 0 <= sg_risk_reward_ratio sig
  /\ sg_filter_scores sig <> None
  /\ confirmation_state self' = empty_state.
Proof.
  cbn zeta. unfold check_for_signal.
  pose proof (@check_confirmations_keeps ltf htf mt self) as (_ & (Hcfg & _) & _).
  destruct (check_confirmations self ltf htf mt)
    as [s [[[sweep bar] direction]|]] eqn:E; [|discriminate].
  cbn [fst] in Hcfg.
  destruct (check_confirmations_through _ _ _ _ E)
    as (L1 & L2 & Hbar & Hdir & Hsw & Hh & Hi & Hc).
  assert (Built : forall (s' : t) (r : FilterResult) (b : bool),
            confirmation_state s' = confirmation_state s ->
            config s' = config self ->
            with_filter_scores (_build_signal s' sweep bar direction mt) r b = sig ->
            (exists bar0, Py.last_opt ltf = Some bar0
                          /\ sg_time sig = bar_time bar0
                          /\ sg_entry sig = bar_close bar0)
            /\ (exists sweep0,
                  cs_sweep (sg_confirmations sig) = Some sweep0
                  /\ sg_direction sig = LiquiditySweepDetector.sw_direction sweep0
                  /\ sg_stop_loss sig
                     = match sg_direction sig with
                       | SHORT => LiquiditySweepDetector.sw_swing_level sweep0
                                  + inject_Z (STOP_LOSS_BUFFER_TICKS (config self)) * mt
                       | LONG => LiquiditySweepDetector.sw_swing_level sweep0
                                 - inject_Z (STOP_LOSS_BUFFER_TICKS (config self)) * mt
                       end)
            /\ cs_htf_fvg (sg_confirmations sig) <> None
            /\ cs_ifvg (sg_confirmations sig) <> None
            /\ cs_cisd (sg_confirmations sig) <> None
            /\ sg_risk sig = Qabs (sg_entry sig - sg_stop_loss sig)
            /\ sg_reward sig = Qabs (sg_target sig - sg_entry sig)
            /\ 0 <= sg_risk_reward_ratio sig
            /\ sg_filter_scores sig <> None).
  { intros s' r b Hcs Hcf <-. unfold with_filter_scores, _build_signal.
    cbn [sg_time sg_direction sg_entry sg_stop_loss sg_target sg_risk sg_reward
         sg_risk_reward_ratio sg_confirmations sg_filter_scores].
    rewrite Hcs, Hcf.
    split; [exists bar; auto|].
    split; [exists sweep; subst direction; auto|].
    repeat split; try assumption.
    - apply risk_reward_nonneg, Qabs_nonneg.
    - discriminate. }
  unfold filter_and_emit, emit.
  destruct (filters_enabled s).
  - destruct (_run_edge_filters _ _ _ _ _ _ _ _) as [[r|] vf];
      cbn [fst snd]; [|discriminate].
    intros H. injection H as H.
    split; [exact L1|]. split; [exact L2|].
    destruct (Built _ _ _ eq_refl Hcfg H) as (A & B & C & D & F & G & I & J & K).
    repeat split; assumption.
  - cbn [fst snd]. intros H. injection H as H.
    split; [exact L1|]. split; [exact L2|].
    destruct (Built _ _ _ eq_refl Hcfg H) as (A & B & C & D & F & G & I & J & K).
    repeat split; assumption.
Qed.

(** X18: what every returned signal carries.  Both series had at least 20
    bars; time and entry are the time and close of the latest bar; all four
    confirmations are recorded in it, and its direction is the direction of
    the recorded sweep; the stop is the swept level plus (SHORT) or minus
    (LONG) the buffer; risk and reward are the distances from the entry to
    the stop and to the target, the ratio is not negative; and the call
    leaves the confirmation state empty. *)
Theorem returned_signal_well_formed (cal : Calendar) (w : World) (self : t)
    (ltf htf : list Bar) (mt : Q) (sig : Signal) :
  fst (check_for_signal cal w self ltf htf mt) = Some sig ->
  let self' := snd (check_for_signal cal w self ltf htf mt) in
  let buffer := inject_Z (STOP_LOSS_BUFFER_TICKS (config self)) * mt in
  (20 <= List.length ltf)%nat /\ (20 <= List.length htf)%nat
  /\ (exists bar, Py.last_opt ltf = Some bar
                  /\ sg_time sig = bar_time bar
                  /\ sg_entry sig = bar_close bar)
  /\ (exists sweep,
        cs_sweep (sg_confirmations sig) = Some sweep
        /\ sg_direction sig = LiquiditySweepDetector.sw_direction sweep
        /\ sg_stop_loss sig
           = match sg_direction sig with
             | SHORT => LiquiditySweepDetector.sw_swing_level sweep + buffer
             | LONG => LiquiditySweepDetector.sw_swing_level sweep - buffer
             end)
  /\ cs_htf_fvg (sg_confirmations sig) <> None
  /\ cs_ifvg (sg_confirmations sig) <> None
  /\ cs_cisd (sg_confirmations sig) <> None
  /\ sg_risk sig = Qabs (sg_entry sig - sg_stop_loss sig)
  /\ sg_reward sig = Qabs (sg_target sig - sg_entry sig)
  /\ 0 <= sg_risk_reward_ratio sig
  /\ sg_filter_scores sig <> None
  /\ confirmation_state self' = empty_state.
Proof. exact (@returned_signal_shape cal w self ltf htf mt sig). Qed.

End Emission.

(** ** The edge filters *)

(** X13: the windows of the time filter.  A signal time is accepted exactly
    between 09:30 and 11:00 local time, both ends included; the multiplier is
    1 from 09:30 to 10:00 inclusive, 0.7 after 10:00 up to 11:00 inclusive,
    and 0 exactly when the time is rejected, an unreadable stamp included. *)
Theorem time_filter_windows (cal : Calendar) (signal_time : Z) :
  let good := fst (TimeFilter.is_optimal_time cal signal_time) in
  let m := TimeFilter.get_quality_multiplier cal signal_time in
  (good = true <->
   exists us, ny_time cal signal_time = LocalTime us
              /\ (clock 9 30 <= us <= clock 11 0)%Z)
  /\ (m = 1 <->
      exists us, ny_time cal signal_time = LocalTime us
                 /\ (clock 9 30 <= us <= clock 10 0)%Z)
  /\ (m = 7 # 10 <->
      exists us, ny_time cal signal_time = LocalTime us
                 /\ (clock 10 0 < us <= clock 11 0)%Z)
  /\ (m = 0 <-> good = false).
Proof.
  cbn zeta.
  unfold TimeFilter.get_quality_multiplier, TimeFilter.is_optimal_time,
    TimeFilter.optimal_start, TimeFilter.optimal_end,
    TimeFilter.acceptable_start, TimeFilter.acceptable_end, clock.
  destruct (ny_time cal signal_time) as [| |us] eqn:E.
  - cbn. repeat split; intros H; try discriminate;
      destruct H as (us & Hx & _); discriminate.
  - cbn. repeat split; intros H; try discriminate;
      destruct H as (us & Hx & _); discriminate.
  - destruct (Z.leb_spec ((9 * 3600 + 30 * 60) * 1000000) us) as [L1 | L1];
      destruct (Z.leb_spec us ((10 * 3600 + 0 * 60) * 1000000)) as [L2 | L2];
      destruct (Z.leb_spec us ((11 * 3600 + 0 * 60) * 1000000)) as [L3 | L3];
      cbn [andb fst negb];
      repeat split; intros H; try discriminate; try reflexivity;
      try (exists us; split; [reflexivity | lia]);
      try (destruct H as (us' & Hx & Hy); injection Hx as <-; lia).
Qed.

Section Volatility.

Import VolatilityFilter.

(** X14: the VIX cache.  On a filter without a cached value, a successful
    download is returned and stored with the time of the call, and a second
    call less than [cache_minutes] later returns the stored value without
    looking at what a download would give; a failed or empty download stores
    nothing. *)
Theorem vix_cache_round_trip (w : World) (self : t) :
  cached_vix self = None ->
  let r1 := w (calls self) in
  let r2 := w (S (calls self)) in
  let s1 := snd (get_current_vix w self) in
  (forall v, vr_fetch r1 = FetchClose v ->
     fst (get_current_vix w self) = Some v
     /\ cached_vix s1 = Some v /\ cache_time s1 = Some (vr_now r1)
     /\ (vr_now r2 - vr_now r1 < cache_minutes self * 60 ->
         fst (get_current_vix w s1) = Some v
         /\ cached_vix (snd (get_current_vix w s1)) = Some v
         /\ cache_time (snd (get_current_vix w s1)) = Some (vr_now r1)))
  /\ (vr_fetch r1 = FetchFails ->
      fst (get_current_vix w self) = Some (max_vix self + 1)
      /\ cached_vix s1 = None)
  /\ (vr_fetch r1 = FetchEmpty ->
      fst (get_current_vix w self) = None /\ cached_vix s1 = None).
Proof.
  intros Hc. cbn zeta.
  assert (E : forall v, vr_fetch (w (calls self)) = FetchClose v ->
            get_current_vix w self
            = (Some v,
               {| max_vix := max_vix self; cache_minutes := cache_minutes self;
                  cached_vix := Some v;
                  cache_time := Some (vr_now (w (calls self)));
                  calls := S (calls self) |})).
  { intros v H. unfold get_current_vix. rewrite Hc, H. reflexivity. }
  split; [|split].
  - intros v H. rewrite (E v H). cbn [fst snd cached_vix cache_time].
    split; [reflexivity|]. split; [reflexivity|]. split; [reflexivity|].
    intros G. apply Py_lt_iff in G. unfold get_current_vix.
    cbn [cached_vix cache_time calls cache_minutes]. rewrite G.
    cbn. auto.
  - intros H. unfold get_current_vix. rewrite Hc, H. cbn. auto.
  - intros H. unfold get_current_vix. rewrite Hc, H. cbn. auto.
Qed.

Lemma Q_lt_succ (m : Q) : m < m + 1.
Proof.
  rewrite <- (Qplus_0_r m) at 1. apply Qplus_lt_r. reflexivity.
Qed.

(** X15: the verdict when no VIX can be had.  Without a cached value, an
    empty download gives (False, VIX_UNAVAILABLE, 999); a failing download
    makes the filter judge [max_vix + 1]: unfavourable when that is above 15,
    but LOW_VOL_OPTIMAL when [max_vix + 1 <= 15]. *)
Theorem vix_unavailable_verdict (w : World) (self : t) :
  cached_vix self = None ->
  let verdict := fst (is_favorable_volatility w self) in
  (vr_fetch (w (calls self)) = FetchEmpty ->
   verdict = (false, VIX_UNAVAILABLE, 999))
  /\ (vr_fetch (w (calls self)) = FetchFails ->
      (15 < max_vix self + 1 ->
       verdict = (false, HIGH_VOL_UNFAVORABLE, max_vix self + 1))
      /\ (max_vix self + 1 <= 15 ->
          verdict = (true, LOW_VOL_OPTIMAL, max_vix self + 1))).
Proof.
  intros Hc. cbn zeta. unfold is_favorable_volatility, get_current_vix.
  rewrite Hc. split.
  - intros H. rewrite H. reflexivity.
  - intros H. rewrite H. split; intros G.
    + apply Py_le_false_iff in G. rewrite G. cbn [max_vix].
      replace (Py.le (max_vix self + 1) (max_vix self)) with false
        by (symmetry; apply Py_le_false_iff, Q_lt_succ).
      reflexivity.
    + apply Py_le_iff in G. rewrite G. reflexivity.
Qed.

End Volatility.

Section Structure.

Import StructureFilter.

(** X16: the range position.  It is undefined exactly below 78 bars; and
    when the entry price lies within the low-high span of one of the last 78
    bars, as the close of the latest bar does, the position is between 0 and
    1. *)
Theorem range_position_bounds (entry : Q) (bars : list Bar) :
  (calculate_range_position entry bars = None
   <-> (List.length bars < 78)%nat)
  /\ (forall p b,
        calculate_range_position entry bars = Some p ->
        In b (Py.last_n 78 bars) ->
        bar_low b <= entry <= bar_high b ->
        0 <= p <= 1).
Proof.
  unfold calculate_range_position, lookback_bars. split.
  - destruct (Nat.ltb_spec (List.length bars) 78) as [L | L].
    + split; [intros _; exact L | reflexivity].
    + destruct (Py.last_n 78 bars) as [|b0 tl] eqn:E.
      * pose proof (last_n_length 78 bars) as P. rewrite E in P.
        cbn [List.length] in P. lia.
      * split; [|lia]. destruct (Py.eq _ 0); discriminate.
  - intros p b. destruct (List.length bars <? 78)%nat; [discriminate|].
    destruct (Py.last_n 78 bars) as [|b0 tl]; [discriminate|].
    intros Hp Hin [Hlo Hhi].
    assert (Hmax : bar_high b <= Py.max_list (bar_high b0) (map bar_high tl)).
    { apply max_list_ub. change (In (bar_high b) (map bar_high (b0 :: tl))).
      apply in_map. exact Hin. }
    assert (Hmin : Py.min_list (bar_low b0) (map bar_low tl) <= bar_low b).
    { apply min_list_lb. change (In (bar_low b) (map bar_low (b0 :: tl))).
      apply in_map. exact Hin. }
    set (hi := Py.max_list (bar_high b0) (map bar_high tl)) in *.
    set (lo := Py.min_list (bar_low b0) (map bar_low tl)) in *.
    destruct (Py.eq (hi - lo) 0) eqn:Z0.
    + injection Hp as <-. split; lra.
    + injection Hp as <-.
      assert (Hne : ~ hi - lo == 0).
      { intros Q0. apply Qeq_bool_iff in Q0. unfold Py.eq in Z0.
        rewrite Q0 in Z0. discriminate. }
      assert (Hpos : 0 < hi - lo) by lra.
      split.
      * apply Qle_shift_div_l; [exact Hpos | lra].
      * apply Qle_shift_div_r; [exact Hpos | lra].
Qed.

(** X17: verdict and score of the structure filter agree.  When
    [is_at_extreme] rejects, [get_quality_score] is 0; when it accepts, the
    score is at least 0.7, and at most 1 for a position between 0 and 1. *)
Theorem structure_score_consistent (direction : Direction) (entry : Q)
    (bars : list Bar) :
  let v := is_at_extreme direction entry bars in
  let score := get_quality_score direction entry bars in
  (fst (fst v) = false -> score = 0)
  /\ (fst (fst v) = true ->
      7 # 10 <= score /\ (0 <= snd v <= 1 -> score <= 1)).
Proof.
  cbn zeta. unfold is_at_extreme, get_quality_score.
  destruct (calculate_range_position entry bars) as [p|];
    [|cbn; split; [reflexivity | discriminate]].
  destruct direction.
  - destruct (Py.ge p short_min_position) eqn:G; cbn [fst snd];
      (split; [intros H; try discriminate; try reflexivity|intros H; try discriminate]).
    apply Py_ge_iff in G. cbn zeta.
    change (1 - short_min_position) with (30 # 100).
    unfold short_min_position in *. unfold Qdiv. change (/ (30 # 100)) with (100 # 30).
    split; [lra | intros B; lra].
  - destruct (Py.le p long_max_position) eqn:G; cbn [fst snd];
      (split; [intros H; try discriminate; try reflexivity|intros H; try discriminate]).
    apply Py_le_iff in G. cbn zeta.
    unfold long_max_position in *. unfold Qdiv. change (/ (30 # 100)) with (100 # 30).
    split; [lra | intros B; lra].
Qed.

End Structure.

(** X19: the sweep score takes one of the values 5, 6, 7, 8, 9, 10: it is 5
    exactly when none of the three tests holds, and reaches the cap of 10
    exactly when the swept level is both an overnight and a previous-day
    extreme. *)
Theorem score_sweep_values (cal : Calendar)
    (sweep_data : LiquiditySweepDetector.Sweep) (bars : list Bar) :
  let level := LiquiditySweepDetector.sw_swing_level sweep_data in
  let score := SweepQualityScorer.score_sweep cal sweep_data bars in
  In score [5; 6; 7; 8; 9; 10]
  /\ (score = 5 <->
      SweepQualityScorer._is_overnight_extreme cal level bars = false
      /\ SweepQualityScorer._is_previous_day_extreme level bars = false
      /\ SweepQualityScorer._is_clean_sweep sweep_data = false)
  /\ (score = 10 <->
      SweepQualityScorer._is_overnight_extreme cal level bars = true
      /\ SweepQualityScorer._is_previous_day_extreme level bars = true).
Proof.
  cbn zeta. unfold SweepQualityScorer.score_sweep.
  destruct (SweepQualityScorer._is_overnight_extreme _ _ _);
    destruct (SweepQualityScorer._is_previous_day_extreme _ _);
    destruct (SweepQualityScorer._is_clean_sweep _);
    vm_compute; intuition discriminate.
Qed.

(** ** Position sizing *)

Section Sizing.

Import PositionSizer.

(** X20: the MNQ bracket table as [_get_mnq_contracts] reads it.  The result
    is between 1 and 5; the brackets are closed intervals, so the risk values
    strictly between two brackets (above 24 and below 25, and so on) get 1
    contract like those below 20 or above 60; a risk of exactly 60 points
    falls in the bracket (41, 60) and gets 2. *)
Theorem mnq_brackets_table (account risk r : Q) :
  let n := _get_mnq_contracts (init account risk) r in
  (1 <= n <= 5)%Z
  /\ (n = 5%Z <-> 20 <= r <= 24)
  /\ (n = 4%Z <-> 25 <= r <= 30)
  /\ (n = 3%Z <-> 31 <= r <= 40)
  /\ (n = 2%Z <-> 41 <= r <= 60)
  /\ (n = 1%Z <-> r < 20 \/ 24 < r < 25 \/ 30 < r < 31 \/ 40 < r < 41 \/ 60 < r).
Proof.
  cbn zeta. unfold _get_mnq_contracts, init. cbn [mnq_brackets lookup_bracket].
  repeat (match goal with
          | |- context [Py.le ?a ?b] =>
              let E := fresh "E" in
              destruct (Py.le a b) eqn:E;
              [apply Py_le_iff in E | apply Py_le_false_iff in E]
          end; cbn [andb]);
    (split; [lia|]);
    repeat split; intros;
    first [ discriminate | reflexivity | lra | exfalso; lra ].
Qed.

(** X21: which computed positions pass validation.  For positive tick value
    and tick size and a non-negative risk budget, a position returned by
    [calculate_position_size] passes [validate_position] exactly when the
    risk of one contract is at most 110% of [max_risk_dollars]: the floor of
    one contract is the only way a computed position exceeds the limit. *)
Theorem validate_computed_position (self : t) (symbol : string)
    (entry stop tick_value min_tick : Q) (p : PositionSize) :
  0 < tick_value -> 0 < min_tick -> 0 <= max_risk_dollars self ->
  calculate_position_size self symbol entry stop tick_value min_tick = Py.Ok p ->
  (validate_position self p = true
   <-> ps_risk_per_contract p <= max_risk_dollars self * (11 # 10)).
Proof.
  intros Htv Hmt Hmax. unfold calculate_position_size.
  rewrite (Py_div_ok _ (Qneq_of_pos Hmt)). cbn [Py.bind].
  set (rpc := Qabs (entry - stop) / min_tick * tick_value).
  unfold Py.div at 1. destruct (Py.eq rpc 0) eqn:E0; [discriminate|].
  cbn [Py.bind].
  set (q := max_risk_dollars self / rpc).
  set (c := if String.eqb symbol "MNQ"
            then Z.min (Py.int q) (_get_mnq_contracts self (Qabs (entry - stop)))
            else Py.int q).
  unfold Py.div. destruct (Py.eq (account_size self) 0); [discriminate|].
  cbn [Py.bind]. intros H. injection H as <-.
  unfold validate_position.
  cbn [ps_total_risk_dollars ps_contracts ps_risk_per_contract].
  assert (Hne : ~ rpc == 0).
  { intros Q0. apply Qeq_bool_iff in Q0. unfold Py.eq in E0.
    rewrite Q0 in E0. discriminate. }
  assert (Hnn : 0 <= rpc).
  { unfold rpc. apply Qmult_le_0_compat; [|apply Qlt_le_weak; exact Htv].
    unfold Qdiv. apply Qmult_le_0_compat; [apply Qabs_nonneg|].
    apply Qlt_le_weak, Qinv_lt_0_compat. exact Hmt. }
  assert (Hpos : 0 < rpc) by lra.
  assert (Hq : 0 <= q).
  { unfold q, Qdiv. apply Qmult_le_0_compat; [exact Hmax|].
    apply Qlt_le_weak, Qinv_lt_0_compat. exact Hpos. }
  assert (Hqr : q * rpc == max_risk_dollars self).
  { unfold q. rewrite Qmult_comm. apply Qmult_div_r. exact Hne. }
  assert (Hc : (c <= Py.int q)%Z).
  { unfold c. destruct (String.eqb symbol "MNQ"); lia. }
  pose proof (@int_le q Hq) as Hint.
  assert (H1 : (1 <= Z.max 1 c)%Z) by lia.
  replace (Z.max 1 c <? 1)%Z with false by (symmetry; apply Z.ltb_ge; exact H1).
  assert (Low : rpc <= inject_Z (Z.max 1 c) * rpc).
  { setoid_replace rpc with (1 * rpc) at 1 by ring.
    apply Qmult_le_compat_r; [|exact Hnn].
    change 1 with (inject_Z 1). apply inject_Z_le. exact H1. }
  split.
  - intros V.
    destruct (Py.gt (inject_Z (Z.max 1 c) * rpc) (max_risk_dollars self * (11 # 10)))
      eqn:G; [discriminate|].
    apply Py_gt_false_iff in G. lra.
  - intros R.
    replace (Py.gt (inject_Z (Z.max 1 c) * rpc) (max_risk_dollars self * (11 # 10)))
      with false; [reflexivity|].
    symmetry. apply Py_gt_false_iff.
    destruct (Z.max_spec 1 c) as [[_ ->] | [_ ->]].
    + assert (Up : inject_Z c * rpc <= q * rpc).
      { apply Qmult_le_compat_r; [|exact Hnn].
        eapply Qle_trans; [apply inject_Z_le; exact Hc | exact Hint]. }
      lra.
    + change (inject_Z 1) with 1. lra.
Qed.

End Sizing.

(** ** Trade simulation *)

Section Simulation.

Import SignalGenerator PositionSizer Backtester.

Lemma hit_cases (direction : Direction) (stop target : Q) (bar : Bar) :
  match hit direction stop target bar with
  | StopHit => stop_touched direction stop bar = true
  | TargetHit => stop_touched direction stop bar = false
                 /\ target_touched direction target bar = true
  | NoHit => stop_touched direction stop bar = false
             /\ target_touched direction target bar = false
  end.
Proof.
  unfold hit, stop_touched, target_touched.
  destruct direction.
  - destruct (Py.ge (bar_high bar) stop); [reflexivity|].
    destruct (Py.le (bar_low bar) target); split; reflexivity.
  - destruct (Py.le (bar_low bar) stop); [reflexivity|].
    destruct (Py.ge (bar_high bar) target); split; reflexivity.
Qed.





End Simulation.

(** ** Trailing stops *)

Section Trailing.

Import SignalGenerator TrailingStopManager.

(** X23: rule 2 of [calculate_stop] is dead.  Rule 1 returns for every
    R-multiple that reaches the break-even threshold, so with
    [breakeven_threshold <= trail_start_threshold], as [__init__] sets them
    (1.0 and 1.5), no call returns the reason TRAILING or locks any profit:
    the stop is the entry once the break-even threshold is reached and the
    original stop before. *)
Theorem trailing_rule_unreachable (self : t) (signal : Signal) (price : Q) :
  breakeven_threshold self <= trail_start_threshold self ->
  let s := calculate_stop self signal price in
  st_reason s <> TRAILING
  /\ st_profit_locked s = 0
  /\ st_r_multiple s = r_multiple signal price
  /\ (st_reason s = BREAKEVEN <->
      breakeven_threshold self <= r_multiple signal price)
  /\ match st_reason s with
     | BREAKEVEN => st_stop_loss s = sg_entry signal
     | _ => st_stop_loss s = sg_stop_loss signal
     end.
Proof.
  intros Hth. cbn zeta. unfold calculate_stop.
  destruct (Py.ge (r_multiple signal price) (breakeven_threshold self)) eqn:G1.
  - apply Py_ge_iff in G1. cbn. repeat split; try discriminate; auto.
  - apply Py_ge_false_iff in G1.
    replace (Py.ge (r_multiple signal price) (trail_start_threshold self))
      with false
      by (symmetry; apply Py_ge_false_iff; lra).
    cbn. repeat split; try discriminate; auto.
    intros H. exfalso. lra.
Qed.

Lemma ge_div_iff (a b c : Q) : 0 < c -> (a <= b / c <-> a * c <= b).
Proof.
  intros Hc. split.
  - intros H. apply (Qmult_le_compat_r _ _ c) in H; [|lra].
    setoid_replace (b / c * c) with b in H by (field; lra). exact H.
  - intros H. apply Qle_shift_div_l; assumption.
Qed.

(** X24: when [should_take_profit] exits.  It says exit exactly when the
    price is at or beyond the target, or the risk is positive and the open
    profit is at least three times the risk; the reason is 3R_PROFIT_LOCK
    exactly in the second case without the first, and HOLD exactly when it
    says stay. *)
Theorem take_profit_threshold (signal : Signal) (price : Q) :
  let entry := sg_entry signal in
  let target := sg_target signal in
  let risk := sg_risk signal in
  let profit :=
    match sg_direction signal with
    | SHORT => entry - price
    | LONG => price - entry
    end in
  let beyond_target :=
    match sg_direction signal with
    | SHORT => price <= target
    | LONG => target <= price
    end in
  (fst (should_take_profit signal price) = true
   <-> beyond_target \/ (0 < risk /\ 3 * risk <= profit))
  /\ (snd (should_take_profit signal price) = PROFIT_LOCK_3R
      <-> ~ beyond_target /\ 0 < risk /\ 3 * risk <= profit)
  /\ (snd (should_take_profit signal price) = HOLD
      <-> fst (should_take_profit signal price) = false).
Proof.
  cbn zeta. unfold should_take_profit, r_multiple.
  assert (R : forall pl,
            Py.ge (if Py.gt (sg_risk signal) 0 then pl / sg_risk signal else 0) 3
            = true
            <-> 0 < sg_risk signal /\ 3 * sg_risk signal <= pl).
  { intros pl. destruct (Py.gt (sg_risk signal) 0) eqn:G.
    - apply Py_gt_iff in G. rewrite Py_ge_iff, (ge_div_iff _ _ G). tauto.
    - apply Py_gt_false_iff in G. split; [discriminate | intros [H _]; lra]. }
  destruct (sg_direction signal).
  - specialize (R (sg_entry signal - price)).
    destruct (Py.le price (sg_target signal)) eqn:T;
      [apply Py_le_iff in T | apply Py_le_false_iff in T].
    + cbn [fst snd]. repeat split; intros; try discriminate; auto;
        try (exfalso; tauto || lra).
    + destruct (Py.ge _ 3) eqn:G; cbn [fst snd].
      * destruct R as [R _]. specialize (R eq_refl).
        repeat split; intros; try discriminate; try tauto; try lra.
      * assert (N : ~ (0 < sg_risk signal
                       /\ 3 * sg_risk signal <= sg_entry signal - price))
          by (intros H; apply R in H; discriminate).
        repeat split; intros; try discriminate; try tauto; try lra;
          exfalso; tauto || lra.
  - specialize (R (price - sg_entry signal)).
    destruct (Py.ge price (sg_target signal)) eqn:T;
      [apply Py_ge_iff in T | apply Py_ge_false_iff in T].
    + cbn [fst snd]. repeat split; intros; try discriminate; auto;
        try (exfalso; tauto || lra).
    + destruct (Py.ge _ 3) eqn:G; cbn [fst snd].
      * destruct R as [R _]. specialize (R eq_refl).
        repeat split; intros; try discriminate; try tauto; try lra.
      * assert (N : ~ (0 < sg_risk signal
                       /\ 3 * sg_risk signal <= price - sg_entry signal))
          by (intros H; apply R in H; discriminate).
        repeat split; intros; try discriminate; try tauto; try lra;
          exfalso; tauto || lra.
Qed.

End Trailing.

(** ** Bar aggregation *)

Section Aggregating.

Import Aggregation.

Lemma flat_map_map {A B C : Type} (g : A -> B) (f : B -> list C) (l : list A) :
  flat_map f (map g l) = flat_map (fun x => f (g x)) l.
Proof.
  induction l as [|x tl IH]; [reflexivity|]. cbn. rewrite IH. reflexivity.
Qed.

Lemma flat_map_singletons {A B : Type} (d : B) (f : A -> list B) (l : list A) :
  (forall x, In x l -> List.length (f x) = 1%nat) ->
  flat_map f l = map (fun x => hd d (f x)) l.
Proof.
  induction l as [|x tl IH]; intros H; [reflexivity|].
  cbn [flat_map map]. rewrite IH by (intros y Hy; apply H; right; exact Hy).
  specialize (H x (or_introl eq_refl)).
  destruct (f x) as [|b [|c r]]; try discriminate. reflexivity.
Qed.

Lemma flat_map_nothing {A B : Type} (f : A -> list B) (l : list A) :
  (forall x, In x l -> f x = []) -> flat_map f l = [].
Proof.
  induction l as [|x tl IH]; intros H; [reflexivity|].
  cbn [flat_map]. rewrite (H x (or_introl eq_refl)).
  apply IH. intros y Hy. apply H. right. exact Hy.
Qed.

(** A loop over [0 .. c - 1] that appends one element up to [c1] and none
    afterwards. *)
Lemma flat_map_seq_prefix {B : Type} (d : B) (f : nat -> list B) (c1 c : nat) :
  (c1 <= c)%nat ->
  (forall k, (k < c1)%nat -> List.length (f k) = 1%nat) ->
  (forall k, (c1 <= k < c)%nat -> f k = []) ->
  flat_map f (seq 0 c) = map (fun k => hd d (f k)) (seq 0 c1).
Proof.
  intros Hc H1 H2.
  replace c with (c1 + (c - c1))%nat by lia.
  rewrite seq_app, flat_map_app.
  rewrite (flat_map_singletons d)
    by (intros k Hk; apply in_seq in Hk; apply H1; lia).
  rewrite flat_map_nothing
    by (intros k Hk; apply in_seq in Hk; apply H2; lia).
  apply app_nil_r.
Qed.

Lemma firstn_of_seq (a s c : nat) : firstn a (seq s c) = seq s (Nat.min a c).
Proof.
  revert s c. induction a as [|a IH]; intros s c; [reflexivity|].
  destruct c as [|c]; [reflexivity|]. cbn. f_equal. apply IH.
Qed.

Lemma slice_length {A : Type} (a b : nat) (l : list A) :
  List.length (Py.slice a b l) = Nat.min (b - a) (List.length l - a).
Proof. unfold Py.slice. rewrite length_firstn, length_skipn. reflexivity. Qed.

Lemma slice_firstn {A : Type} (a b m : nat) (l : list A) :
  (b <= m)%nat -> Py.slice a b (firstn m l) = Py.slice a b l.
Proof.
  intros H. unfold Py.slice. rewrite skipn_firstn_comm, firstn_firstn.
  f_equal. lia.
Qed.

Lemma agg_bar_some (chunk : list Bar) :
  chunk <> [] -> exists b, agg_bar chunk = Some b.
Proof.
  destruct chunk as [|x tl]; [contradiction|]. intros _. unfold agg_bar.
  destruct (Py.last_opt (x :: tl)) as [y|] eqn:E; [eexists; reflexivity|].
  unfold Py.last_opt in E. cbn [rev] in E.
  destruct (rev tl ++ [x]) eqn:R; [|discriminate].
  apply app_eq_nil in R. destruct R as [_ R]. discriminate.
Qed.

Lemma div_bounds (m p k : nat) :
  (1 <= p)%nat ->
  ((k < m / p)%nat -> (k * p + p <= m)%nat)
  /\ ((m / p <= k)%nat -> (m < k * p + p)%nat).
Proof.
  intros Hp. split; intros H.
  - pose proof (Nat.Div0.mul_div_le m p). nia.
  - pose proof (Nat.mul_succ_div_gt m p ltac:(lia)). nia.
Qed.

Lemma chunk_starts_inside (n p k : nat) :
  (1 <= p)%nat -> (k < (n + p - 1) / p)%nat -> (k * p < n)%nat.
Proof.
  intros Hp H. apply (div_bounds (n + p - 1) k Hp) in H. lia.
Qed.

(** [aggregate_to_timeframe]'s loop, chunk by chunk. *)
Lemma aggregate_chunks_map (d : Bar) (bars : list Bar) (p : nat) :
  (1 <= p)%nat ->
  aggregate_chunks bars p
  = map (fun k => hd d match agg_bar (Py.slice (k * p) (k * p + p) bars) with
                       | Some b => [b]
                       | None => []
                       end)
        (seq 0 ((List.length bars + p - 1) / p)).
Proof.
  intros Hp. unfold aggregate_chunks, chunks, range_step.
  rewrite map_map, flat_map_map.
  apply flat_map_singletons. intros k Hk. apply in_seq in Hk.
  assert (Hin : (k * p < List.length bars)%nat)
    by (apply chunk_starts_inside with (p := p); lia).
  destruct (@agg_bar_some (Py.slice (k * p) (k * p + p) bars)) as [b ->];
    [|reflexivity].
  intros E. pose proof (slice_length (k * p) (k * p + p) bars) as L.
  rewrite E in L. cbn [List.length] in L. lia.
Qed.

(** [_aggregate_bars]'s loop: the full chunks come first. *)
Lemma aggregate_full_chunks_map (d : Bar) (bars : list Bar) (p : nat) :
  (1 <= p)%nat ->
  aggregate_full_chunks bars p
  = map (fun k => hd d match agg_bar (Py.slice (k * p) (k * p + p) bars) with
                       | Some b => [b]
                       | None => []
                       end)
        (seq 0 (List.length bars / p)).
Proof.
  intros Hp. unfold aggregate_full_chunks, chunks, range_step.
  rewrite map_map, flat_map_map.
  set (n := List.length bars).
  rewrite (@flat_map_seq_prefix _ d _ (n / p) ((n + p - 1) / p)).
  - apply map_ext_in. intros k Hk. apply in_seq in Hk.
    destruct (div_bounds n k Hp) as [B _].
    rewrite slice_length. fold n.
    replace (Nat.min (k * p + p - k * p) (n - k * p)) with p by lia.
    rewrite Nat.eqb_refl. reflexivity.
  - apply Nat.Div0.div_le_mono. lia.
  - intros k Hk. destruct (div_bounds n k Hp) as [B _]. specialize (B Hk).
    rewrite slice_length. fold n.
    replace (Nat.min (k * p + p - k * p) (n - k * p)) with p by lia.
    rewrite Nat.eqb_refl.
    destruct (@agg_bar_some (Py.slice (k * p) (k * p + p) bars)) as [b ->];
      [|reflexivity].
    intros E. pose proof (slice_length (k * p) (k * p + p) bars) as L.
    rewrite E in L. cbn [List.length] in L. fold n in L. lia.
  - intros k Hk. destruct (div_bounds n k Hp) as [_ B].
    specialize (B (proj1 Hk)).
    rewrite slice_length. fold n.
    replace (Nat.min (k * p + p - k * p) (n - k * p) =? p)%nat with false;
      [reflexivity|].
    symmetry. apply Nat.eqb_neq. lia.
Qed.

(** X26: the two aggregations agree, and the backtest's higher timeframe
    does not look ahead.  For a period of at least 1 and any prefix of [m]
    bars, the first [m // periods] bars of
    [Backtester.aggregate_to_timeframe(bars, periods)], which is what
    [run_backtest] hands to the generator, are exactly what
    [_aggregate_bars] of the live system builds from those [m] bars alone;
    this includes the case of fewer bars than one period, where the first
    function returns its input and the second the empty list. *)
Theorem aggregate_bars_is_prefix (bars : list Bar) (p m : nat) :
  (1 <= p)%nat -> (m <= List.length bars)%nat ->
  _aggregate_bars (firstn m bars) p
  = option_map (firstn (m / p)) (aggregate_to_timeframe bars p).
Proof.
  intros Hp Hm. unfold _aggregate_bars, aggregate_to_timeframe.
  assert (Lm : List.length (firstn m bars) = m)
    by (rewrite length_firstn; lia).
  rewrite Lm.
  destruct (Nat.ltb_spec m p) as [Hlt | Hge].
  - rewrite (Nat.div_small m p Hlt).
    destruct (List.length bars <? p)%nat; [reflexivity|].
    destruct p; [lia | reflexivity].
  - replace (List.length bars <? p)%nat with false
      by (symmetry; apply Nat.ltb_ge; lia).
    destruct p as [|p']; [lia|]. cbn [option_map]. f_equal.
    set (d := mkBar 0 0 0 0 0 0).
    rewrite (aggregate_full_chunks_map d _ Hp), (aggregate_chunks_map d _ Hp).
    rewrite Lm, firstn_map, firstn_of_seq.
    replace (Nat.min (m / S p') ((List.length bars + S p' - 1) / S p'))
      with (m / S p')%nat
      by (symmetry; apply Nat.min_l, Nat.Div0.div_le_mono; lia).
    apply map_ext_in. intros k Hk. apply in_seq in Hk.
    destruct (div_bounds m k Hp) as [B _].
    rewrite slice_firstn by (apply B; lia). reflexivity.
Qed.

Lemma nth_error_seq0 (c k x : nat) :
  nth_error (seq 0 c) k = Some x -> x = k /\ (k < c)%nat.
Proof.
  intros H.
  assert (L : (k < c)%nat).
  { rewrite <- (length_seq c 0). apply nth_error_Some. rewrite H. discriminate. }
  split; [|exact L].
  apply nth_error_nth with (d := 0%nat) in H.
  rewrite seq_nth in H by exact L. lia.
Qed.

(** X25: the bars of [aggregate_to_timeframe].  With
    [1 <= periods <= len(bars)] the call returns one bar for each started
    chunk of [periods] bars, the last and shorter one included; the k-th bar
    has the time and open of the chunk's first bar, the close of its last
    bar, the summed volume, and its high and low are the highest high and
    the lowest low of the chunk, each attained by one of its bars. *)
Theorem aggregate_to_timeframe_bars (bars : list Bar) (p : nat) :
  (1 <= p)%nat -> (p <= List.length bars)%nat ->
  exists out,
    aggregate_to_timeframe bars p = Some out
    /\ List.length out = ((List.length bars + p - 1) / p)%nat
    /\ forall k b, nth_error out k = Some b ->
         let chunk := Py.slice (k * p) (k * p + p) bars in
         exists first last,
           nth_error bars (k * p) = Some first
           /\ Py.last_opt chunk = Some last
           /\ bar_time b = bar_time first
           /\ bar_open b = bar_open first
           /\ bar_close b = bar_close last
           /\ bar_volume b = sum (map bar_volume chunk)
           /\ (forall x, In x chunk ->
                 bar_low b <= bar_low x /\ bar_high x <= bar_high b)
           /\ (exists x, In x chunk /\ bar_high x = bar_high b)
           /\ (exists x, In x chunk /\ bar_low x = bar_low b).
Proof.
  intros Hp Hn. unfold aggregate_to_timeframe.
  replace (List.length bars <? p)%nat with false
    by (symmetry; apply Nat.ltb_ge; exact Hn).
  destruct p as [|p']; [lia|].
  set (p := S p') in *. set (d := mkBar 0 0 0 0 0 0).
  exists (aggregate_chunks bars p). split; [reflexivity|].
  rewrite (aggregate_chunks_map d _ Hp). split.
  - rewrite length_map, length_seq. reflexivity.
  - intros k b H. cbn zeta. rewrite nth_error_map in H.
    destruct (nth_error (seq 0 _) k) as [k'|] eqn:E; [|discriminate].
    apply nth_error_seq0 in E. destruct E as [-> Hk].
    cbn [option_map] in H. injection H as H.
    assert (Hin : (k * p < List.length bars)%nat)
      by (apply chunk_starts_inside with (p := p); assumption).
    pose proof (slice_nth_error (k * p) (k * p + p) bars 0) as N0.
    replace (0 <? k * p + p - k * p)%nat with true in N0
      by (symmetry; apply Nat.ltb_lt; lia).
    rewrite Nat.add_0_r in N0.
    unfold agg_bar in H.
    destruct (Py.slice (k * p) (k * p + p) bars) as [|first rest] eqn:C.
    { exfalso. pose proof (slice_length (k * p) (k * p + p) bars) as L.
      rewrite C in L. cbn [List.length] in L. lia. }
    destruct (Py.last_opt (first :: rest)) as [last|] eqn:La.
    2:{ exfalso. unfold Py.last_opt in La. cbn [rev] in La.
        destruct (rev rest ++ [first]) eqn:R; [|discriminate].
        apply app_eq_nil in R. destruct R as [_ R]. discriminate. }
    cbn [hd] in H. subst b.
    cbn [bar_time bar_open bar_high bar_low bar_close bar_volume].
    exists first, last. cbn [nth_error] in N0.
    split; [symmetry; exact N0|]. split; [reflexivity|].
    split; [reflexivity|]. split; [reflexivity|]. split; [reflexivity|].
    split; [reflexivity|]. split; [|split].
    + intros x Hx. split.
      * apply min_list_lb. change (In (bar_low x) (map bar_low (first :: rest))).
        apply in_map. exact Hx.
      * apply max_list_ub. change (In (bar_high x) (map bar_high (first :: rest))).
        apply in_map. exact Hx.
    + pose proof (max_list_in (map bar_high rest) (bar_high first)) as M.
      change (In (Py.max_list (bar_high first) (map bar_high rest))
                 (map bar_high (first :: rest))) in M.
      apply in_map_iff in M. destruct M as (x & Ex & Hx). exists x. auto.
    + pose proof (min_list_in (map bar_low rest) (bar_low first)) as M.
      change (In (Py.min_list (bar_low first) (map bar_low rest))
                 (map bar_low (first :: rest))) in M.
      apply in_map_iff in M. destruct M as (x & Ex & Hx). exists x. auto.
Qed.

End Aggregating.

(** ** The backtest loop *)

Section Backtest.

Import SignalGenerator PositionSizer Backtester BacktestLoop.

Variables (cal : Calendar) (w : World) (inst : Instrument).
Variables (ltf_bars htf_bars_15m : list Bar).

Lemma running_capital_snoc (c : Q) (pnls : list Q) (p x : Q) :
  Py.last_opt (running_capital c pnls) = Some x ->
  running_capital c (pnls ++ [p]) = running_capital c pnls ++ [x + p].
Proof.
  revert c. induction pnls as [|q tl IH]; intros c H.
  - cbn in H. injection H as <-. reflexivity.
  - cbn [app running_capital]. rewrite (IH (c + q)); [reflexivity|].
    cbn [running_capital] in H.
    change (c :: running_capital (c + q) tl)
      with ([c] ++ running_capital (c + q) tl) in H.
    destruct (running_capital (c + q) tl) as [|y r] eqn:E.
    + destruct tl; discriminate E.
    + rewrite <- H. unfold Py.last_opt. rewrite rev_app_distr.
      cbn [rev app]. destruct (rev r ++ [y]) eqn:R; [|reflexivity].
      apply app_eq_nil in R. destruct R as [_ R]. discriminate.
Qed.

Lemma running_capital_length (c : Q) (pnls : list Q) :
  List.length (running_capital c pnls) = S (List.length pnls).
Proof.
  revert c. induction pnls as [|q tl IH]; intros c; [reflexivity|].
  cbn [running_capital List.length]. rewrite IH. reflexivity.
Qed.

(** What one step does: nothing to the books, or one booked trade. *)
Lemma step_cases (self : t) (found i : nat) :
  let r := step cal w inst ltf_bars htf_bars_15m (self, found) i in
  (found <= snd r <= S found)%nat
  /\ symbol (fst r) = symbol self
  /\ initial_capital (fst r) = initial_capital self
  /\ ((capital (fst r) = capital self
       /\ position_sizer (fst r) = position_sizer self
       /\ trades (fst r) = trades self
       /\ equity_curve (fst r) = equity_curve self)
      \/ (snd r = S found
          /\ exists signal position_size,
               fst (check_for_signal cal w (signal_generator self)
                      (fst (windows ltf_bars htf_bars_15m i))
                      (snd (windows ltf_bars htf_bars_15m i)) (min_tick inst))
               = Some signal
               /\ calculate_position_size (position_sizer self) (symbol self)
                    (sg_entry signal) (sg_stop_loss signal) (tick_value inst)
                    (1 # 4) = Py.Ok position_size
               /\ validate_position (position_sizer self) position_size = true
               /\ fst r
                  = book (set_signal_generator self
                            (snd (check_for_signal cal w (signal_generator self)
                                    (fst (windows ltf_bars htf_bars_15m i))
                                    (snd (windows ltf_bars htf_bars_15m i))
                                    (min_tick inst))))
                         (simulate_trade signal position_size
                            (skipn i ltf_bars)))).
Proof.
  cbn zeta. unfold step.
  destruct (windows ltf_bars htf_bars_15m i) as [lw hw]. cbn [fst snd].
  destruct (check_for_signal cal w (signal_generator self) lw hw (min_tick inst))
    as [[signal|] g]; cbn [fst snd set_signal_generator symbol position_sizer].
  2:{ repeat split; try lia. left. repeat split. }
  destruct (calculate_position_size _ _ _ _ _ _) as [ps|e] eqn:E;
    cbn [fst snd].
  2:{ repeat split; try lia. left. repeat split. }
  destruct (validate_position (position_sizer self) ps) eqn:V; cbn [fst snd].
  2:{ repeat split; try lia. left. repeat split. }
  repeat split; try lia. right. split; [reflexivity|].
  exists signal, ps. repeat split; assumption.
Qed.

Lemma simulate_trade_books (signal : Signal) (position_size : PositionSize)
    (future_bars : list Bar) :
  let t := simulate_trade signal position_size future_bars in
  tr_contracts t = ps_contracts position_size
  /\ (tr_result t = LOSS -> tr_pnl t = - ps_total_risk_dollars position_size)
  /\ (tr_result t = BREAKEVEN -> tr_pnl t = 0).
Proof.
  cbn zeta. unfold simulate_trade.
  destruct (first_hit _ _ _ _) as [[bar [| |]]|]; cbn;
    repeat split; intros; try discriminate; reflexivity.
Qed.

Lemma last_opt_nth_error {A : Type} (l : list A) (x : A) :
  Py.last_opt l = Some x -> nth_error l (List.length l - 1) = Some x.
Proof.
  destruct (rev l) as [|y tl] eqn:E; unfold Py.last_opt; rewrite E;
    [discriminate|].
  intros H. injection H as <-.
  assert (L : l = rev tl ++ [y]).
  { rewrite <- (rev_involutive l), E. reflexivity. }
  rewrite L, length_app. cbn [List.length].
  rewrite nth_error_app2 by lia.
  replace (List.length (rev tl) + 1 - 1 - List.length (rev tl))%nat with 0%nat by lia.
  reflexivity.
Qed.

Lemma book_balanced (c0 : Q) (self : t) (result : Trade) :
  books_balanced c0 self -> books_balanced c0 (book self result).
Proof.
  intros (E & L & A & R & M). unfold books_balanced, book.
  cbn [equity_curve trades capital position_sizer update_account_size
       account_size risk_per_trade max_risk_dollars].
  split; [|split; [apply last_opt_snoc | split; [reflexivity | split;
    [exact R | rewrite R; reflexivity]]]].
  rewrite map_app. cbn [map].
  rewrite (@running_capital_snoc c0 _ (tr_pnl result) (capital self));
    [rewrite <- E; reflexivity | rewrite <- E; exact L].
Qed.

Lemma books_unchanged (c0 : Q) (self self' : t) :
  capital self' = capital self -> position_sizer self' = position_sizer self ->
  trades self' = trades self -> equity_curve self' = equity_curve self ->
  books_balanced c0 self -> books_balanced c0 self'.
Proof.
  unfold books_balanced. intros -> -> -> ->. auto.
Qed.

Lemma step_balanced (c0 : Q) (self : t) (found i : nat) :
  books_balanced c0 self ->
  books_balanced c0 (fst (step cal w inst ltf_bars htf_bars_15m (self, found) i)).
Proof.
  intros B.
  destruct (step_cases self found i) as (_ & _ & _ & [(C & P & T & E) | (_ & H)]).
  - apply (@books_unchanged c0 self _ C P T E B).
  - destruct H as (signal & ps & _ & _ & _ & ->).
    apply book_balanced.
    apply (@books_unchanged c0 self _ eq_refl eq_refl eq_refl eq_refl B).
Qed.

Lemma step_bounded (c0 : Q) (self : t) (found i : nat) :
  books_balanced c0 self -> losses_bounded self ->
  losses_bounded (fst (step cal w inst ltf_bars htf_bars_15m (self, found) i)).
Proof.
  intros (E & L & A & R & M) LB.
  destruct (step_cases self found i) as (_ & _ & _ & [(C & P & T & Q) | (_ & H)]).
  - unfold losses_bounded. rewrite T, Q. exact LB.
  - destruct H as (signal & ps & _ & Hps & V & ->).
    unfold losses_bounded, book.
    cbn [trades equity_curve capital set_signal_generator].
    assert (Len : List.length (equity_curve self) = S (List.length (trades self))).
    { rewrite E, running_capital_length, length_map. reflexivity. }
    intros k t Hk.
    destruct (Nat.lt_ge_cases k (List.length (trades self))) as [Hlt | Hge].
    + rewrite nth_error_app1 in Hk by exact Hlt.
      rewrite nth_error_app1 by lia. apply LB. exact Hk.
    + rewrite nth_error_app2 in Hk by exact Hge.
      destruct (k - List.length (trades self))%nat as [|j] eqn:Ek;
        [|destruct j; discriminate].
      cbn [nth_error] in Hk. injection Hk as <-.
      assert (k = List.length (trades self)) by lia. subst k.
      exists (capital self). split.
      { rewrite nth_error_app1 by lia.
        replace (List.length (trades self))
          with (List.length (equity_curve self) - 1)%nat by lia.
        apply last_opt_nth_error. exact L. }
      destruct (simulate_trade_books signal ps (skipn i ltf_bars)) as (Ct & Lo & Be).
      unfold validate_position in V.
      destruct (Py.gt (ps_total_risk_dollars ps)
                  (max_risk_dollars (position_sizer self) * (11 # 10))) eqn:G;
        [discriminate|].
      destruct (ps_contracts ps <? 1)%Z eqn:Cn; [discriminate|].
      apply Z.ltb_ge in Cn. apply Py_gt_false_iff in G. rewrite M in G.
      split; [rewrite Ct; exact Cn|]. split; [|exact Be].
      intros Hl. rewrite (Lo Hl). lra.
Qed.

Lemma scan_invariant (c0 : Q) (idx : list nat) :
  forall (self : t) (found : nat),
    books_balanced c0 self -> losses_bounded self ->
    (List.length (trades self) <= found)%nat ->
    let r := fold_left (step cal w inst ltf_bars htf_bars_15m) idx (self, found) in
    books_balanced c0 (fst r) /\ losses_bounded (fst r)
    /\ (List.length (trades (fst r)) <= snd r <= found + List.length idx)%nat
    /\ symbol (fst r) = symbol self
    /\ initial_capital (fst r) = initial_capital self.
Proof.
  induction idx as [|i rest IH]; intros self found B LB Hf.
  - cbn [fold_left fst snd List.length].
    split; [exact B|]. split; [exact LB|]. split; [lia|]. split; reflexivity.
  - cbn [fold_left].
    pose proof (@step_balanced c0 self found i B) as B'.
    pose proof (@step_bounded c0 self found i B LB) as LB'.
    destruct (step_cases self found i) as (Hn & Hs & Hi & Hc).
    destruct (step cal w inst ltf_bars htf_bars_15m (self, found) i)
      as [self' found'] eqn:E. cbn [fst snd] in *.
    assert (Hf' : (List.length (trades self') <= found')%nat).
    { destruct Hc as [(_ & _ & T & _) | (Hn' & signal & ps & _ & _ & _ & Hb)].
      - rewrite T. lia.
      - rewrite Hb. unfold book. cbn [trades set_signal_generator].
        rewrite length_app. cbn [List.length]. lia. }
    destruct (IH self' found' B' LB' Hf') as (P1 & P2 & P3 & P4 & P5).
    cbn zeta in *. cbn [List.length].
    split; [exact P1|]. split; [exact P2|]. split; [lia|].
    split; [rewrite P4; exact Hs | rewrite P5; exact Hi].
Qed.

End Backtest.

Section BacktestRun.

Import SignalGenerator PositionSizer Backtester BacktestLoop.

Lemma init_balanced (symbol : string) (cfg : Config) (c0 : Q) :
  books_balanced c0 (init symbol cfg c0) /\ losses_bounded (init symbol cfg c0).
Proof.
  split.
  - unfold books_balanced. cbn. repeat split.
  - intros k t H. cbn in H. destruct k; discriminate.
Qed.

(** X27: the books of the backtest.  After [run_backtest], from a new
    backtester with capital [c0], the equity curve is [c0] followed by the
    capital after each booked trade in order, it ends with the current
    capital and has one entry more than there are trades; the position sizer
    works on the current capital, with [max_risk_dollars] 0.5% of it; and no
    more trades are booked than signals were found, nor more signals found
    than indices from 100 on were visited. *)
Theorem run_backtest_books (cal : Calendar) (w : World) (inst : Instrument)
    (ltf_bars : list Bar) (symbol : string) (cfg : Config) (c0 : Q) :
  let r := run_backtest cal w inst ltf_bars (init symbol cfg c0) in
  let s := fst r in
  equity_curve s = running_capital c0 (map tr_pnl (trades s))
  /\ Py.last_opt (equity_curve s) = Some (capital s)
  /\ List.length (equity_curve s) = S (List.length (trades s))
  /\ account_size (position_sizer s) = capital s
  /\ max_risk_dollars (position_sizer s) = capital s * (5 # 1000)
  /\ (List.length (trades s) <= snd r <= List.length ltf_bars - 100)%nat.
Proof.
  cbn zeta. unfold run_backtest, scan.
  destruct (init_balanced symbol cfg c0) as [B LB].
  match goal with
  | |- context [fold_left (step cal w inst ltf_bars ?h) ?idx ?st] =>
      destruct (@scan_invariant cal w inst ltf_bars h c0 idx
                  (init symbol cfg c0) 0 B LB (Nat.le_0_l _))
        as ((E & L & A & R & M) & _ & C & _)
  end.
  cbn zeta in *. rewrite length_seq in C.
  repeat split; try assumption; try lia.
  rewrite E, running_capital_length, length_map. reflexivity.
Qed.


End BacktestRun.

Section SignalBar.

Import SignalGenerator PositionSizer Backtester BacktestLoop.

Lemma last_opt_firstn_succ {A : Type} (l : list A) (i : nat) (x : A) :
  nth_error l i = Some x -> Py.last_opt (firstn (i + 1) l) = Some x.
Proof.
  revert l. induction i as [|i IH]; intros l H.
  - destruct l as [|y tl]; [discriminate|]. cbn in H. injection H as <-.
    reflexivity.
  - destruct l as [|y tl]; [discriminate|]. cbn [nth_error] in H.
    specialize (IH tl H). cbn [Nat.add firstn].
    change (y :: firstn (i + 1) tl) with ([y] ++ firstn (i + 1) tl).
    apply last_opt_app_r. exact IH.
Qed.

Lemma skipn_nth_error {A : Type} (l : list A) (i : nat) (x : A) :
  nth_error l i = Some x -> skipn i l = x :: skipn (S i) l.
Proof.
  revert l. induction i as [|i IH]; intros l H.
  - destruct l; [discriminate|]. cbn in H. injection H as <-. reflexivity.
  - destruct l; [discriminate|]. cbn [nth_error] in H. cbn [skipn].
    apply IH. exact H.
Qed.

(** A trade simulated on bars that start with a bar touching the stop, or
    the target only, is closed on that bar. *)
Lemma simulate_trade_first_bar (signal : Signal) (position_size : PositionSize)
    (bar : Bar) (rest : list Bar) :
  let t := simulate_trade signal position_size (bar :: rest) in
  (stop_touched (sg_direction signal) (sg_stop_loss signal) bar = true ->
   tr_result t = LOSS /\ tr_bars_held t = 1%nat)
  /\ (stop_touched (sg_direction signal) (sg_stop_loss signal) bar = false ->
      target_touched (sg_direction signal) (sg_target signal) bar = true ->
      tr_result t = WIN /\ tr_bars_held t = 1%nat).
Proof.
  cbn zeta. unfold simulate_trade. cbn [List.length Nat.min firstn first_hit].
  pose proof (hit_cases (sg_direction signal) (sg_stop_loss signal)
                (sg_target signal) bar) as C.
  destruct (hit (sg_direction signal) (sg_stop_loss signal)
              (sg_target signal) bar);
    cbn [tr_result tr_bars_held index]; rewrite ?bar_eqb_refl; split.
  - intros _. split; reflexivity.
  - intros H. rewrite H in C. discriminate.
  - intros H. destruct C as [C _]. rewrite H in C. discriminate.
  - intros _ _. split; reflexivity.
  - intros H. destruct C as [C _]. rewrite H in C. discriminate.
  - intros _ H. destruct C as [_ C]. rewrite H in C. discriminate.
Qed.

(** X29: the simulation starts on the signal bar.  When the step at index
    [i] books a trade, the signal came from the window ending at bar [i], its
    time and entry are that bar's time and close, and the trade is simulated
    on [ltf_bars[i:]], which begins with that same bar: if the signal bar's
    own range touches the stop the trade is booked as a LOSS held one bar,
    and if it touches only the target as a WIN held one bar. *)
Theorem booked_trade_starts_on_signal_bar (cal : Calendar) (w : World)
    (inst : Instrument) (ltf_bars htf_bars_15m : list Bar) (self : t)
    (found i : nat) :
  (i < List.length ltf_bars)%nat ->
  let r := step cal w inst ltf_bars htf_bars_15m (self, found) i in
  trades (fst r) <> trades self ->
  exists signal t bar,
    fst (check_for_signal cal w (signal_generator self)
           (fst (windows ltf_bars htf_bars_15m i))
           (snd (windows ltf_bars htf_bars_15m i)) (min_tick inst))
    = Some signal
    /\ trades (fst r) = trades self ++ [t]
    /\ nth_error ltf_bars i = Some bar
    /\ sg_time signal = bar_time bar
    /\ sg_entry signal = bar_close bar
    /\ tr_time t = bar_time bar
    /\ tr_entry t = bar_close bar
    /\ tr_direction t = sg_direction signal
    /\ (stop_touched (sg_direction signal) (sg_stop_loss signal) bar = true ->
        tr_result t = LOSS /\ tr_bars_held t = 1%nat)
    /\ (stop_touched (sg_direction signal) (sg_stop_loss signal) bar = false ->
        target_touched (sg_direction signal) (sg_target signal) bar = true ->
        tr_result t = WIN /\ tr_bars_held t = 1%nat).
Proof.
  intros Hi. cbn zeta. intros Hne.
  destruct (step_cases cal w inst ltf_bars htf_bars_15m self found i)
    as (_ & _ & _ & [(_ & _ & T & _) | (_ & H)]); [contradiction|].
  destruct H as (signal & ps & Hsig & _ & _ & Hb).
  destruct (nth_error ltf_bars i) as [bar|] eqn:Hbar;
    [|apply nth_error_None in Hbar; lia].
  pose proof (@returned_signal_shape cal w (signal_generator self) _ _ _ _ Hsig)
    as (_ & _ & (bar' & Hlast & Ht & He) & _).
  assert (bar' = bar).
  { unfold windows in Hlast. cbn [fst] in Hlast.
    apply last_opt_of_last_n in Hlast.
    rewrite (last_opt_firstn_succ _ _ Hbar) in Hlast. congruence. }
  subst bar'.
  exists signal, (simulate_trade signal ps (skipn i ltf_bars)), bar.
  split; [exact Hsig|]. split; [rewrite Hb; reflexivity|].
  split; [reflexivity|]. split; [exact Ht|]. split; [exact He|].
  rewrite (skipn_nth_error _ _ Hbar).
  pose proof (simulate_trade_first_bar signal ps bar (skipn (S i) ltf_bars)) as F.
  cbn zeta in F.
  assert (Copy : forall fut,
            tr_time (simulate_trade signal ps fut) = sg_time signal
            /\ tr_entry (simulate_trade signal ps fut) = sg_entry signal
            /\ tr_direction (simulate_trade signal ps fut) = sg_direction signal).
  { intros fut. unfold simulate_trade.
    destruct (first_hit _ _ _ _) as [[b [| |]]|]; cbn; auto. }
  destruct (Copy (bar :: skipn (S i) ltf_bars)) as (C1 & C2 & C3).
  split; [rewrite C1; exact Ht|]. split; [rewrite C2; exact He|].
  split; [exact C3|]. exact F.
Qed.

End SignalBar.

(** ** The properties on concrete inputs *)

(** X1 on the first 20 bars of the first scenario. *)
Lemma identify_swings_scenario :
  let bars := Py.but_last Scenario.ltf_first in
  let self := LiquiditySweepDetector.init 3 1 in
  let d := LiquiditySweepDetector.identify_swings self bars 20 in
  (forall s, In s (LiquiditySweepDetector.swing_highs d) ->
     strict_high (LiquiditySweepDetector.min_swing_candles self) bars s)
  /\ (forall s, In s (LiquiditySweepDetector.swing_lows d) ->
        strict_low (LiquiditySweepDetector.min_swing_candles self) bars s).
Proof.
  cbv zeta.
  apply (@identify_swings_strict_extrema (LiquiditySweepDetector.init 3 1)
           (Py.but_last Scenario.ltf_first) 20).
  vm_compute. apply le_n.
Defined.

(** X2 on the generator as the first call of the first scenario leaves it,
    followed by the call on the longer window. *)
Lemma swings_never_refreshed_scenario :
  let self :=
    snd (SignalGenerator.check_for_signal Scenario.opening_bell Scenario.calm
           (SignalGenerator.init Scenario.baseline)
           Scenario.ltf_first Scenario.htf Scenario.min_tick) in
  Forall (fun s => SignalGenerator.sweep_detector s
                   = SignalGenerator.sweep_detector self)
         (SignalGenerator.trace Scenario.opening_bell Scenario.calm self
            [ (Scenario.ltf_resweep, Scenario.htf, Scenario.min_tick);
              (Scenario.ltf_reversal, Scenario.htf, Scenario.min_tick) ]).
Proof.
  cbv zeta. apply swings_never_refreshed.
  left. vm_compute. discriminate.
Defined.

(** X3 on a new generator and the first 20 bars of the first scenario. *)
Lemma no_signal_on_20_bars :
  SignalGenerator.check_for_signal Scenario.opening_bell Scenario.calm
    (SignalGenerator.init Scenario.baseline)
    (firstn 20 Scenario.ltf_first) Scenario.htf Scenario.min_tick
  = (None, SignalGenerator.init Scenario.baseline).
Proof.
  apply no_signal_below_21_bars.
  - reflexivity.
  - reflexivity.
  - reflexivity.
  - left. vm_compute. lia.
Defined.

(** X4 on the last bar of the first scenario. *)
Lemma detect_sweep_scenario :
  let self := LiquiditySweepDetector.init 3 1 in
  let bar := mkBar 20 1000 1011 997 998 0 in
  let previous := Py.but_last Scenario.ltf_first in
  let r := LiquiditySweepDetector.detect_sweep self bar previous Scenario.min_tick in
  exists s,
    fst r = Some s
    /\ LiquiditySweepDetector.sw_time s = bar_time bar
    /\ LiquiditySweepDetector.sw_close s = bar_close bar
    /\ match LiquiditySweepDetector.sw_type s with
       | LiquiditySweepDetector.buyside_sweep =>
           LiquiditySweepDetector.sw_extreme s = bar_high bar
           /\ option_map LiquiditySweepDetector.swing_price
                (Py.last_opt (LiquiditySweepDetector.swing_highs (snd r)))
              = Some (LiquiditySweepDetector.sw_swing_level s)
           /\ LiquiditySweepDetector.sw_swing_level s
              + inject_Z (LiquiditySweepDetector.sweep_buffer_ticks (snd r))
                * Scenario.min_tick
              <= LiquiditySweepDetector.sw_extreme s
           /\ LiquiditySweepDetector.sw_close s
              < LiquiditySweepDetector.sw_swing_level s
       | LiquiditySweepDetector.sellside_sweep =>
           LiquiditySweepDetector.sw_extreme s = bar_low bar
           /\ option_map LiquiditySweepDetector.swing_price
                (Py.last_opt (LiquiditySweepDetector.swing_lows (snd r)))
              = Some (LiquiditySweepDetector.sw_swing_level s)
           /\ LiquiditySweepDetector.sw_extreme s
              <= LiquiditySweepDetector.sw_swing_level s
                 - inject_Z (LiquiditySweepDetector.sweep_buffer_ticks (snd r))
                   * Scenario.min_tick
           /\ LiquiditySweepDetector.sw_swing_level s
              < LiquiditySweepDetector.sw_close s
       end.
Proof.
  cbv zeta. eexists. split; [vm_compute; reflexivity|].
  apply (@detect_sweep_geometry (LiquiditySweepDetector.init 3 1)
           (mkBar 20 1000 1011 997 998 0) (Py.but_last Scenario.ltf_first)
           Scenario.min_tick).
  vm_compute. reflexivity.
Defined.

(** X10 on two unfilled gaps and a bar that taps them. *)
Lemma check_delivery_scenario :
  let fvgs := [Scenario.gap 0; Scenario.gap 0] in
  exists d,
    fst (HTFFVGDetector.check_delivery 20 fvgs Scenario.tap) = Some d
    /\ HTFFVGDetector.dl_delivery_confirmed d = true
    /\ HTFFVGDetector.dl_delivery_time d = bar_time Scenario.tap
    /\ In (HTFFVGDetector.dl_fvg d)
          (snd (HTFFVGDetector.check_delivery 20 fvgs Scenario.tap))
    /\ HTFFVGDetector.fvg_filled (HTFFVGDetector.dl_fvg d) = false
    /\ match HTFFVGDetector.fvg_type (HTFFVGDetector.dl_fvg d) with
       | HTFFVGDetector.bearish =>
           HTFFVGDetector.dl_direction d = SHORT
           /\ HTFFVGDetector.fvg_bottom (HTFFVGDetector.dl_fvg d)
              <= bar_high Scenario.tap
           /\ bar_close Scenario.tap
              < HTFFVGDetector.fvg_bottom (HTFFVGDetector.dl_fvg d)
       | HTFFVGDetector.bullish =>
           HTFFVGDetector.dl_direction d = LONG
           /\ bar_low Scenario.tap
              <= HTFFVGDetector.fvg_top (HTFFVGDetector.dl_fvg d)
           /\ HTFFVGDetector.fvg_top (HTFFVGDetector.dl_fvg d)
              < bar_close Scenario.tap
       end.
Proof.
  cbv zeta. eexists. split; [vm_compute; reflexivity|].
  apply (@check_delivery_sound 20 [Scenario.gap 0; Scenario.gap 0] Scenario.tap).
  vm_compute. reflexivity.
Defined.

(** X12 on the window with a run of ten candles. *)
Lemma detect_cisd_scenario :
  exists c,
    CISDDetector.detect_cisd Scenario.cisd_window 15 SHORT = Some c
    /\ CISDDetector.cisd_direction c = SHORT
    /\ (10 <= List.length Scenario.cisd_window)%nat
    /\ (exists s j,
          CISDDetector.find_sweep_index 0 Scenario.cisd_window 15 = Some s
          /\ (5 <= s)%nat /\ (1 <= j <= 9)%nat /\ (j < s)%nat
          /\ nth_error Scenario.cisd_window (s - j)
             = Some (CISDDetector.cisd_first_candle c))
    /\ same_direction_close SHORT (CISDDetector.cisd_first_candle c) = true
    /\ CISDDetector.cisd_level c = bar_open (CISDDetector.cisd_first_candle c)
    /\ (exists last, Py.last_opt Scenario.cisd_window = Some last
                     /\ CISDDetector.cisd_current_close c = bar_close last
                     /\ CISDDetector.cisd_time c = bar_time last)
    /\ breaks_level SHORT (CISDDetector.cisd_current_close c)
         (CISDDetector.cisd_level c) = true.
Proof.
  eexists. split; [vm_compute; reflexivity|].
  apply (@detect_cisd_sound Scenario.cisd_window 15 SHORT).
  vm_compute. reflexivity.
Defined.

(** X14 on a new filter, a download of 12 and a second call at the same
    clock reading. *)
Lemma vix_cache_scenario :
  let self := VolatilityFilter.init 20 in
  let s1 := snd (VolatilityFilter.get_current_vix Scenario.calm self) in
  fst (VolatilityFilter.get_current_vix Scenario.calm self) = Some 12
  /\ VolatilityFilter.cached_vix s1 = Some 12
  /\ fst (VolatilityFilter.get_current_vix Scenario.stormy s1) = Some 12.
Proof.
  cbv zeta.
  destruct (@vix_cache_round_trip Scenario.calm (VolatilityFilter.init 20)
              eq_refl) as [H _].
  destruct (H 12 eq_refl) as (A & B & _ & _).
  split; [exact A|]. split; [exact B|]. vm_compute. reflexivity.
Defined.

(** X15 on a new filter with the default limit of 20 and with a limit of
    14, when the download fails. *)
Lemma vix_unavailable_scenario :
  let failing : World := fun _ => {| vr_now := 0; vr_fetch := FetchFails |} in
  fst (VolatilityFilter.is_favorable_volatility failing (VolatilityFilter.init 20))
  = (false, VolatilityFilter.HIGH_VOL_UNFAVORABLE, 20 + 1)
  /\ fst (VolatilityFilter.is_favorable_volatility failing (VolatilityFilter.init 14))
     = (true, VolatilityFilter.LOW_VOL_OPTIMAL, 14 + 1).
Proof.
  cbv zeta. split.
  - refine (proj1 (proj2 (@vix_unavailable_verdict
                            (fun _ => {| vr_now := 0; vr_fetch := FetchFails |})
                            (VolatilityFilter.init 20) eq_refl) eq_refl) _).
    reflexivity.
  - refine (proj2 (proj2 (@vix_unavailable_verdict
                            (fun _ => {| vr_now := 0; vr_fetch := FetchFails |})
                            (VolatilityFilter.init 14) eq_refl) eq_refl) _).
    vm_compute. discriminate.
Defined.

(** X18 on the scenario in which one call finds all four confirmations. *)
Lemma returned_signal_scenario :
  let self := SignalGenerator.init Scenario.baseline in
  let r := SignalGenerator.check_for_signal Scenario.opening_bell Scenario.calm
             self Scenario.ltf_single Scenario.htf Scenario.min_tick in
  exists sig,
    fst r = Some sig
    /\ (exists bar, Py.last_opt Scenario.ltf_single = Some bar
                    /\ SignalGenerator.sg_time sig = bar_time bar
                    /\ SignalGenerator.sg_entry sig = bar_close bar)
    /\ (exists sweep,
          SignalGenerator.cs_sweep (SignalGenerator.sg_confirmations sig)
          = Some sweep
          /\ SignalGenerator.sg_direction sig
             = LiquiditySweepDetector.sw_direction sweep)
    /\ SignalGenerator.sg_risk sig
       = Qabs (SignalGenerator.sg_entry sig - SignalGenerator.sg_stop_loss sig)
    /\ 0 <= SignalGenerator.sg_risk_reward_ratio sig
    /\ SignalGenerator.confirmation_state (snd r) = SignalGenerator.empty_state.
Proof.
  cbv zeta. eexists. split; [vm_compute; reflexivity|].
  pose proof (@returned_signal_well_formed Scenario.opening_bell Scenario.calm
                (SignalGenerator.init Scenario.baseline) Scenario.ltf_single
                Scenario.htf Scenario.min_tick _ eq_refl) as H.
  cbv zeta in H.
  destruct H as (_ & _ & A & (sweep & B1 & B2 & _) & _ & _ & _ & C & _ & D & _ & E).
  split; [exact A|]. split; [exists sweep; split; assumption|].
  split; [exact C|]. split; [exact D | exact E].
Defined.

(** X21 on the sizing example: a 50000 account risking 0.5%, MNQ, entry
    16515, stop 16527. *)
Lemma validate_computed_position_scenario :
  let self := PositionSizer.init 50000 (5 # 1000) in
  exists p,
    PositionSizer.calculate_position_size self "MNQ" 16515 16527 2 (1 # 4)
    = Py.Ok p
    /\ (PositionSizer.validate_position self p = true
        <-> PositionSizer.ps_risk_per_contract p
            <= PositionSizer.max_risk_dollars self * (11 # 10)).
Proof.
  cbv zeta. eexists. split; [vm_compute; reflexivity|].
  apply (@validate_computed_position (PositionSizer.init 50000 (5 # 1000))
           "MNQ" 16515 16527 2 (1 # 4)).
  - reflexivity.
  - reflexivity.
  - vm_compute. discriminate.
  - vm_compute. reflexivity.
Defined.

(** X23 on the manager of [__init__], a SHORT from 100 with stop 106, and
    the price 88, two R in profit. *)
Lemma trailing_rule_scenario :
  let signal :=
    {| SignalGenerator.sg_time := 0; SignalGenerator.sg_direction := SHORT;
       SignalGenerator.sg_entry := 100; SignalGenerator.sg_stop_loss := 106;
       SignalGenerator.sg_target := 82; SignalGenerator.sg_risk := 6;
       SignalGenerator.sg_reward := 18;
       SignalGenerator.sg_risk_reward_ratio := 3;
       SignalGenerator.sg_confirmations := SignalGenerator.empty_state;
       SignalGenerator.sg_filter_scores := None |} in
  let s := TrailingStopManager.calculate_stop TrailingStopManager.init signal 88 in
  TrailingStopManager.st_reason s <> TrailingStopManager.TRAILING
  /\ TrailingStopManager.st_profit_locked s = 0.
Proof.
  cbv zeta.
  refine (let H := @trailing_rule_unreachable TrailingStopManager.init _ 88 _ in
          conj (proj1 H) (proj1 (proj2 H))).
  vm_compute. discriminate.
Defined.

(** X25 on the 21 bars of the first scenario, in chunks of 3. *)
Lemma aggregate_to_timeframe_scenario :
  exists out,
    Aggregation.aggregate_to_timeframe Scenario.ltf_first 3 = Some out
    /\ List.length out = 7%nat
    /\ option_map bar_low (nth_error out 1) = Some 980
    /\ option_map bar_high (nth_error out 3) = Some 1010.
Proof.
  destruct (@aggregate_to_timeframe_bars Scenario.ltf_first 3)
    as (out & E & L & _).
  - lia.
  - vm_compute. lia.
  - exists out. split; [exact E|]. split; [exact L|].
    vm_compute in E. injection E as <-. split; reflexivity.
Defined.

(** X26 on the first 20 of the 21 bars of the first scenario. *)
Lemma aggregate_bars_scenario :
  Aggregation._aggregate_bars (firstn 20 Scenario.ltf_first) 3
  = option_map (firstn 6) (Aggregation.aggregate_to_timeframe Scenario.ltf_first 3).
Proof.
  apply (@aggregate_bars_is_prefix Scenario.ltf_first 3 20).
  - lia.
  - vm_compute. lia.
Defined.

(** X29 on the backtest of 101 bars: the only index visited is 100, the
    signal found there has its stop at 1010.75, and the signal bar, whose
    high is 1011, stops the trade out. *)
Lemma signal_bar_stops_trade_scenario :
  let htf_bars_15m :=
    match Aggregation.aggregate_to_timeframe BacktestScenario.ltf_101 3 with
    | Some bars => bars
    | None => []
    end in
  let r := BacktestLoop.step Scenario.opening_bell Scenario.calm
             BacktestScenario.mnq BacktestScenario.ltf_101 htf_bars_15m
             (BacktestLoop.init "MNQ" Scenario.baseline 50000, 0%nat) 100 in
  exists t,
    BacktestLoop.trades (fst r) = [t]
    /\ Backtester.tr_entry t = 986
    /\ Backtester.tr_result t = Backtester.LOSS
    /\ Backtester.tr_bars_held t = 1%nat.
Proof.
  cbv zeta.
  destruct (@booked_trade_starts_on_signal_bar Scenario.opening_bell
              Scenario.calm BacktestScenario.mnq BacktestScenario.ltf_101
              match Aggregation.aggregate_to_timeframe BacktestScenario.ltf_101 3 with
              | Some bars => bars
              | None => []
              end
              (BacktestLoop.init "MNQ" Scenario.baseline 50000) 0%nat 100%nat)
    as (signal & t & bar & Hsig & Ht & Hbar & _ & _ & _ & He & _ & Hl & _).
  - vm_compute. lia.
  - vm_compute. discriminate.
  - vm_compute in Hsig. injection Hsig as <-.
    vm_compute in Hbar. injection Hbar as <-.
    exists t. split; [exact Ht|]. split; [exact He|].
    apply Hl. vm_compute. reflexivity.
Defined.

(** The whole backtest on these bars: one signal, one trade, a loss of 198
    booked on a capital of 50000. *)
Example backtest_101_bars :
  let r := BacktestLoop.run_backtest Scenario.opening_bell Scenario.calm
             BacktestScenario.mnq BacktestScenario.ltf_101
             (BacktestLoop.init "MNQ" Scenario.baseline 50000) in
  snd r = 1%nat
  /\ map Backtester.tr_result (BacktestLoop.trades (fst r)) = [Backtester.LOSS]
  /\ map Backtester.tr_pnl (BacktestLoop.trades (fst r)) = [- (792 # 4)]
  /\ BacktestLoop.equity_curve (fst r) = [50000; 199208 # 4].
Proof. vm_compute. repeat split. Qed.
